(** * Krishimitra: the service handlers and the template-patching scripts

    This development embeds the JavaScript of the repository:

    - the enhanced service script (second document of
      [fix_market_prices.js]): [loadMarketPrices], [loadWeatherData],
      [loadGovernmentSchemes], [loadCropRecommendations],
      [updateLocation], [showService] and [loadServiceData], the
      listener that [setupServiceCards] adds to the service cards and
      the callback of the timer that loads all services;
    - the two Node scripts that patch [core/templates/index.html]
      (first document of [fix_market_prices.js] and [unnamed/part_000]);
    - the function [fetchMarketPrices] that the second of these scripts
      writes into the template.

    Conventions.

    - A JavaScript string is modelled by the byte string of its UTF-8
      encoding.  The programs only concatenate strings, compare them for
      equality, test them for emptiness and search for ASCII markers;
      all of these commute with the encoding.
    - Inside a literal passed to [lit], the character [~] stands for the
      double-quote character (the sources never contain [~]).
    - What [console.log], [console.warn] and [console.error] print is
      not modelled: they touch neither the document nor the network.
      Where their argument is a template literal whose evaluation could
      throw, that evaluation is kept. *)

From Stdlib Require Import Ascii String ZArith Lia.
From stdpp Require Import base option strings pretty list gmap.

Set Warnings "-register-all".

Local Open Scope string_scope.

(** ** Strings *)

Definition dquote : ascii := Ascii.ascii_of_nat 34.

(** [lit s] is the literal [s] with every [~] read as a double quote. *)
Fixpoint lit (s : string) : string :=
  match s with
  | EmptyString => EmptyString
  | String c r => String (if Ascii.eqb c "~"%char then dquote else c) (lit r)
  end.

(** [Array.prototype.join] on strings. *)
Fixpoint join (sep : string) (parts : list string) : string :=
  match parts with
  | [] => ""
  | [p] => p
  | p :: rest => p +:+ sep +:+ join sep rest
  end.

(** ** Completions: a normal result or a thrown exception *)

Inductive error : Type :=
| TypeError      (* property of null/undefined, call of a non-function, ... *)
| NetworkError   (* the promise returned by [fetch] rejects *)
| SyntaxError    (* [response.json()] rejects: the body is not JSON *)
| ENOENT.        (* [fs.readFileSync] on a missing file *)

Inductive completion (A : Type) : Type :=
| Normal (a : A)
| Thrown (e : error).
Arguments Normal {A} a.
Arguments Thrown {A} e.

#[global] Instance completion_ret : MRet completion := fun A a => Normal a.
#[global] Instance completion_bind : MBind completion := fun A B f c =>
  match c with
  | Normal a => f a
  | Thrown e => Thrown e
  end.

(** [html += f(item)] for every item, in order ([forEach] with an
    accumulating string). *)
Fixpoint append_each {A : Type} (f : A -> completion string) (items : list A)
    (html : string) : completion string :=
  match items with
  | [] => Normal html
  | x :: rest => piece ← f x; append_each f rest (html +:+ piece)
  end.

(** ** The host: what the JavaScript engine supplies

    Numbers are IEEE doubles and their printing, like the printing of
    dates, depends on the engine and its locale data.  The model takes
    them from the host and relies on no property of them. *)

Class Host (num : Type) : Type := {
  (** [false] exactly for [+0], [-0] and [NaN] *)
  num_truthy : num -> bool;
  (** [Number::toString], used by template literals *)
  num_to_string : num -> string;
  (** [Number.prototype.toLocaleString('hi-IN')] *)
  num_to_locale : num -> string;
  (** the number denoted by an integer literal or an array index *)
  num_of_Z : Z -> num;
  num_nan : num;
  (** [a >= b] and [a > b] on numbers ([false] when one is [NaN]) *)
  num_ge : num -> num -> bool;
  num_gt : num -> num -> bool;
  (** [StringToNumber] *)
  string_to_num : string -> num;
  (** [new Date(n).toLocaleString('hi-IN')] for a number [n] *)
  date_locale_of_num : num -> string;
  (** [new Date(s).toLocaleString('hi-IN')] for a string [s] *)
  date_locale_of_string : string -> string;
  (** [String(Object.prototype[k])] when [Object.prototype] has a member
      named [k] ([constructor], [toString], [__proto__], ...) *)
  object_prototype_member : string -> option string;
  (** the number of UTF-16 code units of a string *)
  utf16_length : string -> Z;
  (** the separator used by [Array.prototype.toLocaleString] *)
  list_separator : string
}.

(** ** Template literals of the service script

    Each definition is one template literal of the source, with its
    interpolated expressions as arguments, in order of appearance. *)

(** The url requested by [loadMarketPrices] *)
Definition market_url (location latitude longitude : string) : string :=
  lit "/api/market-prices/?location="
  +:+ location
  +:+ lit "&latitude="
  +:+ latitude
  +:+ lit "&longitude="
  +:+ longitude
  +:+ lit "&v=v2.0".

(** Markup of [loadMarketPrices]: the header and the opening of the price grid *)
Definition market_header (location source updated : string) : string :=
  lit "
                <div class=~real-time-header~ style=~margin-bottom: 20px;~>
                    <h4 style=~color: #2d5016;~>💰 बाजार भाव - "
  +:+ location
  +:+ lit "</h4>
                    <p style=~color: #666; margin: 5px 0;~>📊 स्रोत: "
  +:+ source
  +:+ lit "</p>
                    <p style=~color: #666; margin: 5px 0;~>🕒 अंतिम अपडेट: "
  +:+ updated
  +:+ lit "</p>
                </div>
                <div style=~display: grid; grid-template-columns: repeat(auto-fill, minmax(250px, 1fr)); gap: 20px; margin-top: 20px;~>
            ".

(** Markup of [loadMarketPrices]: one crop *)
Definition market_crop_card (name trend price msp profitColor profit demand supply : string) : string :=
  lit "
                    <div style=~background: white; border-radius: 15px; padding: 20px; box-shadow: 0 4px 15px rgba(0,0,0,0.1); transition: transform 0.3s;~>
                        <div style=~display: flex; justify-content: space-between; align-items: center; margin-bottom: 15px;~>
                            <h6 style=~margin: 0; color: #2d5016; font-weight: 700;~>🌾 "
  +:+ name
  +:+ lit "</h6>
                            <span style=~font-size: 1.2rem;~>"
  +:+ trend
  +:+ lit "</span>
                        </div>
                        <div style=~text-align: center; margin-bottom: 15px;~>
                            <div style=~font-size: 1.8rem; font-weight: 700; color: #4a7c59;~>₹"
  +:+ price
  +:+ lit "</div>
                            <div style=~color: #666; font-size: 0.9rem;~>/quintal</div>
                        </div>
                        <div style=~font-size: 0.9rem; line-height: 1.8;~>
                            <div style=~display: flex; justify-content: space-between;~>
                                <span style=~color: #666;~>MSP:</span>
                                <span style=~font-weight: 600;~>₹"
  +:+ msp
  +:+ lit "</span>
                            </div>
                            <div style=~display: flex; justify-content: space-between;~>
                                <span style=~color: #666;~>लाभ:</span>
                                <span style=~font-weight: 600; color: "
  +:+ profitColor
  +:+ lit ";~>₹"
  +:+ profit
  +:+ lit "</span>
                            </div>
                            <div style=~display: flex; justify-content: space-between;~>
                                <span style=~color: #666;~>मांग:</span>
                                <span style=~font-weight: 600;~>"
  +:+ demand
  +:+ lit "</span>
                            </div>
                            <div style=~display: flex; justify-content: space-between;~>
                                <span style=~color: #666;~>आपूर्ति:</span>
                                <span style=~font-weight: 600;~>"
  +:+ supply
  +:+ lit "</span>
                            </div>
                        </div>
                    </div>
                ".

(** Markup of [loadMarketPrices]: the opening of the list of mandis *)
Definition market_mandis_header : string :=
  lit "
                    <div style=~margin-top: 30px;~>
                        <h5 style=~color: #2d5016; margin-bottom: 15px;~>🏪 निकटतम मंडी</h5>
                        <div style=~display: grid; grid-template-columns: repeat(auto-fill, minmax(200px, 1fr)); gap: 15px;~>
                ".

(** Markup of [loadMarketPrices]: one mandi *)
Definition market_mandi_card (name distance specialty statusColor status : string) : string :=
  lit "
                        <div style=~background: #f8f9fa; border-radius: 10px; padding: 15px; border-left: 4px solid #4a7c59;~>
                            <div style=~font-weight: 700; color: #2d5016; margin-bottom: 5px;~>"
  +:+ name
  +:+ lit "</div>
                            <div style=~font-size: 0.85rem; color: #666;~>📍 "
  +:+ distance
  +:+ lit "</div>
                            <div style=~font-size: 0.85rem; color: #666;~>🏷️ "
  +:+ specialty
  +:+ lit "</div>
                            <div style=~font-size: 0.85rem; color: "
  +:+ statusColor
  +:+ lit "; font-weight: 600;~>"
  +:+ status
  +:+ lit "</div>
                        </div>
                    ".

(** The url requested by [loadWeatherData] *)
Definition weather_url (location latitude longitude : string) : string :=
  lit "/api/weather/?location="
  +:+ location
  +:+ lit "&latitude="
  +:+ latitude
  +:+ lit "&longitude="
  +:+ longitude.

(** Markup of [loadWeatherData]: the current weather *)
Definition weather_card (location temperature condition humidity wind feels pressure unit : string) : string :=
  lit "
                <div style=~background: white; border-radius: 15px; padding: 30px; box-shadow: 0 4px 15px rgba(0,0,0,0.1); margin-bottom: 20px;~>
                    <h4 style=~color: #2d5016; margin-bottom: 20px;~>🌤️ मौसम की जानकारी - "
  +:+ location
  +:+ lit "</h4>
                    <div style=~display: grid; grid-template-columns: repeat(auto-fit, minmax(200px, 1fr)); gap: 20px;~>
                        <div style=~text-align: center;~>
                            <div style=~font-size: 3rem; font-weight: 700; color: #4a7c59;~>"
  +:+ temperature
  +:+ lit "</div>
                            <div style=~color: #666; margin-top: 10px;~>"
  +:+ condition
  +:+ lit "</div>
                        </div>
                        <div>
                            <div style=~margin-bottom: 10px;~>💧 नमी: "
  +:+ humidity
  +:+ lit "</div>
                            <div style=~margin-bottom: 10px;~>💨 हवा: "
  +:+ wind
  +:+ lit "</div>
                            <div style=~margin-bottom: 10px;~>🌡️ अनुभव: "
  +:+ feels
  +:+ lit "</div>
                            <div style=~margin-bottom: 10px;~>📊 दबाव: "
  +:+ pressure
  +:+ lit " "
  +:+ unit
  +:+ lit "</div>
                        </div>
                    </div>
                </div>
            ".

(** Markup of [loadWeatherData]: the opening of the forecast *)
Definition weather_forecast_header : string :=
  lit "
                    <div style=~background: white; border-radius: 15px; padding: 30px; box-shadow: 0 4px 15px rgba(0,0,0,0.1);~>
                        <h5 style=~color: #2d5016; margin-bottom: 15px;~>📅 7 दिन का पूर्वानुमान</h5>
                        <div style=~display: grid; grid-template-columns: repeat(auto-fill, minmax(150px, 1fr)); gap: 15px;~>
                ".

(** Markup of [loadWeatherData]: one day of the forecast *)
Definition weather_day_card (day temperature condition : string) : string :=
  lit "
                        <div style=~background: #f8f9fa; border-radius: 10px; padding: 15px; text-align: center;~>
                            <div style=~font-weight: 700; color: #2d5016; margin-bottom: 5px;~>"
  +:+ day
  +:+ lit "</div>
                            <div style=~font-size: 1.5rem; color: #4a7c59; margin: 10px 0;~>"
  +:+ temperature
  +:+ lit "</div>
                            <div style=~font-size: 0.85rem; color: #666;~>"
  +:+ condition
  +:+ lit "</div>
                        </div>
                    ".

(** The url requested by [loadGovernmentSchemes] *)
Definition schemes_url (location : string) : string :=
  lit "/api/government-schemes/?location="
  +:+ location.

(** Markup of [loadGovernmentSchemes]: one scheme *)
Definition scheme_card (name description benefits eligibility : string) : string :=
  lit "
                    <div style=~background: white; border-radius: 15px; padding: 25px; box-shadow: 0 4px 15px rgba(0,0,0,0.1); border-left: 5px solid #4a7c59;~>
                        <h5 style=~color: #2d5016; margin-bottom: 15px;~>📋 "
  +:+ name
  +:+ lit "</h5>
                        <p style=~color: #666; margin-bottom: 15px; line-height: 1.6;~>"
  +:+ description
  +:+ lit "</p>
                        <div style=~display: grid; grid-template-columns: repeat(auto-fit, minmax(200px, 1fr)); gap: 15px; margin-top: 15px;~>
                            <div>
                                <strong style=~color: #2d5016;~>💰 लाभ:</strong>
                                <div style=~color: #666; font-size: 0.9rem; margin-top: 5px;~>"
  +:+ benefits
  +:+ lit "</div>
                            </div>
                            <div>
                                <strong style=~color: #2d5016;~>✅ पात्रता:</strong>
                                <div style=~color: #666; font-size: 0.9rem; margin-top: 5px;~>"
  +:+ eligibility
  +:+ lit "</div>
                            </div>
                        </div>
                    </div>
                ".

(** The url requested by [loadCropRecommendations] *)
Definition crops_url (location : string) : string :=
  lit "/api/advisories/?location="
  +:+ location.

(** Markup of [loadCropRecommendations]: the header and the opening of the grid *)
Definition crops_header (season region source message : string) : string :=
  lit "
                <div class=~real-time-header~ style=~background: linear-gradient(135deg, #2d5016 0%, #4a7c59 100%); margin-bottom: 25px; padding: 20px; border-radius: 12px;~>
                    <h4 style=~color: white; margin-bottom: 10px;~>"
  +:+ season
  +:+ lit " के लिए सर्वोत्तम फसल सुझाव - "
  +:+ region
  +:+ lit "</h4>
                    <p style=~color: rgba(255,255,255,0.9); margin: 5px 0;~>📊 स्रोत: "
  +:+ source
  +:+ lit "</p>
                    <p style=~color: rgba(255,255,255,0.8); font-size: 0.9rem; margin: 0;~>"
  +:+ message
  +:+ lit "</p>
                </div>
                <div style=~display: grid; grid-template-columns: repeat(auto-fill, minmax(280px, 1fr)); gap: 20px;~>
            ".

(** Markup of [loadCropRecommendations]: one recommendation *)
Definition crop_card (suitabilityColor categoryIcon category index name_hindi name score profit yield duration waterColor water reason : string) : string :=
  lit "
                    <div style=~background: white; border-radius: 15px; padding: 20px; box-shadow: 0 5px 15px rgba(0,0,0,0.08); transition: transform 0.3s; position: relative; overflow: hidden; border-top: 4px solid "
  +:+ suitabilityColor
  +:+ lit ";~>
                        <div style=~position: absolute; top: 10px; right: 10px; background: #f8f9fa; padding: 5px 10px; border-radius: 20px; font-size: 0.8rem; font-weight: 600; color: #666; border: 1px solid #eee;~>
                            "
  +:+ categoryIcon
  +:+ lit " "
  +:+ category
  +:+ lit "
                        </div>
                        
                        <h5 style=~color: #2d5016; font-weight: 700; margin-bottom: 5px; font-size: 1.25rem;~>"
  +:+ index
  +:+ lit ". "
  +:+ name_hindi
  +:+ lit "</h5>
                        <div style=~color: #666; font-size: 0.9rem; margin-bottom: 15px;~>"
  +:+ name
  +:+ lit "</div>
                        
                        <div style=~display: flex; align-items: center; margin-bottom: 15px;~>
                            <div style=~flex-grow: 1; height: 8px; background: #eee; border-radius: 4px; overflow: hidden;~>
                                <div style=~width: "
  +:+ score
  +:+ lit "%; height: 100%; background: "
  +:+ suitabilityColor
  +:+ lit "; border-radius: 4px;~></div>
                            </div>
                            <span style=~margin-left: 10px; font-weight: 700; color: "
  +:+ suitabilityColor
  +:+ lit ";~>"
  +:+ score
  +:+ lit "%</span>
                        </div>
                        
                        <div style=~display: grid; grid-template-columns: 1fr 1fr; gap: 10px; font-size: 0.9rem; background: #f8f9fa; padding: 10px; border-radius: 10px; margin-bottom: 15px;~>
                            <div>
                                <div style=~color: #666; font-size: 0.8rem;~>अनुमानित लाभ</div>
                                <div style=~font-weight: 700; color: #28a745;~>₹"
  +:+ profit
  +:+ lit "</div>
                            </div>
                            <div>
                                <div style=~color: #666; font-size: 0.8rem;~>उपज (क्विंटल/हे.)</div>
                                <div style=~font-weight: 700; color: #2d5016;~>"
  +:+ yield
  +:+ lit " Q</div>
                            </div>
                            <div>
                                <div style=~color: #666; font-size: 0.8rem;~>अवधि</div>
                                <div style=~font-weight: 600; color: #555;~>"
  +:+ duration
  +:+ lit " दिन</div>
                            </div>
                             <div>
                                <div style=~color: #666; font-size: 0.8rem;~>पानी की आवश्यकता</div>
                                <div style=~font-weight: 600; color: "
  +:+ waterColor
  +:+ lit "; text-transform: capitalize;~>"
  +:+ water
  +:+ lit "</div>
                            </div>
                        </div>
                        
                        <div style=~font-size: 0.9rem; color: #555; background: #fff3cd; padding: 10px; border-radius: 8px; border-left: 3px solid #ffc107;~>
                            💡 <strong>सुझाव:</strong> "
  +:+ reason
  +:+ lit "
                        </div>
                    </div>
                ".

(** The fixed markup assigned to [innerHTML]: for each service the
    loading placeholder, the message shown when there is nothing to
    show, and the message shown after a failure. *)

Definition market_loading : string :=
  lit "<div class=~loading~>बाजार भाव लोड हो रहे हैं...</div>".

Definition market_unavailable : string :=
  lit "<div style=~padding: 20px; text-align: center; color: #666;~>बाजार भाव डेटा उपलब्ध नहीं है</div>".

Definition market_error : string :=
  lit "<div style=~padding: 20px; text-align: center; color: #dc3545;~>बाजार भाव लोड करने में त्रुटि</div>".

Definition weather_loading : string :=
  lit "<div class=~loading~>मौसम डेटा लोड हो रहा है...</div>".

Definition weather_unavailable : string :=
  lit "<div style=~padding: 20px; text-align: center; color: #666;~>मौसम डेटा उपलब्ध नहीं है</div>".

Definition weather_error : string :=
  lit "<div style=~padding: 20px; text-align: center; color: #dc3545;~>मौसम डेटा लोड करने में त्रुटि</div>".

Definition schemes_loading : string :=
  lit "<div class=~loading~>योजनाएं लोड हो रही हैं...</div>".

Definition schemes_unavailable : string :=
  lit "<div style=~padding: 20px; text-align: center; color: #666;~>योजनाएं उपलब्ध नहीं हैं</div>".

Definition schemes_error : string :=
  lit "<div style=~padding: 20px; text-align: center; color: #dc3545;~>योजनाएं लोड करने में त्रुटि</div>".

Definition crops_loading : string :=
  lit "<div class=~loading~>फसल सुझाव लोड हो रहे हैं...</div>".

Definition crops_unavailable : string :=
  lit "<div style=~padding: 20px; text-align: center; color: #666;~>फसल सुझाव उपलब्ध नहीं हैं</div>".

Definition crops_error : string :=
  lit "<div style=~padding: 20px; text-align: center; color: #dc3545;~>फसल सुझाव लोड करने में त्रुटि</div>".


(** ** Notation for programs in continuation-passing form *)

Declare Scope prog_scope.
Delimit Scope prog_scope with prog.
Notation "x <- op ;; k" := (op (fun x => k))
  (at level 100, op at next level, right associativity, only parsing) : prog_scope.
Notation "'perform' op ;; k" := (op k)
  (at level 100, op at next level, right associativity, only parsing) : prog_scope.

Section Model.
Context {num : Type} `{!Host num}.

(** ** Values: what [JSON.parse] produces, and [undefined] *)

Inductive value : Type :=
| VUndef
| VNull
| VBool (b : bool)
| VNum (n : num)
| VStr (s : string)
| VArr (items : list value)
| VObj (fields : list (string * value)).

(** The own property [k] of an object given by its members in source
    order; as in [JSON.parse], the last member of a name wins. *)
Fixpoint own (fields : list (string * value)) (k : string) : option value :=
  match fields with
  | [] => None
  | (k', v) :: rest =>
      match own rest k with
      | Some w => Some w
      | None => if String.eqb k' k then Some v else None
      end
  end.

(** [ToBoolean] *)
Definition truthy (v : value) : bool :=
  match v with
  | VUndef | VNull => false
  | VBool b => b
  | VNum n => num_truthy n
  | VStr s => negb (String.eqb s "")
  | VArr _ | VObj _ => true
  end.

Definition nullish (v : value) : bool :=
  match v with
  | VUndef | VNull => true
  | _ => false
  end.

(** [v.k] for the data members the handlers read.  None of these names
    is a member of a built-in prototype, so only own properties count;
    [length] is read through [length_gt0] and [get_length]. *)
Definition get (v : value) (k : string) : completion value :=
  match v with
  | VUndef | VNull => Thrown TypeError
  | VObj fields => Normal (default VUndef (own fields k))
  | VBool _ | VNum _ | VStr _ | VArr _ => Normal VUndef
  end.

(** [v?.k] *)
Definition get_opt (v : value) (k : string) : completion value :=
  if nullish v then Normal VUndef else get v k.

(** [a || b], with [b] evaluated only when [a] is falsy *)
Definition js_or (a : value) (b : completion value) : completion value :=
  if truthy a then Normal a else b.

(** [v === 'text'] *)
Definition strict_eq_str (v : value) (text : string) : bool :=
  match v with
  | VStr s => String.eqb s text
  | _ => false
  end.

(** [ToString], as applied by template literals.  An object parsed from
    JSON has no callable own member: with an own [toString] the
    conversion finds nothing to call and throws; without it
    [Object.prototype.toString] answers. *)
Fixpoint to_str (v : value) : completion string :=
  match v with
  | VUndef => Normal "undefined"
  | VNull => Normal "null"
  | VBool b => Normal (if b then "true" else "false")
  | VNum n => Normal (num_to_string n)
  | VStr s => Normal s
  | VArr items =>
      parts ← (fix each (l : list value) : completion (list string) :=
                 match l with
                 | [] => Normal []
                 | x :: r =>
                     s ← (if nullish x then Normal "" else to_str x);
                     ss ← each r;
                     Normal (s :: ss)
                 end) items;
      Normal (join "," parts)
  | VObj fields =>
      match own fields "toString" with
      | Some _ => Thrown TypeError
      | None => Normal "[object Object]"
      end
  end.

(** [ToPrimitive]: objects and arrays become their string form (the
    inherited [valueOf] returns the object itself, so [toString] decides
    under either hint). *)
Definition to_primitive (v : value) : completion value :=
  match v with
  | VArr _ | VObj _ => s ← to_str v; Normal (VStr s)
  | _ => Normal v
  end.

(** [ToNumber] of a primitive *)
Definition to_number (p : value) : num :=
  match p with
  | VNull => num_of_Z 0
  | VBool b => num_of_Z (if b then 1 else 0)
  | VNum n => n
  | VStr s => string_to_num s
  | _ => num_nan
  end.

(** [v >= c] and [v > c] for a numeric literal [c] *)
Definition js_ge (v : value) (c : Z) : completion bool :=
  p ← to_primitive v; Normal (num_ge (to_number p) (num_of_Z c)).

Definition js_gt (v : value) (c : Z) : completion bool :=
  p ← to_primitive v; Normal (num_gt (to_number p) (num_of_Z c)).

(** [v.length > 0].  Arrays and strings have a length that is a
    non-negative integer; any other object has the own member [length],
    if any. *)
Definition length_gt0 (v : value) : completion bool :=
  match v with
  | VUndef | VNull => Thrown TypeError
  | VArr items => Normal (negb (bool_decide (items = [])))
  | VStr s => Normal (negb (String.eqb s ""))
  | VObj fields => js_gt (default VUndef (own fields "length")) 0
  | VBool _ | VNum _ => Normal false
  end.

(** [v && v.length > 0] *)
Definition nonempty (v : value) : completion bool :=
  if truthy v then length_gt0 v else Normal false.

(** The receiver of [v.forEach(...)]: only arrays have the method. *)
Definition as_array (v : value) : completion (list value) :=
  match v with
  | VArr items => Normal items
  | _ => Thrown TypeError
  end.

(** The receiver of [v.slice(0, 7).forEach(...)]: a string has [slice]
    but its result has no [forEach]. *)
Definition slice7_as_array (v : value) : completion (list value) :=
  match v with
  | VArr items => Normal (take 7 items)
  | _ => Thrown TypeError
  end.

(** [v.toLocaleString('hi-IN')] *)
Fixpoint to_locale_string (v : value) : completion string :=
  match v with
  | VUndef | VNull => Thrown TypeError
  | VBool b => Normal (if b then "true" else "false")
  | VNum n => Normal (num_to_locale n)
  | VStr s => Normal s
  | VArr items =>
      parts ← (fix each (l : list value) : completion (list string) :=
                 match l with
                 | [] => Normal []
                 | x :: r =>
                     s ← (if nullish x then Normal "" else to_locale_string x);
                     ss ← each r;
                     Normal (s :: ss)
                 end) items;
      Normal (join list_separator parts)
  | VObj fields =>
      match own fields "toLocaleString", own fields "toString" with
      | None, None => Normal "[object Object]"
      | _, _ => Thrown TypeError
      end
  end.

(** [new Date(v).toLocaleString('hi-IN')] *)
Definition date_locale (v : value) : completion string :=
  p ← to_primitive v;
  Normal match p with
         | VStr s => date_locale_of_string s
         | _ => date_locale_of_num (to_number p)
         end.

(** ** The document

    The document is the sequence of its elements in document order.  An
    element is referred to by its position; no operation of the
    programs adds or removes an element.  The markup assigned to
    [innerHTML] is kept as the string it is: the elements it would
    create are not part of the model. *)

Record element : Type := Element {
  el_id : string;
  el_classes : list string;
  el_innerHTML : string
}.

(** [document.getElementById(id)]: the first element with that id *)
Definition getElementById (d : list element) (id : string) : option nat :=
  fst <$> list_find (fun e => el_id e = id) d.

(** [document.querySelectorAll('.' + cls)], in document order *)
Definition querySelectorAll (d : list element) (cls : string) : list nat :=
  fst <$> filter (fun p => cls ∈ el_classes p.2) (imap pair d).

Definition with_innerHTML (html : string) (e : element) : element :=
  {| el_id := el_id e; el_classes := el_classes e; el_innerHTML := html |}.

(** [classList.remove(tok)] and [classList.add(tok)] *)
Definition class_remove (tok : string) (e : element) : element :=
  {| el_id := el_id e;
     el_classes := filter (fun c => c ≠ tok) (el_classes e);
     el_innerHTML := el_innerHTML e |}.

Definition class_add (tok : string) (e : element) : element :=
  {| el_id := el_id e;
     el_classes := if bool_decide (tok ∈ el_classes e) then el_classes e
                   else el_classes e ++ [tok];
     el_innerHTML := el_innerHTML e |}.

(** The document after [classList.remove(tok)] on each of the elements
    [rs], in order *)
Definition remove_all (tok : string) (rs : list nat) (d : list element) : list element :=
  foldl (fun d r => alter (class_remove tok) r d) d rs.

(** The innerHTML of the element at position [r], if there is one *)
Definition innerHTML_at (d : list element) (r : nat) : option string :=
  el_innerHTML <$> d !! r.

(** ** Programs

    A function body is a tree of the operations it performs on its
    environment.  [Await url k] is [await fetch(url)] followed by
    [await response.json()]: the function is suspended and [k] is what
    it does once the environment has answered.  [Async callee k] calls
    an [async] function without awaiting it. *)

(** The three module-level variables of the service script *)
Record location : Type := Location {
  currentLocation : value;
  currentLatitude : value;
  currentLongitude : value
}.

Inductive outcome : Type :=
| FetchRejected                (* [fetch] rejects *)
| JsonRejected                 (* [response.json()] rejects *)
| JsonBody (data : value).     (* the parsed body *)

Inductive prog : Type :=
| Done
| Throw (e : error)
| GetElementById (id : string) (k : option nat -> prog)
| SetInnerHTML (r : nat) (html : string) (k : prog)
| QuerySelectorAll (cls : string) (k : list nat -> prog)
| ClassListRemove (r : nat) (tok : string) (k : prog)
| ClassListAdd (r : nat) (tok : string) (k : prog)
| ScrollIntoView (r : nat) (k : prog)
| GetLocation (k : location -> prog)
| SetLocation (l : location) (k : prog)
| DateNow (k : num -> prog)
| Await (url : string) (k : outcome -> prog)
| Async (callee : prog) (k : prog).

(** A pure computation inside a program; its exception is thrown. *)
Definition Pure {A : Type} (c : completion A) (k : A -> prog) : prog :=
  match c with
  | Normal a => k a
  | Thrown e => Throw e
  end.

(** [const data = await (await fetch(url)).json()] *)
Definition FetchJson (url : string) (k : value -> prog) : prog :=
  Await url (fun o =>
    match o with
    | FetchRejected => Throw NetworkError
    | JsonRejected => Throw SyntaxError
    | JsonBody data => k data
    end).

(** [try { body } catch (error) { handler }] *)
Fixpoint try_catch (body : prog) (handler : error -> prog) : prog :=
  match body with
  | Done => Done
  | Throw e => handler e
  | GetElementById id k => GetElementById id (fun r => try_catch (k r) handler)
  | SetInnerHTML r html k => SetInnerHTML r html (try_catch k handler)
  | QuerySelectorAll cls k => QuerySelectorAll cls (fun rs => try_catch (k rs) handler)
  | ClassListRemove r tok k => ClassListRemove r tok (try_catch k handler)
  | ClassListAdd r tok k => ClassListAdd r tok (try_catch k handler)
  | ScrollIntoView r k => ScrollIntoView r (try_catch k handler)
  | GetLocation k => GetLocation (fun l => try_catch (k l) handler)
  | SetLocation l k => SetLocation l (try_catch k handler)
  | DateNow k => DateNow (fun n => try_catch (k n) handler)
  | Await url k => Await url (fun o => try_catch (k o) handler)
  | Async callee k => Async callee (try_catch k handler)
  end.

(** A call of a synchronous function, followed by [rest] *)
Fixpoint call (callee rest : prog) : prog :=
  match callee with
  | Done => rest
  | Throw e => Throw e
  | GetElementById id k => GetElementById id (fun r => call (k r) rest)
  | SetInnerHTML r html k => SetInnerHTML r html (call k rest)
  | QuerySelectorAll cls k => QuerySelectorAll cls (fun rs => call (k rs) rest)
  | ClassListRemove r tok k => ClassListRemove r tok (call k rest)
  | ClassListAdd r tok k => ClassListAdd r tok (call k rest)
  | ScrollIntoView r k => ScrollIntoView r (call k rest)
  | GetLocation k => GetLocation (fun l => call (k l) rest)
  | SetLocation l k => SetLocation l (call k rest)
  | DateNow k => DateNow (fun n => call (k n) rest)
  | Await url k => Await url (fun o => call (k o) rest)
  | Async callee' k => Async callee' (call k rest)
  end.

(** [items.forEach(item => body item)] for a body with effects *)
Fixpoint for_each {A : Type} (items : list A) (body : A -> prog -> prog)
    (rest : prog) : prog :=
  match items with
  | [] => rest
  | x :: more => body x (for_each more body rest)
  end.

(** ** The world and the execution of programs *)

Record world : Type := World {
  doc : list element;
  loc : location;
  (** the element last scrolled into view *)
  viewport : option nat;
  (** the urls requested so far, oldest first *)
  requests : list string;
  (** the suspended calls of [async] functions, oldest first: the url
      each one waits for and what it does with the answer *)
  pending : list (string * (outcome -> prog))
}.

Definition set_doc (d : list element) (w : world) : world :=
  {| doc := d; loc := loc w; viewport := viewport w;
     requests := requests w; pending := pending w |}.
Definition set_loc (l : location) (w : world) : world :=
  {| doc := doc w; loc := l; viewport := viewport w;
     requests := requests w; pending := pending w |}.
Definition set_viewport (r : nat) (w : world) : world :=
  {| doc := doc w; loc := loc w; viewport := Some r;
     requests := requests w; pending := pending w |}.
Definition add_request (url : string) (w : world) : world :=
  {| doc := doc w; loc := loc w; viewport := viewport w;
     requests := requests w ++ [url]; pending := pending w |}.
Definition add_pending (url : string) (k : outcome -> prog) (w : world) : world :=
  {| doc := doc w; loc := loc w; viewport := viewport w;
     requests := requests w; pending := pending w ++ [(url, k)] |}.

Inductive status : Type :=
| Finished (c : completion unit)                 (* returned or threw *)
| Suspended (url : string) (k : outcome -> prog).  (* waits for [url] *)

(** [exec p now w] runs [p] until it returns, throws or is suspended at
    an [await]; [now] is what [Date.now()] answers.  An [async] callee
    runs up to its first [await]; the caller then goes on, whatever
    became of the callee (its promise is dropped). *)
Fixpoint exec (p : prog) (now : num) (w : world) : world * status :=
  match p with
  | Done => (w, Finished (Normal tt))
  | Throw e => (w, Finished (Thrown e))
  | GetElementById id k => exec (k (getElementById (doc w) id)) now w
  | SetInnerHTML r html k =>
      exec k now (set_doc (alter (with_innerHTML html) r (doc w)) w)
  | QuerySelectorAll cls k => exec (k (querySelectorAll (doc w) cls)) now w
  | ClassListRemove r tok k =>
      exec k now (set_doc (alter (class_remove tok) r (doc w)) w)
  | ClassListAdd r tok k =>
      exec k now (set_doc (alter (class_add tok) r (doc w)) w)
  | ScrollIntoView r k => exec k now (set_viewport r w)
  | GetLocation k => exec (k (loc w)) now w
  | SetLocation l k => exec k now (set_loc l w)
  | DateNow k => exec (k now) now w
  | Await url k => (add_request url w, Suspended url k)
  | Async callee k =>
      let (w1, st) := exec callee now w in
      exec k now match st with
                 | Finished _ => w1
                 | Suspended url kc => add_pending url kc w1
                 end
  end.

(** What else runs while a call is suspended: any programs, one after
    the other, each with its own reading of the clock and each up to its
    own end or suspension (other handlers being called, other suspended
    calls being answered, ...). *)
Fixpoint meanwhile (others : list (prog * num)) (w : world) : world :=
  match others with
  | [] => w
  | (p, now) :: rest => meanwhile rest (exec p now w).1
  end.

(** The environment answers the [i]-th suspended call with [o]: the
    call goes on until it ends or is suspended again. *)
Definition answer (i : nat) (o : outcome) (now : num) (w : world) : world :=
  match pending w !! i with
  | None => w
  | Some (_, k) =>
      let (w1, st) :=
        exec (k o) now
          {| doc := doc w; loc := loc w; viewport := viewport w;
             requests := requests w; pending := delete i (pending w) |} in
      match st with
      | Finished _ => w1
      | Suspended url k' => add_pending url k' w1
      end
  end.

(** A call of an [async] function and the answer [o] to the request it
    waits for, with [others] running in between; the clock reads [now]
    at the call and [later] at the answer. *)
Definition run (p : prog) (others : list (prog * num)) (o : outcome)
    (now later : num) (w : world) : world * status :=
  match exec p now w with
  | (w1, Suspended _ k) => exec (k o) later (meanwhile others w1)
  | r => r
  end.

(** ** The service script

    Each handler is transcribed on its own, as in the source. *)

(** [v.k || alt] *)
Definition field_or (v : value) (k : string) (alt : completion value) : completion value :=
  x ← get v k; js_or x alt.

(** [v.length] *)
Definition get_length (v : value) : completion value :=
  match v with
  | VUndef | VNull => Thrown TypeError
  | VArr items => Normal (VNum (num_of_Z (Z.of_nat (length items))))
  | VStr s => Normal (VNum (num_of_Z (utf16_length s)))
  | VObj fields => Normal (default VUndef (own fields "length"))
  | VBool _ | VNum _ => Normal VUndef
  end.

(** *** Market prices *)

(** [data.crops || data.market_prices?.top_crops || []] *)
Definition market_crops (data : value) : completion value :=
  found ← field_or data "crops"
            (market_prices ← get data "market_prices"; get_opt market_prices "top_crops");
  js_or found (Normal (VArr [])).

(** [data.nearby_mandis || data.market_prices?.nearby_mandis || []] *)
Definition market_mandis (data : value) : completion value :=
  found ← field_or data "nearby_mandis"
            (market_prices ← get data "market_prices"; get_opt market_prices "nearby_mandis");
  js_or found (Normal (VArr [])).

(** The body of [crops.forEach(crop => ...)]: the markup of one crop *)
Definition market_crop (crop : value) : completion string :=
  profit ← get crop "profit";
  gain ← js_ge profit 0;
  let profitColor := if gain : bool then "#28a745" else "#dc3545" in
  name ← field_or crop "crop_name_hindi" (get crop "crop_name") ≫= to_str;
  trend ← get crop "trend";
  let icon := if strict_eq_str trend "बढ़ रहा" then "📈"
              else if strict_eq_str trend "गिर रहा" then "📉" else "📊" in
  price ← get crop "current_price" ≫= to_locale_string;
  msp ← get crop "msp" ≫= to_locale_string;
  profit_text ← to_locale_string profit;
  demand ← field_or crop "demand" (Normal (VStr "मध्यम")) ≫= to_str;
  supply ← field_or crop "supply" (Normal (VStr "मध्यम")) ≫= to_str;
  Normal (market_crop_card name icon price msp profitColor profit_text demand supply).

(** The body of [nearbyMandis.forEach(mandi => ...)] *)
Definition market_mandi (mandi : value) : completion string :=
  status ← get mandi "status";
  let statusColor := if strict_eq_str status "खुला" then "#28a745" else "#dc3545" in
  name ← get mandi "name" ≫= to_str;
  distance ← get mandi "distance" ≫= to_str;
  specialty ← get mandi "specialty" ≫= to_str;
  status_text ← to_str status;
  Normal (market_mandi_card name distance specialty statusColor status_text).

(** The markup built in [html] when there are crops.  [now] is what
    [Date.now()] answers; it is used only when [data.timestamp] is
    falsy. *)
Definition market_html (now : num) (data crops nearbyMandis : value) : completion string :=
  location ← get data "location" ≫= to_str;
  source ← field_or data "data_source" (Normal (VStr "Agmarknet + e-NAM")) ≫= to_str;
  updated ← field_or data "timestamp" (Normal (VNum now)) ≫= date_locale;
  let html := market_header location source updated in
  items ← as_array crops;
  html ← append_each market_crop items html;
  let html := html +:+ "</div>" in
  more ← nonempty nearbyMandis;
  if more : bool then
    let html := html +:+ market_mandis_header in
    mandis ← as_array nearbyMandis;
    html ← append_each market_mandi mandis html;
    Normal (html +:+ "</div></div>")
  else Normal html.

(** The message logged after the markup is assigned: only its
    evaluation matters. *)
Definition market_log (crops nearbyMandis : value) : completion string :=
  shown ← get_length crops ≫= to_str;
  len ← (if nullish nearbyMandis then Normal VUndef else get_length nearbyMandis);
  mandis ← js_or len (Normal (VNum (num_of_Z 0))) ≫= to_str;
  Normal ("✅ Displayed " +:+ shown +:+ " crops and " +:+ mandis +:+ " mandis").

Definition market_request (l : location) : completion string :=
  location ← to_str (currentLocation l);
  latitude ← to_str (currentLatitude l);
  longitude ← to_str (currentLongitude l);
  Normal (market_url location latitude longitude).

Definition loadMarketPrices_try : prog :=
  (container <- GetElementById "pricesData" ;;
   match container with
   | None => Done
   | Some container =>
       perform SetInnerHTML container market_loading ;;
       l <- GetLocation ;;
       url <- Pure (market_request l) ;;
       data <- FetchJson url ;;
       crops <- Pure (market_crops data) ;;
       nearbyMandis <- Pure (market_mandis data) ;;
       some <- Pure (nonempty crops) ;;
       if some : bool then
         now <- DateNow ;;
         html <- Pure (market_html now data crops nearbyMandis) ;;
         perform SetInnerHTML container html ;;
         _ <- Pure (market_log crops nearbyMandis) ;;
         Done
       else
         perform SetInnerHTML container market_unavailable ;;
         Done
   end)%prog.

Definition loadMarketPrices_catch (error : error) : prog :=
  (container <- GetElementById "pricesData" ;;
   match container with
   | Some container => perform SetInnerHTML container market_error ;; Done
   | None => Done
   end)%prog.

Definition loadMarketPrices : prog :=
  try_catch loadMarketPrices_try loadMarketPrices_catch.

(** *** Weather *)

(** [data.current_weather || data.data?.current || {}] *)
Definition weather_current (data : value) : completion value :=
  found ← field_or data "current_weather"
            (inner ← get data "data"; get_opt inner "current");
  js_or found (Normal (VObj [])).

(** [data.forecast_7_days || data.data?.forecast_7_days || []] *)
Definition weather_forecast (data : value) : completion value :=
  found ← field_or data "forecast_7_days"
            (inner ← get data "data"; get_opt inner "forecast_7_days");
  js_or found (Normal (VArr [])).

(** [weather && (weather.temperature || data.location)] *)
Definition weather_available (data weather : value) : completion bool :=
  if truthy weather then
    shown ← field_or weather "temperature" (get data "location");
    Normal (truthy shown)
  else Normal false.

(** The body of [forecast.slice(0, 7).forEach(day => ...)] *)
Definition weather_day (day : value) : completion string :=
  name ← field_or day "day" (get day "date") ≫= to_str;
  temperature ← field_or day "temperature" (Normal (VStr "28°C")) ≫= to_str;
  condition ← field_or day "condition" (Normal (VStr "साफ")) ≫= to_str;
  Normal (weather_day_card name temperature condition).

Definition weather_html (data weather forecast : value) : completion string :=
  location ← get data "location" ≫= to_str;
  temperature ← field_or weather "temperature" (Normal (VStr "28°C")) ≫= to_str;
  condition ← (found ← field_or weather "condition" (get weather "description");
               js_or found (Normal (VStr "साफ आसमान"))) ≫= to_str;
  humidity ← field_or weather "humidity" (Normal (VStr "65%")) ≫= to_str;
  wind ← field_or weather "wind_speed" (Normal (VStr "12 km/h")) ≫= to_str;
  feels ← field_or weather "feels_like" (Normal (VStr "30°C")) ≫= to_str;
  pressure ← field_or weather "pressure" (Normal (VStr "1013")) ≫= to_str;
  unit ← field_or weather "pressure_unit" (Normal (VStr "hPa")) ≫= to_str;
  let html := weather_card location temperature condition humidity wind feels pressure unit in
  more ← nonempty forecast;
  if more : bool then
    let html := html +:+ weather_forecast_header in
    days ← slice7_as_array forecast;
    html ← append_each weather_day days html;
    Normal (html +:+ "</div></div>")
  else Normal html.

Definition weather_request (l : location) : completion string :=
  location ← to_str (currentLocation l);
  latitude ← to_str (currentLatitude l);
  longitude ← to_str (currentLongitude l);
  Normal (weather_url location latitude longitude).

Definition loadWeatherData_try : prog :=
  (container <- GetElementById "weatherData" ;;
   match container with
   | None => Done
   | Some container =>
       perform SetInnerHTML container weather_loading ;;
       l <- GetLocation ;;
       url <- Pure (weather_request l) ;;
       data <- FetchJson url ;;
       weather <- Pure (weather_current data) ;;
       forecast <- Pure (weather_forecast data) ;;
       some <- Pure (weather_available data weather) ;;
       if some : bool then
         html <- Pure (weather_html data weather forecast) ;;
         perform SetInnerHTML container html ;;
         Done
       else
         perform SetInnerHTML container weather_unavailable ;;
         Done
   end)%prog.

Definition loadWeatherData_catch (error : error) : prog :=
  (container <- GetElementById "weatherData" ;;
   match container with
   | Some container => perform SetInnerHTML container weather_error ;; Done
   | None => Done
   end)%prog.

Definition loadWeatherData : prog :=
  try_catch loadWeatherData_try loadWeatherData_catch.

(** *** Government schemes *)

(** [data.schemes || []] *)
Definition schemes_list (data : value) : completion value :=
  field_or data "schemes" (Normal (VArr [])).

(** The body of [schemes.forEach(scheme => ...)] *)
Definition scheme_item (scheme : value) : completion string :=
  name ← field_or scheme "name_hindi" (get scheme "name") ≫= to_str;
  description ← (found ← field_or scheme "description_hindi" (get scheme "description");
                 js_or found (Normal (VStr ""))) ≫= to_str;
  benefits ← (found ← field_or scheme "benefits_hindi" (get scheme "benefits");
              js_or found (Normal (VStr "विवरण उपलब्ध नहीं"))) ≫= to_str;
  eligibility ← (found ← field_or scheme "eligibility_hindi" (get scheme "eligibility");
                 js_or found (Normal (VStr "सभी किसान"))) ≫= to_str;
  Normal (scheme_card name description benefits eligibility).

Definition schemes_html (schemes : value) : completion string :=
  let html := lit "<div style=~display: grid; gap: 20px;~>" in
  items ← as_array schemes;
  html ← append_each scheme_item items html;
  Normal (html +:+ "</div>").

Definition schemes_log (schemes : value) : completion string :=
  shown ← get_length schemes ≫= to_str;
  Normal ("✅ Displayed " +:+ shown +:+ " schemes").

Definition schemes_request (l : location) : completion string :=
  location ← to_str (currentLocation l);
  Normal (schemes_url location).

Definition loadGovernmentSchemes_try : prog :=
  (container <- GetElementById "schemesData" ;;
   match container with
   | None => Done
   | Some container =>
       perform SetInnerHTML container schemes_loading ;;
       l <- GetLocation ;;
       url <- Pure (schemes_request l) ;;
       data <- FetchJson url ;;
       schemes <- Pure (schemes_list data) ;;
       some <- Pure (nonempty schemes) ;;
       if some : bool then
         html <- Pure (schemes_html schemes) ;;
         perform SetInnerHTML container html ;;
         _ <- Pure (schemes_log schemes) ;;
         Done
       else
         perform SetInnerHTML container schemes_unavailable ;;
         Done
   end)%prog.

Definition loadGovernmentSchemes_catch (error : error) : prog :=
  (container <- GetElementById "schemesData" ;;
   match container with
   | Some container => perform SetInnerHTML container schemes_error ;; Done
   | None => Done
   end)%prog.

Definition loadGovernmentSchemes : prog :=
  try_catch loadGovernmentSchemes_try loadGovernmentSchemes_catch.

(** *** Crop recommendations *)

(** [document.getElementById('cropsData') ||
     document.getElementById('cropRecommendationsData')] *)
Definition GetCropsContainer (k : option nat -> prog) : prog :=
  (first <- GetElementById "cropsData" ;;
   match first with
   | Some _ => k first
   | None => GetElementById "cropRecommendationsData" k
   end)%prog.

(** [data.recommendations || []] *)
Definition crops_list (data : value) : completion value :=
  field_or data "recommendations" (Normal (VArr [])).

Definition icons : list (string * string) :=
  [("Cereal", "🌾"); ("Pulse", "🫘"); ("Oilseed", "🌻"); ("Vegetable", "🥦");
   ("Fruit", "🍎"); ("Spice", "🌶️"); ("Commercial", "💰"); ("Medicinal", "🌿")].

Fixpoint assoc (k : string) (table : list (string * string)) : option string :=
  match table with
  | [] => None
  | (k', x) :: rest => if String.eqb k' k then Some x else assoc k rest
  end.

(** [icons[category] || '🌱'], as it prints in the template.  The key
    is [category] converted to a property key; a key that is no icon
    may still name a member that [icons] inherits. *)
Definition getCategoryIcon (category : value) : completion string :=
  key ← to_str category;
  Normal match assoc key icons with
         | Some icon => icon
         | None => default "🌱" (object_prototype_member key)
         end.

Definition getWaterColor (req : value) : string :=
  if strict_eq_str req "high" then "#007bff"
  else if strict_eq_str req "moderate" then "#28a745"
  else "#fd7e14".

(** The body of [recommendations.forEach((crop, index) => ...)] *)
Definition crop_item (entry : nat * value) : completion string :=
  let (index, crop) := entry in
  score ← get crop "suitability_score";
  high ← js_ge score 85;
  suitabilityColor ← (if high : bool then Normal "#28a745"
                      else fair ← js_ge score 70;
                           Normal (if fair : bool then "#ffc107" else "#dc3545"));
  category ← get crop "category";
  categoryIcon ← getCategoryIcon category;
  water ← get crop "water_requirement";
  let waterColor := getWaterColor water in
  category_text ← to_str category;
  let position := num_to_string (num_of_Z (Z.of_nat index + 1)) in
  name_hindi ← get crop "crop_name_hindi" ≫= to_str;
  name ← get crop "crop_name" ≫= to_str;
  score_text ← to_str score;
  profit ← get crop "profit_per_hectare" ≫= to_locale_string;
  yield ← get crop "yield_per_hectare" ≫= to_str;
  duration ← get crop "duration_days" ≫= to_str;
  water_text ← to_str water;
  reason ← get crop "reason_hindi" ≫= to_str;
  Normal (crop_card suitabilityColor categoryIcon category_text position name_hindi
            name score_text profit yield duration waterColor water_text reason).

Definition crops_html (data recommendations : value) : completion string :=
  season ← get data "season" ≫= to_str;
  region ← get data "region" ≫= to_str;
  source ← get data "data_source" ≫= to_str;
  message ← get data "message" ≫= to_str;
  let html := crops_header season region source message in
  items ← as_array recommendations;
  html ← append_each crop_item (imap pair items) html;
  Normal (html +:+ "</div>").

(** The logged message reads [data.recommendations.length] *)
Definition crops_log (data : value) : completion string :=
  recommendations ← get data "recommendations";
  shown ← get_length recommendations ≫= to_str;
  Normal ("✅ Displayed " +:+ shown +:+ " crop recommendations").

Definition crops_request (l : location) : completion string :=
  location ← to_str (currentLocation l);
  Normal (crops_url location).

Definition loadCropRecommendations_try : prog :=
  (container <- GetCropsContainer ;;
   match container with
   | None => Done
   | Some container =>
       perform SetInnerHTML container crops_loading ;;
       l <- GetLocation ;;
       url <- Pure (crops_request l) ;;
       data <- FetchJson url ;;
       recommendations <- Pure (crops_list data) ;;
       some <- Pure (nonempty recommendations) ;;
       if some : bool then
         html <- Pure (crops_html data recommendations) ;;
         perform SetInnerHTML container html ;;
         _ <- Pure (crops_log data) ;;
         Done
       else
         perform SetInnerHTML container crops_unavailable ;;
         Done
   end)%prog.

Definition loadCropRecommendations_catch (error : error) : prog :=
  (container <- GetCropsContainer ;;
   match container with
   | Some container => perform SetInnerHTML container crops_error ;; Done
   | None => Done
   end)%prog.

Definition loadCropRecommendations : prog :=
  try_catch loadCropRecommendations_try loadCropRecommendations_catch.

(** *** Location update and service navigation *)

Definition updateLocation (locationName latitude longitude : value) : prog :=
  (perform SetLocation (Location locationName latitude longitude) ;;
   _ <- Pure (name ← to_str locationName;
              lat ← to_str latitude;
              lng ← to_str longitude;
              Normal ("📍 Location updated to: " +:+ name +:+ " (" +:+ lat +:+ ", " +:+ lng +:+ ")")) ;;
   perform Async loadMarketPrices ;;
   perform Async loadWeatherData ;;
   perform Async loadGovernmentSchemes ;;
   perform Async loadCropRecommendations ;;
   Done)%prog.

Definition loadServiceData (serviceName : string) : prog :=
  if String.eqb serviceName "government-schemes" then Async loadGovernmentSchemes Done
  else if String.eqb serviceName "crop-recommendations" then Async loadCropRecommendations Done
  else if String.eqb serviceName "weather" then Async loadWeatherData Done
  else if String.eqb serviceName "market-prices" then Async loadMarketPrices Done
  else if String.eqb serviceName "pest-control" then Done
  else if String.eqb serviceName "ai-assistant" then Done
  else Done.

Definition showService (serviceName : string) : prog :=
  try_catch
    (sections <- QuerySelectorAll "content-section" ;;
     perform for_each sections (fun section => ClassListRemove section "active") ;;
     content <- GetElementById (serviceName +:+ "-content") ;;
     match content with
     | Some content =>
         perform ClassListAdd content "active" ;;
         perform ScrollIntoView content ;;
         perform call (loadServiceData serviceName) ;;
         Done
     | None => Done
     end)%prog
    (fun error => Done).

(** ** One helper for the four handlers *)

(** The three fixed texts of a service *)
Record texts : Type := Texts {
  text_loading : string;
  text_unavailable : string;
  text_error : string
}.

(** The helper as the specification words it, for comparison with the
    handlers: "a single generic fetch JSON, render via a pure data to
    markup function, fall back to a localized error string helper,
    parameterized per service by (endpoint URL, response-shape mapper,
    render function, target container id)".  The mapper answers [None]
    when there is nothing to show.  The texts of the service are taken
    as a further argument, which only widens what the helper can do. *)
Definition spec_helper_try {S : Type} (t : texts)
    (endpoint : location -> completion string)
    (mapper : value -> completion (option S))
    (render : S -> completion string)
    (container_id : string) : prog :=
  (container <- GetElementById container_id ;;
   match container with
   | None => Done
   | Some container =>
       perform SetInnerHTML container (text_loading t) ;;
       l <- GetLocation ;;
       url <- Pure (endpoint l) ;;
       data <- FetchJson url ;;
       shape <- Pure (mapper data) ;;
       match shape with
       | Some shape =>
           html <- Pure (render shape) ;;
           perform SetInnerHTML container html ;;
           Done
       | None =>
           perform SetInnerHTML container (text_unavailable t) ;;
           Done
       end
   end)%prog.

Definition spec_helper_catch (t : texts) (container_id : string) (error : error) : prog :=
  (container <- GetElementById container_id ;;
   match container with
   | Some container => perform SetInnerHTML container (text_error t) ;; Done
   | None => Done
   end)%prog.

Definition spec_helper {S : Type} (t : texts)
    (endpoint : location -> completion string)
    (mapper : value -> completion (option S))
    (render : S -> completion string)
    (container_id : string) : prog :=
  try_catch (spec_helper_try t endpoint mapper render container_id)
    (spec_helper_catch t container_id).

(** The first element that exists among the given ids, tried in order *)
Fixpoint GetFirstElementById (ids : list string) (k : option nat -> prog) : prog :=
  match ids with
  | [] => k None
  | id :: rest =>
      GetElementById id (fun found =>
        match found with
        | Some _ => k found
        | None => GetFirstElementById rest k
        end)
  end.

(** The helper the four handlers are instances of: the container is the
    first that exists among several ids, and the render function is
    given the clock. *)
Definition fetch_and_render_try {S : Type} (t : texts) (ids : list string)
    (endpoint : location -> completion string)
    (mapper : value -> completion (option S))
    (render : num -> S -> completion string) : prog :=
  (container <- GetFirstElementById ids ;;
   match container with
   | None => Done
   | Some container =>
       perform SetInnerHTML container (text_loading t) ;;
       l <- GetLocation ;;
       url <- Pure (endpoint l) ;;
       data <- FetchJson url ;;
       shape <- Pure (mapper data) ;;
       match shape with
       | Some shape =>
           now <- DateNow ;;
           html <- Pure (render now shape) ;;
           perform SetInnerHTML container html ;;
           Done
       | None =>
           perform SetInnerHTML container (text_unavailable t) ;;
           Done
       end
   end)%prog.

Definition fetch_and_render_catch (t : texts) (ids : list string) (error : error) : prog :=
  (container <- GetFirstElementById ids ;;
   match container with
   | Some container => perform SetInnerHTML container (text_error t) ;; Done
   | None => Done
   end)%prog.

Definition fetch_and_render {S : Type} (t : texts) (ids : list string)
    (endpoint : location -> completion string)
    (mapper : value -> completion (option S))
    (render : num -> S -> completion string) : prog :=
  try_catch (fetch_and_render_try t ids endpoint mapper render)
    (fetch_and_render_catch t ids).

(** The mappers and render functions of the four instances *)

Definition market_mapper (data : value) : completion (option (value * value * value)) :=
  crops ← market_crops data;
  nearbyMandis ← market_mandis data;
  some ← nonempty crops;
  Normal (if some : bool then Some (data, crops, nearbyMandis) else None).

Definition market_render (now : num) (shape : value * value * value) : completion string :=
  let '(data, crops, nearbyMandis) := shape in market_html now data crops nearbyMandis.

Definition weather_mapper (data : value) : completion (option (value * value * value)) :=
  weather ← weather_current data;
  forecast ← weather_forecast data;
  some ← weather_available data weather;
  Normal (if some : bool then Some (data, weather, forecast) else None).

Definition weather_render (now : num) (shape : value * value * value) : completion string :=
  let '(data, weather, forecast) := shape in weather_html data weather forecast.

Definition schemes_mapper (data : value) : completion (option value) :=
  schemes ← schemes_list data;
  some ← nonempty schemes;
  Normal (if some : bool then Some schemes else None).

Definition schemes_render (now : num) (schemes : value) : completion string :=
  schemes_html schemes.

Definition crops_mapper (data : value) : completion (option (value * value)) :=
  recommendations ← crops_list data;
  some ← nonempty recommendations;
  Normal (if some : bool then Some (data, recommendations) else None).

Definition crops_render (now : num) (shape : value * value) : completion string :=
  let '(data, recommendations) := shape in crops_html data recommendations.

(** What can be observed of an execution: the document, the module
    variables, the viewport, the requests made, the number of suspended
    calls, and how the program ended. *)
Definition observe (r : world * status)
    : list element * location * option nat * list string * nat
      * (completion unit + string) :=
  (doc r.1, loc r.1, viewport r.1, requests r.1, length (pending r.1),
   match r.2 with
   | Finished c => inl c
   | Suspended url _ => inr url
   end).

(** Two programs behave alike when nothing observable tells them apart,
    neither at the point where they are suspended nor after the answer. *)
Definition same_behaviour (p q : prog) : Prop :=
  forall (others : list (prog * num)) (o : outcome) (now later : num) (w : world),
    observe (exec p now w) = observe (exec q now w) /\
    observe (run p others o now later w) = observe (run q others o now later w).

(** ** What a handler shows for a given body *)

(** The markup computed from a body: the mapper, then the render
    function; [None] when there is nothing to show *)
Definition pipeline {S : Type} (mapper : value -> completion (option S))
    (render : num -> S -> completion string) (now : num) (data : value)
    : completion (option string) :=
  shape ← mapper data;
  match shape with
  | Some shape => html ← render now shape; Normal (Some html)
  | None => Normal None
  end.

(** The text in the container once the work is over *)
Definition shown (t : texts) (html : completion (option string)) : string :=
  match html with
  | Normal (Some markup) => markup
  | Normal None => text_unavailable t
  | Thrown _ => text_error t
  end.

Definition market_texts : texts := Texts market_loading market_unavailable market_error.
Definition weather_texts : texts := Texts weather_loading weather_unavailable weather_error.
Definition schemes_texts : texts := Texts schemes_loading schemes_unavailable schemes_error.
Definition crops_texts : texts := Texts crops_loading crops_unavailable crops_error.

Definition market_shown (now : num) (data : value) : string :=
  shown market_texts (pipeline market_mapper market_render now data).
Definition weather_shown (data : value) : string :=
  shown weather_texts (pipeline weather_mapper weather_render num_nan data).
Definition schemes_shown (data : value) : string :=
  shown schemes_texts (pipeline schemes_mapper schemes_render num_nan data).
Definition crops_shown (data : value) : string :=
  shown crops_texts (pipeline crops_mapper crops_render num_nan data).

(** The first element that exists among the given ids *)
Fixpoint first_element (ids : list string) (d : list element) : option nat :=
  match ids with
  | [] => None
  | id :: rest =>
      match getElementById d id with
      | Some r => Some r
      | None => first_element rest d
      end
  end.

(** ** Services

    What the four handlers have in common, as a description against
    which each of them is checked: where the container is, the three
    texts, the url requested and the markup computed from a body. *)

Record service : Type := Service {
  sv_container : list element -> option nat;
  sv_texts : texts;
  sv_request : location -> completion string;
  sv_pipeline : num -> value -> completion (option string)
}.

Definition market_service : service :=
  Service (first_element ["pricesData"]) market_texts market_request
    (pipeline market_mapper market_render).
Definition weather_service : service :=
  Service (first_element ["weatherData"]) weather_texts weather_request
    (pipeline weather_mapper weather_render).
Definition schemes_service : service :=
  Service (first_element ["schemesData"]) schemes_texts schemes_request
    (pipeline schemes_mapper schemes_render).
Definition crops_service : service :=
  Service (first_element ["cropsData"; "cropRecommendationsData"]) crops_texts
    crops_request (pipeline crops_mapper crops_render).

Definition put (html : string) (r : nat) (w : world) : world :=
  set_doc (alter (with_innerHTML html) r (doc w)) w.

(** What the continuation of a suspended [try] block does with the
    answer, according to the service *)
Definition answered (sv : service) (c : nat) (o : outcome) (now : num) (w : world)
    : world * status :=
  match o with
  | FetchRejected => (w, Finished (Thrown NetworkError))
  | JsonRejected => (w, Finished (Thrown SyntaxError))
  | JsonBody data =>
      match sv_pipeline sv now data with
      | Normal (Some html) => (put html c w, Finished (Normal tt))
      | Normal None => (put (text_unavailable (sv_texts sv)) c w, Finished (Normal tt))
      | Thrown e => (w, Finished (Thrown e))
      end
  end.

(** A [try] block follows the service: without a container it returns
    at once; with one it shows the loading text and then either fails to
    build the url or makes the request and is suspended, and what is
    left of it treats the answer as [answered] says. *)
Definition try_follows (body : prog) (sv : service) : Prop :=
  forall (now : num) (w : world),
    match sv_container sv (doc w) with
    | None => exec body now w = (w, Finished (Normal tt))
    | Some c =>
        match sv_request sv (loc w) with
        | Thrown e =>
            exec body now w
            = (put (text_loading (sv_texts sv)) c w, Finished (Thrown e))
        | Normal url =>
            exists k,
              exec body now w
              = (add_request url (put (text_loading (sv_texts sv)) c w), Suspended url k)
              /\ forall o now' w', exec (k o) now' w' = answered sv c o now' w'
        end
    end.

(** A [catch] block follows the service: it shows the error text in the
    container, if there is one. *)
Definition catch_follows (handler : error -> prog) (sv : service) : Prop :=
  forall (e : error) (now : num) (w : world),
    exec (handler e) now w
    = match sv_container sv (doc w) with
      | Some c => (put (text_error (sv_texts sv)) c w, Finished (Normal tt))
      | None => (w, Finished (Normal tt))
      end.

(** The text a service leaves in the container for an answer *)
Definition final_text (sv : service) (now : num) (o : outcome) : string :=
  match o with
  | JsonBody data => shown (sv_texts sv) (sv_pipeline sv now data)
  | FetchRejected | JsonRejected => text_error (sv_texts sv)
  end.

(** The world a service leaves when its handler is called and answered
    by [o], with [others] running in between *)
Definition service_result (sv : service) (others : list (prog * num))
    (o : outcome) (later : num) (w : world) : world :=
  match sv_container sv (doc w) with
  | None => w
  | Some c =>
      match sv_request sv (loc w) with
      | Thrown _ => put (text_error (sv_texts sv)) c w
      | Normal url =>
          put (final_text sv later o) c
            (meanwhile others
               (add_request url (put (text_loading (sv_texts sv)) c w)))
      end
  end.

(** The container lookup of a service depends on nothing but the ids of
    the elements, and answers a position of the document. *)
Definition container_sound (sv : service) : Prop :=
  (forall d d', el_id <$> d = el_id <$> d' -> sv_container sv d = sv_container sv d') /\
  (forall d c, sv_container sv d = Some c -> c < length d).

(** ** The four handlers, by name *)

Inductive handler : Type :=
| MarketPrices
| WeatherData
| GovernmentSchemes
| CropRecommendations.

Definition handler_prog (h : handler) : prog :=
  match h with
  | MarketPrices => loadMarketPrices
  | WeatherData => loadWeatherData
  | GovernmentSchemes => loadGovernmentSchemes
  | CropRecommendations => loadCropRecommendations
  end.

(** The [try] block of a handler, on its own *)
Definition handler_try (h : handler) : prog :=
  match h with
  | MarketPrices => loadMarketPrices_try
  | WeatherData => loadWeatherData_try
  | GovernmentSchemes => loadGovernmentSchemes_try
  | CropRecommendations => loadCropRecommendations_try
  end.

Definition handler_catch (h : handler) : error -> prog :=
  match h with
  | MarketPrices => loadMarketPrices_catch
  | WeatherData => loadWeatherData_catch
  | GovernmentSchemes => loadGovernmentSchemes_catch
  | CropRecommendations => loadCropRecommendations_catch
  end.

Definition handler_service (h : handler) : service :=
  match h with
  | MarketPrices => market_service
  | WeatherData => weather_service
  | GovernmentSchemes => schemes_service
  | CropRecommendations => crops_service
  end.

(** The ids under which a handler looks for its container, in order *)
Definition handler_ids (h : handler) : list string :=
  match h with
  | MarketPrices => ["pricesData"]
  | WeatherData => ["weatherData"]
  | GovernmentSchemes => ["schemesData"]
  | CropRecommendations => ["cropsData"; "cropRecommendationsData"]
  end.

(** The container of a handler: [pricesData], [weatherData],
    [schemesData], and [cropsData] or else [cropRecommendationsData] *)
Definition container_of (h : handler) (d : list element) : option nat :=
  sv_container (handler_service h) d.

Definition loading_of (h : handler) : string := text_loading (sv_texts (handler_service h)).
Definition error_of (h : handler) : string := text_error (sv_texts (handler_service h)).

(** What a handler leaves in its container for the body [data] *)
Definition handler_shown (h : handler) (now : num) (data : value) : string :=
  final_text (handler_service h) now (JsonBody data).

(** The price grid of [loadMarketPrices] for a given list of crops, or
    the error text when building it throws *)
Definition market_grid (now : num) (data crops : value) : string :=
  shown market_texts
    (nearbyMandis ← market_mandis data;
     html ← market_html now data crops nearbyMandis;
     Normal (Some html)).

(** [data.market_prices?.top_crops] *)
Definition market_top_crops (data : value) : completion value :=
  market_prices ← get data "market_prices"; get_opt market_prices "top_crops".

(** The instances of [fetch_and_render] that the handlers are *)
Definition handler_instance (h : handler) : prog :=
  match h with
  | MarketPrices =>
      fetch_and_render market_texts ["pricesData"] market_request
        market_mapper market_render
  | WeatherData =>
      fetch_and_render weather_texts ["weatherData"] weather_request
        weather_mapper weather_render
  | GovernmentSchemes =>
      fetch_and_render schemes_texts ["schemesData"] schemes_request
        schemes_mapper schemes_render
  | CropRecommendations =>
      fetch_and_render crops_texts ["cropsData"; "cropRecommendationsData"]
        crops_request crops_mapper crops_render
  end.

(** ** The rest of the service script *)

(** *** The service cards *)

Definition quote : ascii := "'"%char.

(** [s] without the prefix [p], when it starts with it *)
Fixpoint strip_prefix (p s : string) : option string :=
  match p with
  | EmptyString => Some s
  | String a p' =>
      match s with
      | String b s' => if Ascii.eqb a b then strip_prefix p' s' else None
      | EmptyString => None
      end
  end.

(** The longest prefix of [s] without a quote, and what follows it: a
    greedy [[^']*].  In the UTF-8 encoding the byte of the quote is
    never part of another character. *)
Fixpoint span_unquoted (s : string) : string * string :=
  match s with
  | EmptyString => ("", "")
  | String a r =>
      if Ascii.eqb a quote then ("", s)
      else let (name, tail) := span_unquoted r in (String a name, tail)
  end.

(** A match of [/showService\('([^']+)'\)/] that starts at the first
    character of [s]: its group.  No shorter run of [[^']+] can be
    followed by a quote, so the greedy one decides. *)
Definition match_showService_here (s : string) : option string :=
  rest ← strip_prefix "showService('" s;
  let (name, tail) := span_unquoted rest in
  if String.eqb name "" then None
  else _ ← strip_prefix "')" tail; Some name.

(** [attr.match(/showService\('([^']+)'\)/)?.[1]]: the group of the
    leftmost match *)
Fixpoint match_showService (attr : string) : option string :=
  match match_showService_here attr with
  | Some name => Some name
  | None =>
      match attr with
      | EmptyString => None
      | String _ r => match_showService r
      end
  end.

(** A string without a quote *)
Fixpoint unquoted (s : string) : bool :=
  match s with
  | EmptyString => true
  | String a r => negb (Ascii.eqb a quote) && unquoted r
  end.

(** The attribute that calls [showService] with a name *)
Definition showService_call (serviceName : string) : string :=
  "showService('" +:+ serviceName +:+ "')".

(** What the listener of a card touches besides the world: the click
    event, whose default action and propagation it stops, the inline
    style of the card, and the timers it sets.  A timer is kept as its
    delay in milliseconds and the value that its callback assigns to
    [style.transform]. *)
Record card_state : Type := CardState {
  defaultPrevented : bool;
  propagationStopped : bool;
  style_transform : string;
  timers : list (Z * string)
}.

(** The listener that [setupServiceCards] adds to each card, for a card
    whose [onclick] attribute is [onclickAttr] ([None] when it has
    none).  [showService] is called as a function: when it throws, the
    exception leaves the listener before the style is touched. *)
Definition service_card_click (onclickAttr : option string) (now : num) (w : world)
    (card : card_state) : world * status * card_state :=
  let card := CardState true true (style_transform card) (timers card) in
  match onclickAttr ≫= match_showService with
  | Some serviceName =>
      if negb (String.eqb serviceName "") then
        match exec (showService serviceName) now w with
        | (w1, Finished (Normal _)) =>
            (w1, Finished (Normal tt),
             CardState true true "scale(0.95)" (timers card ++ [(150%Z, "")])%list)
        | (w1, st) => (w1, st, card)
        end
      else (w, Finished (Normal tt), card)
  | None => (w, Finished (Normal tt), card)
  end.

(** *** Loading all services *)

(** The callback of the timer set by the [DOMContentLoaded] listener,
    once the listener has set up the service cards: the four handlers
    are called, none of them awaited. *)
Definition autoload_callback : prog :=
  (perform Async loadMarketPrices ;;
   perform Async loadWeatherData ;;
   perform Async loadGovernmentSchemes ;;
   perform Async loadCropRecommendations ;;
   Done)%prog.

(** The request a handler makes for the location [l] in the document
    [d]: none without its container or when the url cannot be built *)
Definition handler_requests (h : handler) (l : location) (d : list element)
    : list string :=
  match container_of h d, sv_request (handler_service h) l with
  | Some _, Normal url => [url]
  | _, _ => []
  end.

(** The requests of the four handlers, in the order in which
    [updateLocation] and the timer call them *)
Definition reload_requests (l : location) (d : list element) : list string :=
  (handler_requests MarketPrices l d ++ handler_requests WeatherData l d
   ++ handler_requests GovernmentSchemes l d
   ++ handler_requests CropRecommendations l d)%list.

(** The text in the container when a handler gives control back to its
    caller *)
Definition first_text (h : handler) (l : location) : string :=
  match sv_request (handler_service h) l with
  | Normal _ => loading_of h
  | Thrown _ => error_of h
  end.

(** The url requested for a container that is in the document *)
Definition requested (present : option nat) (url : string) : list string :=
  match present with
  | Some _ => [url]
  | None => []
  end.

(** What is left of a handler after its request treats the answer as
    its service says, in any world that has the container. *)
Definition renders (h : handler) (c : nat) (k : outcome -> prog) : Prop :=
  forall (o : outcome) (later : num) (w : world),
    container_of h (doc w) = Some c ->
    exec (k o) later w
    = (put (final_text (handler_service h) later o) c w, Finished (Normal tt)).

(** The answer is a body from which the markup, or the finding that
    there is nothing to show, is computed without an exception: the
    [try] block ends normally, and the [catch] block is not entered. *)
Definition rendered (h : handler) (now : num) (o : outcome) : bool :=
  match o with
  | JsonBody data =>
      match sv_pipeline (handler_service h) now data with
      | Normal _ => true
      | Thrown _ => false
      end
  | FetchRejected | JsonRejected => false
  end.

(** The document when a handler gives control back to its caller *)
Definition started_doc (h : handler) (l : location) (d : list element) : list element :=
  match container_of h d with
  | Some c => alter (with_innerHTML (first_text h l)) c d
  | None => d
  end.

(** The name under which [loadServiceData] knows a handler *)
Definition service_name (h : handler) : string :=
  match h with
  | MarketPrices => "market-prices"
  | WeatherData => "weather"
  | GovernmentSchemes => "government-schemes"
  | CropRecommendations => "crop-recommendations"
  end.

(** The classes that [showService] leaves on an element, from the
    classes [cls] it had: [active] is removed when the element is a
    content section, and added when the element is the section to show
    ([shown]). *)
Definition classes_after (shown : bool) (cls : list string) : list string :=
  let cleared := if bool_decide ("content-section" ∈ cls)
                 then filter (fun c => c ≠ "active") cls else cls in
  if shown then
    if bool_decide ("active" ∈ cleared) then cleared else (cleared ++ ["active"])%list
  else cleared.

(** *** Bodies that can be rendered *)

(** [ToString] of a value succeeds *)
Definition printable (v : value) : bool :=
  match to_str v with
  | Normal _ => true
  | Thrown _ => false
  end.




(** ** The function that [unnamed/part_000] writes into the template

    The replacement text of the script is the source of
    [fetchMarketPrices].  It reads the variables [currentLocation],
    [currentLatitude] and [currentLongitude] of the page and calls
    [displayAllCrops], which the page defines and which is taken as a
    parameter. *)

Definition realtime_market_url (location latitude longitude : string) : string :=
  lit "/api/realtime-gov/market_prices/?location="
  +:+ location
  +:+ lit "&latitude="
  +:+ latitude
  +:+ lit "&longitude="
  +:+ longitude.

Definition fetchMarketPrices_loading : string :=
  lit "<div class=~loading~>बाजार भाव लोड हो रहे हैं...</div>".

Definition fetchMarketPrices_unavailable : string :=
  lit "<div class=~error~>बाजार भाव डेटा उपलब्ध नहीं है</div>".

Definition fetchMarketPrices_error : string :=
  lit "<div class=~error~>बाजार भाव लोड करने में त्रुटि</div>".

(** The object [marketData]: its own keys, latest first, and its
    prototype, which an assignment to [__proto__] can change *)
Inductive prototype : Type :=
| ObjectPrototype
| NullPrototype
| ValuePrototype (v : value).

Record market_data : Type := MarketData {
  md_keys : list string;
  md_prototype : prototype
}.

(** [marketData[key] = crop].  A key that [marketData] has is
    overwritten.  A new key becomes an own member, except [__proto__]
    when the assignment reaches the setter that [Object.prototype] has
    under this name: the setter makes an object or [null] the prototype
    and ignores any other value.  The setter is not reached when the
    prototype is [null] or is an object parsed with a member
    [__proto__] of its own. *)
Definition assign (m : market_data) (key : string) (crop : value) : market_data :=
  if bool_decide (key ∈ md_keys m) then m
  else
    let reaches_setter :=
      String.eqb key "__proto__" &&
      match md_prototype m with
      | NullPrototype => false
      | ValuePrototype (VObj fields) =>
          match own fields "__proto__" with
          | Some _ => false
          | None => true
          end
      | _ => true
      end in
    if reaches_setter then
      match crop with
      | VObj _ | VArr _ => MarketData (md_keys m) (ValuePrototype crop)
      | VNull => MarketData (md_keys m) NullPrototype
      | _ => m
      end
    else MarketData (key :: md_keys m) (md_prototype m).

(** [crops.forEach(crop => { marketData[crop.name] = crop; })] *)
Fixpoint assign_each (crops : list value) (m : market_data) : completion market_data :=
  match crops with
  | [] => Normal m
  | crop :: rest =>
      key ← get crop "name" ≫= to_str;
      assign_each rest (assign m key crop)
  end.

Definition realtime_market_request (l : location) : completion string :=
  location ← to_str (currentLocation l);
  latitude ← to_str (currentLatitude l);
  longitude ← to_str (currentLongitude l);
  Normal (realtime_market_url location latitude longitude).

(** [marketData] once the crops of the body, if any, have been
    assigned: [const marketData = {}; if (data.crops && data.crops.length
    > 0) { data.crops.forEach(...) }] *)
Definition marketData_of (data : value) : completion market_data :=
  let marketData := MarketData [] ObjectPrototype in
  crops ← get data "crops";
  some ← nonempty crops;
  if some : bool then items ← as_array crops; assign_each items marketData
  else Normal marketData.

Definition fetchMarketPrices_try (displayAllCrops : value -> prog) : prog :=
  (container <- GetElementById "pricesData" ;;
   match container with
   | None => Throw TypeError
   | Some container =>
       perform SetInnerHTML container fetchMarketPrices_loading ;;
       l <- GetLocation ;;
       url <- Pure (realtime_market_request l) ;;
       data <- FetchJson url ;;
       marketData <- Pure (marketData_of data) ;;
       if bool_decide (md_keys marketData ≠ []) then
         perform call (displayAllCrops data) ;;
         Done
       else
         perform SetInnerHTML container fetchMarketPrices_unavailable ;;
         Done
   end)%prog.

Definition fetchMarketPrices_catch (error : error) : prog :=
  (container <- GetElementById "pricesData" ;;
   match container with
   | None => Throw TypeError
   | Some container =>
       perform SetInnerHTML container fetchMarketPrices_error ;;
       Done
   end)%prog.

Definition fetchMarketPrices (displayAllCrops : value -> prog) : prog :=
  try_catch (fetchMarketPrices_try displayAllCrops) fetchMarketPrices_catch.

End Model.

(** ** The template-patching scripts

    The scripts run under Node.  Of the file system only the content of
    each file, as the string [readFileSync(path, 'utf8')] returns it,
    and the calls of [writeFileSync] are modelled.  A read fails when
    the file is missing and a write succeeds: the other failures of the
    file system (a file that may not be read or written, a full disk)
    make a script throw where it calls [fs], and are not modelled. *)

Record disk : Type := Disk {
  files : gmap string string;
  (** the calls of [writeFileSync] so far, oldest first *)
  writes : list (string * string)
}.

Definition readFileSync (d : disk) (path : string) : completion string :=
  match files d !! path with
  | Some content => Normal content
  | None => Thrown ENOENT
  end.

Definition writeFileSync (d : disk) (path content : string) : disk :=
  {| files := <[path := content]> (files d);
     writes := writes d ++ [(path, content)] |}.

(** [content.indexOf(marker)] *)
Definition indexOf (content marker : string) : Z :=
  match String.index 0 marker content with
  | Some k => Z.of_nat k
  | None => (-1)%Z
  end.

(** [s.substring(a, b)]: both ends are clamped to the string and
    swapped when out of order. *)
Definition substring (s : string) (a b : Z) : string :=
  let len := Z.of_nat (String.length s) in
  let a := Z.min (Z.max a 0%Z) len in
  let b := Z.min (Z.max b 0%Z) len in
  let from := Z.min a b in
  let to := Z.max a b in
  String.substring (Z.to_nat from) (Z.to_nat (to - from)%Z) s.

(** [s.substring(a)] *)
Definition substring_from (s : string) (a : Z) : string :=
  substring s a (Z.of_nat (String.length s)).

(** The replacement text of [fix_market_prices.js] (its template literal
    [newFunction], escapes resolved) *)
Definition newFunction_loadMarketPrices : string :=
  lit "async function loadMarketPrices() {
        try {
            const container = document.getElementById('pricesData');
            container.innerHTML = '<div class=~loading~>बाजार भाव लोड हो रहे हैं...</div>';
            
            const response = await fetch(`/api/realtime-gov/market_prices/?location=${currentLocation}&latitude=${currentLatitude}&longitude=${currentLongitude}`);
            const data = await response.json();
            
            console.log('Market Prices Data:', data);
            
            if (data.status === 'success' && data.crops && data.crops.length > 0) {
                // Store data globally for mandi selection
                window.allCropsData = data;
                
                // Convert crops array to marketData format for compatibility
                const marketData = {};
                data.crops.forEach(crop => {
                    marketData[crop.name] = crop;
                });
                
                // Display all crops with different prices
                displayAllCropsWithDifferentPrices(data);
            } else {
                container.innerHTML = '<div class=~error~>बाजार भाव डेटा उपलब्ध नहीं है</div>';
            }
        } catch (error) {
            console.error('Market prices load error:', error);
            document.getElementById('pricesData').innerHTML = '<div class=~error~>बाजार भाव लोड करने में त्रुटि</div>';
        }
    }

    function displayAllCropsWithDifferentPrices(data) {
        const container = document.getElementById('pricesData');
        
        // Create mandi dropdown options
        const mandiOptions = data.nearest_mandis ? 
            data.nearest_mandis.map(mandi => `<option value=~${mandi}~>${mandi}</option>`).join('') : '';
        
        container.innerHTML = `
            <div class=~real-time-header~>
                <h4>💰 बाजार भाव - ${data.location}</h4>
                <p class=~data-source~>📊 स्रोत: ${data.sources ? data.sources.join(', ') : 'Government APIs'}</p>
                <p class=~timestamp~>🕒 अंतिम अपडेट: ${new Date(data.timestamp).toLocaleString('hi-IN')}</p>
                <p class=~reliability~>🎯 विश्वसनीयता: ${Math.round((data.data_reliability || 0.9) * 100)}%</p>
            </div>
            
            <div class=~mandi-search-container~>
                <h5>🔍 मंडी और फसल खोजें</h5>
                <div class=~search-boxes-container~>
                    <div class=~search-box~>
                        <label>📍 मंडी चुनें</label>
                        <select id=~mandiSelect~ class=~form-control~ onchange=~selectMandiFromDropdown()~>
                            <option value=~~>निकटतम मंडी चुनें...</option>
                            ${mandiOptions}
                        </select>
                    </div>
                    <div class=~search-box~>
                        <label>🌾 फसल खोजें</label>
                        <input type=~text~ id=~cropSearchInput~ placeholder=~फसल का नाम टाइप करें~ class=~form-control~>
                        <button onclick=~searchCropFromSelectedMandi()~ class=~btn btn-success~>खोजें</button>
                    </div>
                </div>
                <div class=~current-mandi-display~>
                    <span>🏪 वर्तमान: <span id=~currentMandiDisplay~>सभी मंडियों का औसत</span></span>
                    <button onclick=~resetMandiSelection()~ class=~btn btn-secondary btn-sm~>रीसेट</button>
                </div>
            </div>
            
            <div class=~mandi-prices-grid~>
                ${data.crops.map(crop => `
                    <div class=~mandi-price-square~>
                        <div class=~square-header~>
                            <h6>🌾 ${crop.name}</h6>
                            <span class=~trend-icon~>📈</span>
                        </div>
                        <div class=~square-content~>
                            <div class=~price-main~>
                                <span class=~current-price~>₹${crop.current_price?.toLocaleString('hi-IN') || 'N/A'}</span>
                                <span class=~price-unit~>/quintal</span>
                            </div>
                            <div class=~price-details~>
                                <div class=~detail-row~>
                                    <span class=~label~>MSP:</span>
                                    <span class=~value~>₹${crop.msp?.toLocaleString('hi-IN') || 'N/A'}</span>
                                </div>
                                <div class=~detail-row~>
                                    <span class=~label~>लाभ:</span>
                                    <span class=~value profit~>₹${crop.profit_margin?.toLocaleString('hi-IN') || 'N/A'}</span>
                                </div>
                                <div class=~detail-row~>
                                    <span class=~label~>%:</span>
                                    <span class=~value~>${crop.profit_percentage || 'N/A'}%</span>
                                </div>
                            </div>
                            <div class=~mandi-info~>
                                <span class=~mandi-name~>${crop.mandi || 'N/A'}</span>
                                <span class=~date~>${crop.date || new Date().toLocaleDateString('hi-IN')}</span>
                            </div>
                        </div>
                    </div>
                `).join('')}
            </div>
        `;
    }

    // Global variables for mandi selection
    let selectedMandi = null;

    // Function to select mandi from dropdown
    async function selectMandiFromDropdown() {
        const mandiSelect = document.getElementById('mandiSelect');
        const selectedValue = mandiSelect.value;
        const currentMandiDisplay = document.getElementById('currentMandiDisplay');
        
        if (selectedValue) {
            selectedMandi = selectedValue;
            currentMandiDisplay.textContent = selectedValue;
            
            // Fetch prices for selected mandi
            await fetchMandiPrices(selectedValue);
        } else {
            selectedMandi = null;
            currentMandiDisplay.textContent = 'सभी मंडियों का औसत';
            if (window.allCropsData) {
                displayAllCropsWithDifferentPrices(window.allCropsData);
            }
        }
    }

    // Function to fetch prices for specific mandi
    async function fetchMandiPrices(mandiName) {
        try {
            const container = document.getElementById('pricesData');
            container.innerHTML = '<div class=~loading~>मंडी की कीमतें लोड हो रही हैं...</div>';
            
            const response = await fetch(`/api/realtime-gov/mandi_prices/?mandi=${encodeURIComponent(mandiName)}&location=${currentLocation}`);
            const data = await response.json();
            
            if (data.status === 'success' && data.crops && data.crops.length > 0) {
                displayMandiSpecificCrops(data.crops, mandiName);
            } else {
                container.innerHTML = '<div class=~error~>इस मंडी के लिए कीमत जानकारी उपलब्ध नहीं है</div>';
            }
        } catch (error) {
            console.error('Error fetching mandi prices:', error);
            document.getElementById('pricesData').innerHTML = '<div class=~error~>मंडी कीमतें लोड करने में त्रुटि</div>';
        }
    }

    // Function to display mandi-specific crops
    function displayMandiSpecificCrops(crops, mandiName) {
        const container = document.getElementById('pricesData');
        
        container.innerHTML = `
            <div class=~real-time-header~>
                <h4>💰 मंडी: ${mandiName}</h4>
                <p class=~data-source~>📊 स्रोत: Real-time Mandi Data</p>
                <p class=~timestamp~>🕒 अंतिम अपडेट: ${new Date().toLocaleString('hi-IN')}</p>
            </div>
            
            <div class=~mandi-prices-grid~>
                ${crops.map(crop => `
                    <div class=~mandi-price-square~>
                        <div class=~square-header~>
                            <h6>🌾 ${crop.name}</h6>
                            <span class=~trend-icon~>📈</span>
                        </div>
                        <div class=~square-content~>
                            <div class=~price-main~>
                                <span class=~current-price~>₹${crop.current_price?.toLocaleString('hi-IN') || 'N/A'}</span>
                                <span class=~price-unit~>/quintal</span>
                            </div>
                            <div class=~price-details~>
                                <div class=~detail-row~>
                                    <span class=~label~>MSP:</span>
                                    <span class=~value~>₹${crop.msp?.toLocaleString('hi-IN') || 'N/A'}</span>
                                </div>
                                <div class=~detail-row~>
                                    <span class=~label~>लाभ:</span>
                                    <span class=~value profit~>₹${crop.profit_margin?.toLocaleString('hi-IN') || 'N/A'}</span>
                                </div>
                                <div class=~detail-row~>
                                    <span class=~label~>%:</span>
                                    <span class=~value~>${crop.profit_percentage || 'N/A'}%</span>
                                </div>
                            </div>
                            <div class=~mandi-info~>
                                <span class=~mandi-name~>${crop.mandi || mandiName}</span>
                                <span class=~date~>${crop.date || new Date().toLocaleDateString('hi-IN')}</span>
                            </div>
                        </div>
                    </div>
                `).join('')}
            </div>
        `;
    }

    // Function to search crop from selected mandi
    async function searchCropFromSelectedMandi() {
        const cropInput = document.getElementById('cropSearchInput');
        const cropName = cropInput.value.trim().toLowerCase();
        
        if (!cropName) {
            alert('कृपया फसल का नाम दर्ज करें');
            return;
        }
        
        if (!selectedMandi) {
            alert('पहले मंडी चुनें');
            return;
        }
        
        try {
            const container = document.getElementById('pricesData');
            container.innerHTML = '<div class=~loading~>फसल की कीमत खोज रहे हैं...</div>';
            
            const response = await fetch(`/api/realtime-gov/mandi_prices/?mandi=${encodeURIComponent(selectedMandi)}&location=${currentLocation}`);
            const data = await response.json();
            
            if (data.status === 'success' && data.crops && data.crops.length > 0) {
                const foundCrop = data.crops.find(crop => 
                    crop.name.toLowerCase().includes(cropName)
                );
                
                if (foundCrop) {
                    displayMandiSpecificCrops([foundCrop], selectedMandi);
                } else {
                    container.innerHTML = `<div class=~error~>${selectedMandi} में ~${cropName}~ फसल नहीं मिली</div>`;
                }
            } else {
                container.innerHTML = '<div class=~error~>इस मंडी के लिए कीमत जानकारी उपलब्ध नहीं है</div>';
            }
        } catch (error) {
            console.error('Error searching crop:', error);
            document.getElementById('pricesData').innerHTML = '<div class=~error~>फसल खोज में त्रुटि</div>';
        }
    }

    // Function to reset mandi selection
    function resetMandiSelection() {
        const mandiSelect = document.getElementById('mandiSelect');
        const currentMandiDisplay = document.getElementById('currentMandiDisplay');
        const cropInput = document.getElementById('cropSearchInput');
        
        mandiSelect.value = '';
        selectedMandi = null;
        currentMandiDisplay.textContent = 'सभी मंडियों का औसत';
        cropInput.value = '';
        
        if (window.allCropsData) {
            displayAllCropsWithDifferentPrices(window.allCropsData);
        }
    }
    
    // Mandi Search Functions".

(** The replacement text of the script that patches [fetchMarketPrices]
    (its template literal [newFunction], escapes resolved) *)
Definition newFunction_fetchMarketPrices : string :=
  lit "async function fetchMarketPrices() {
        try {
            const container = document.getElementById('pricesData');
            container.innerHTML = '<div class=~loading~>बाजार भाव लोड हो रहे हैं...</div>';
            
            const response = await fetch(`/api/realtime-gov/market_prices/?location=${currentLocation}&latitude=${currentLatitude}&longitude=${currentLongitude}`);
            const data = await response.json();
            
            // Convert crops array to marketData format for compatibility
            const marketData = {};
            if (data.crops && data.crops.length > 0) {
                data.crops.forEach(crop => {
                    marketData[crop.name] = crop;
                });
            }
            
            // Use the new displayAllCrops function
            if (marketData && Object.keys(marketData).length > 0) {
                displayAllCrops(data);
            } else {
                container.innerHTML = '<div class=~error~>बाजार भाव डेटा उपलब्ध नहीं है</div>';
            }
        } catch (error) {
            console.error('Market prices fetch error:', error);
            document.getElementById('pricesData').innerHTML = '<div class=~error~>बाजार भाव लोड करने में त्रुटि</div>';
        }
    }".

(** [fix_market_prices.js], first document *)
Definition fix_market_prices (d : disk) : completion disk :=
  content ← readFileSync d "core/templates/index.html";
  let functionStart := indexOf content "async function loadMarketPrices() {" in
  let functionEnd := indexOf content "async function searchMandiByLocation() {" in
  if bool_decide (functionStart ≠ (-1)%Z) && bool_decide (functionEnd ≠ (-1)%Z) then
    let beforeFunction := substring content 0%Z functionStart in
    let afterFunction := substring_from content functionEnd in
    let newFunction := newFunction_loadMarketPrices in
    let newContent := beforeFunction +:+ newFunction +:+ afterFunction in
    Normal (writeFileSync d "core/templates/index.html" newContent)
  else Normal d.

(** The script that patches [fetchMarketPrices] ([unnamed/part_000]) *)
Definition fix_fetch_market_prices (d : disk) : completion disk :=
  content ← readFileSync d "core/templates/index.html";
  let oldFunctionStart := indexOf content "async function fetchMarketPrices() {" in
  let oldFunctionEnd := indexOf content "async function searchMandiByLocation() {" in
  if bool_decide (oldFunctionStart ≠ (-1)%Z) && bool_decide (oldFunctionEnd ≠ (-1)%Z) then
    let beforeFunction := substring content 0%Z oldFunctionStart in
    let afterFunction := substring_from content oldFunctionEnd in
    let newFunction := newFunction_fetchMarketPrices in
    let newContent := beforeFunction +:+ newFunction +:+ afterFunction in
    Normal (writeFileSync d "core/templates/index.html" newContent)
  else Normal d.

(** The markers of the two scripts *)
Definition marker_loadMarketPrices : string := "async function loadMarketPrices() {".
Definition marker_fetchMarketPrices : string := "async function fetchMarketPrices() {".
Definition marker_searchMandiByLocation : string := "async function searchMandiByLocation() {".
Definition template_path : string := "core/templates/index.html".

(** [marker] occurs in [content] at position [i], and nowhere before *)
Definition occurs_at (marker content : string) (i : nat) : Prop :=
  String.substring i (String.length marker) content = marker.

Definition first_occurrence (marker content : string) (i : nat) : Prop :=
  occurs_at marker content i /\ forall k, k < i -> ~ occurs_at marker content k.

Definition occurs (marker content : string) : Prop :=
  exists i, occurs_at marker content i.

(** The part of [content] before position [i], and from position [j] on *)
Definition before (content : string) (i : nat) : string :=
  String.substring 0 i content.
Definition from (content : string) (j : nat) : string :=
  String.substring j (String.length content - j) content.

(** The two scripts, by name *)
Inductive script : Type :=
| PatchLoadMarketPrices
| PatchFetchMarketPrices.

Definition script_run (s : script) : disk -> completion disk :=
  match s with
  | PatchLoadMarketPrices => fix_market_prices
  | PatchFetchMarketPrices => fix_fetch_market_prices
  end.

Definition start_marker (s : script) : string :=
  match s with
  | PatchLoadMarketPrices => marker_loadMarketPrices
  | PatchFetchMarketPrices => marker_fetchMarketPrices
  end.

Definition replacement (s : script) : string :=
  match s with
  | PatchLoadMarketPrices => newFunction_loadMarketPrices
  | PatchFetchMarketPrices => newFunction_fetchMarketPrices
  end.

(** A proper suffix of [marker], from position [t] on, starts [text] *)
Definition overlaps (marker text : string) (t : nat) : bool :=
  String.eqb (String.substring t (String.length marker - t) marker)
    (String.substring 0 (String.length marker - t) text).

(** No occurrence of [marker] can begin before [text] and end inside it *)
Definition no_overlap (marker text : string) : bool :=
  forallb (fun t => negb (overlaps marker text t)) (seq 1 (String.length marker - 1)).

(** ** A small host for concrete runs

    Numbers are the integers and [NaN] ([None]); they print in decimal.
    A date prints as its time value. *)

Definition small_string_to_num (s : string) : option Z :=
  if String.eqb s "" then Some 0%Z else None.

#[global] Instance small_host : Host (option Z) := {|
  num_truthy n := match n with Some z => negb (Z.eqb z 0) | None => false end;
  num_to_string n := match n with Some z => pretty z | None => "NaN" end;
  num_to_locale n := match n with Some z => pretty z | None => "NaN" end;
  num_of_Z z := Some z;
  num_nan := None;
  num_ge a b := match a, b with Some x, Some y => Z.leb y x | _, _ => false end;
  num_gt a b := match a, b with Some x, Some y => Z.ltb y x | _, _ => false end;
  string_to_num := small_string_to_num;
  date_locale_of_num n := match n with Some z => pretty z | None => "Invalid Date" end;
  date_locale_of_string s := s;
  object_prototype_member k :=
    if String.eqb k "constructor" then Some "function Object() { [native code] }"
    else if String.eqb k "toString" then Some "function toString() { [native code] }"
    else None;
  utf16_length s := Z.of_nat (String.length s);
  list_separator := ","
|}.

(** ** Sample data for concrete runs *)

Definition sample_location : location (num:=option Z) :=
  Location (VStr "Delhi") (VNum (Some 28%Z)) (VNum (Some 77%Z)).

Definition sample_doc : list element :=
  [ Element "market-prices-content" ["content-section"] "";
    Element "pricesData" [] "old";
    Element "weather-content" ["content-section"; "active"] "";
    Element "weatherData" [] "old";
    Element "schemesData" [] "old";
    Element "cropsData" [] "old" ].

Definition sample_world : world (num:=option Z) :=
  World sample_doc sample_location None [] [].

(** A document without any of the containers *)
Definition bare_world : world (num:=option Z) :=
  World [Element "header" [] "Krishimitra"] sample_location None [] [].

(** Documents with only one of the two containers of the crop
    recommendations *)
Definition crops_only_world : world (num:=option Z) :=
  World [Element "cropsData" [] "old"] sample_location None [] [].

Definition alternative_only_world : world (num:=option Z) :=
  World [Element "cropRecommendationsData" [] "old"] sample_location None [] [].

Definition sample_crop : value (num:=option Z) :=
  VObj [("crop_name", VStr "Wheat"); ("current_price", VNum (Some 2100%Z));
        ("msp", VNum (Some 2000%Z)); ("profit", VNum (Some 100%Z))].

(** A body with crops and a timestamp *)
Definition sample_prices : value (num:=option Z) :=
  VObj [("location", VStr "Delhi"); ("timestamp", VNum (Some 1700000000000%Z));
        ("crops", VArr [sample_crop])].

(** A body with crops only under [market_prices.top_crops] *)
Definition sample_top_prices : value (num:=option Z) :=
  VObj [("location", VStr "Delhi");
        ("market_prices", VObj [("top_crops", VArr [sample_crop])])].

(** A body with an empty [crops] and crops under
    [market_prices.top_crops] *)
Definition sample_empty_crops : value (num:=option Z) :=
  VObj [("location", VStr "Delhi"); ("crops", VArr []);
        ("market_prices", VObj [("top_crops", VArr [sample_crop])])].

(** A body with crops and no timestamp *)
Definition sample_untimed : value (num:=option Z) :=
  VObj [("location", VStr "Delhi"); ("crops", VArr [sample_crop])].

(** A body whose crop has no price: [crop.current_price.toLocaleString]
    throws *)
Definition sample_unpriced : value (num:=option Z) :=
  VObj [("location", VStr "Delhi"); ("crops", VArr [VObj [("crop_name", VStr "Wheat")]])].

(** Bodies for the weather, the schemes and the crop recommendations *)
Definition sample_weather : value (num:=option Z) :=
  VObj [("location", VStr "Delhi");
        ("current_weather", VObj [("temperature", VStr "31°C")])].

Definition sample_schemes : value (num:=option Z) :=
  VObj [("schemes", VArr [VObj [("name", VStr "PM-Kisan")]])].

(** Two readings of the clock, a day apart *)
Definition one_day : option Z := Some 1700000000000%Z.
Definition next_day : option Z := Some 1700086400000%Z.

Definition sample_disk (content : string) : disk :=
  Disk {[ template_path := content ]} [].

Definition sample_template : string :=
  "<script>async function loadMarketPrices() { old } async function fetchMarketPrices() { old } async function searchMandiByLocation() { }</script>".

(** Another location *)
Definition sample_pune : location (num:=option Z) :=
  Location (VStr "Pune") (VNum (Some 18%Z)) (VNum (Some 73%Z)).

(** A body with a location and nothing else *)
Definition sample_located : value (num:=option Z) :=
  VObj [("location", VStr "Delhi")].

(** A value that cannot be printed: its own [toString] is not a function *)
Definition sample_unprintable : value (num:=option Z) :=
  VObj [("toString", VNull)].

(** A body with a crop that has a name *)
Definition sample_named_crops : value (num:=option Z) :=
  VObj [("crops", VArr [VObj [("name", VStr "Wheat")]])].

(** A [displayAllCrops] for concrete runs: it fills [pricesData] *)
Definition sample_displayAllCrops (data : value (num:=option Z)) : prog (num:=option Z) :=
  (container <- GetElementById "pricesData" ;;
   match container with
   | Some container => perform SetInnerHTML container "crops" ;; Done
   | None => Throw TypeError
   end)%prog.

(** A template in which the end marker comes first *)
Definition sample_swapped_template : string :=
  "<script>async function searchMandiByLocation() { } async function loadMarketPrices() { old }</script>".

(** * Properties *)

Section Properties.
Context {num : Type} `{!Host num}.
Implicit Types (w : world (num:=num)) (d : list element) (p body : prog (num:=num))
  (sv : service (num:=num)) (o : outcome (num:=num)) (now : num).

(** ** Execution of [try ... catch] *)

Lemma exec_try_catch body (handler : error -> prog) now w :
  exec (try_catch body handler) now w =
    match exec body now w with
    | (w1, Finished (Normal _)) => (w1, Finished (Normal tt))
    | (w1, Finished (Thrown e)) => exec (handler e) now w1
    | (w1, Suspended url k) => (w1, Suspended url (fun o => try_catch (k o) handler))
    end.
Proof.
  revert w; induction body as
    [ | e | id k IH | r html k IH | cls k IH | r tok k IH | r tok k IH | r k IH
    | k IH | l k IH | k IH | url k IH | callee _ k IH ]; intros w; cbn [try_catch exec]; auto.
  destruct (exec callee now w) as [w1 [c|url kc]]; apply IH.
Qed.

(** ** The document under [innerHTML] assignments *)

Lemma getElementById_Some d id c :
  getElementById d id = Some c ->
  exists e, d !! c = Some e /\ el_id e = id.
Proof.
  unfold getElementById. destruct (list_find _ d) as [[i e]|] eqn:E; [|done].
  intros [= <-]. apply list_find_Some in E as (? & ? & _). eauto.
Qed.

(** ** Programs do not change the ids of elements *)

Lemma getElementById_ids d d' id :
  el_id <$> d = el_id <$> d' -> getElementById d id = getElementById d' id.
Proof.
  assert (forall d, getElementById d id
                    = fst <$> list_find (fun x => x = id) (el_id <$> d)) as Hids.
  { intros d0. unfold getElementById. rewrite list_find_fmap.
    by destruct (list_find _ d0) as [[i e]|]. }
  intros Heq. by rewrite !Hids, Heq.
Qed.

Lemma first_element_ids ids d d' :
  el_id <$> d = el_id <$> d' -> first_element ids d = first_element ids d'.
Proof.
  intros Heq. induction ids as [|id ids IH]; [done|]. cbn [first_element].
  by rewrite (getElementById_ids d d' id Heq), IH.
Qed.

Lemma ids_alter (f : element -> element) r d :
  (forall e, el_id (f e) = el_id e) -> el_id <$> alter f r d = el_id <$> d.
Proof.
  intros Hf. rewrite (list_fmap_alter el_id f id).
  - by apply list_alter_id.
  - apply Forall_forall. intros e _. apply Hf.
Qed.

Lemma exec_ids p now w : el_id <$> doc (exec p now w).1 = el_id <$> doc w.
Proof.
  revert w; induction p as
    [ | e | id k IH | r html k IH | cls k IH | r tok k IH | r tok k IH | r k IH
    | k IH | l k IH | k IH | url k IH | callee IHc k IH ]; intros w; cbn [exec fst];
    try done; try (rewrite IH; cbn [doc set_doc set_viewport set_loc]; try done;
                   by apply ids_alter).
  specialize (IHc w). destruct (exec callee now w) as [w1 [c|url kc]];
    rewrite IH; cbn [doc add_pending fst] in *; done.
Qed.

Lemma meanwhile_ids (others : list (prog * num)) w :
  el_id <$> doc (meanwhile others w) = el_id <$> doc w.
Proof.
  revert w. induction others as [|[p now] others IH]; intros w; [done|].
  cbn [meanwhile]. by rewrite IH, exec_ids.
Qed.

Lemma ids_length d d' : el_id <$> d = el_id <$> d' -> length d = length d'.
Proof. intros Heq. by rewrite <- (length_fmap el_id d), Heq, length_fmap. Qed.

Lemma innerHTML_at_put html c d :
  c < length d -> innerHTML_at (alter (with_innerHTML html) c d) c = Some html.
Proof.
  intros Hc. unfold innerHTML_at. rewrite list_lookup_alter_eq.
  destruct (lookup_lt_is_Some_2 d c Hc) as [e ->]. done.
Qed.

Lemma alter_put_put a b c d :
  alter (with_innerHTML a) c (alter (with_innerHTML b) c d)
  = alter (with_innerHTML a) c d.
Proof.
  rewrite list_alter_alter_eq. apply list_alter_ext; [|done]. by intros [] _.
Qed.

(** ** Evaluation of the logged messages *)

Lemma bind_Normal {A B} (c : completion A) (f : A -> completion B) b :
  c ≫= f = Normal b -> exists a, c = Normal a /\ f a = Normal b.
Proof. destruct c as [a|e]; [eauto|done]. Qed.

Lemma bind_Normal_l {A B} (a : A) (f : A -> completion B) : Normal a ≫= f = f a.
Proof. reflexivity. Qed.

Lemma to_primitive_to_str (v p : value (num:=num)) :
  to_primitive v = Normal p -> exists s, to_str v = Normal s.
Proof.
  destruct v; cbn [to_primitive]; try (intros _; cbn; eauto; fail);
    intros (s & -> & _)%bind_Normal; eauto.
Qed.

(** [v?.length || 0] can be printed whenever [v && v.length > 0] could be
    evaluated. *)
Lemma optional_length_prints (v : value (num:=num)) b :
  nonempty v = Normal b ->
  exists s,
    (len ← (if nullish v then Normal VUndef else get_length v);
     js_or len (Normal (VNum (num_of_Z 0))) ≫= to_str) = Normal s.
Proof.
  destruct v as [| |c|n|s|items|fields]; cbn -[to_str]; intros Hv;
    try (unfold js_or; cbn; eauto; fail);
    try (unfold js_or; destruct (truthy _); cbn; eauto; fail).
  unfold js_gt in Hv. apply bind_Normal in Hv as (p & Hp & _).
  apply to_primitive_to_str in Hp as [s Hs].
  unfold js_or. destruct (truthy _); cbn -[to_str]; eauto.
Qed.

Lemma market_log_Normal now (data crops nearbyMandis : value (num:=num)) html :
  market_html now data crops nearbyMandis = Normal html ->
  exists s, market_log crops nearbyMandis = Normal s.
Proof.
  unfold market_html.
  intros (location & _ & H)%bind_Normal.
  apply bind_Normal in H as (source & _ & H).
  apply bind_Normal in H as (updated & _ & H).
  apply bind_Normal in H as (items & Hitems & H).
  apply bind_Normal in H as (html1 & _ & H).
  apply bind_Normal in H as (more & Hmore & H).
  destruct crops; try discriminate Hitems.
  unfold market_log. cbn [get_length to_str mbind completion_bind].
  apply optional_length_prints in Hmore as [s Hs].
  apply bind_Normal in Hs as (len & -> & Hs).
  rewrite bind_Normal_l, Hs, bind_Normal_l. eauto.
Qed.

Lemma schemes_log_Normal (schemes : value (num:=num)) html :
  schemes_html schemes = Normal html ->
  exists s, schemes_log schemes = Normal s.
Proof.
  unfold schemes_html. intros (items & Hitems & _)%bind_Normal.
  destruct schemes; try discriminate Hitems. cbn; eauto.
Qed.

Lemma crops_log_Normal (data recommendations : value (num:=num)) b html :
  crops_list data = Normal recommendations ->
  nonempty recommendations = Normal b -> b = true ->
  crops_html data recommendations = Normal html ->
  exists s, crops_log data = Normal s.
Proof.
  unfold crops_list, field_or, crops_html, crops_log.
  intros (x & Hx & Hor)%bind_Normal Hne -> H.
  apply bind_Normal in H as (season & _ & H).
  apply bind_Normal in H as (region & _ & H).
  apply bind_Normal in H as (source & _ & H).
  apply bind_Normal in H as (message & _ & H).
  apply bind_Normal in H as (items & Hitems & _).
  destruct recommendations as [| | | | |l|]; try discriminate Hitems.
  rewrite Hx. unfold js_or in Hor. destruct (truthy x).
  - injection Hor as ->. cbn; eauto.
  - injection Hor as <-. discriminate Hne.
Qed.

(** ** Each handler follows its service *)

(** The common opening of the four [try] blocks: the container is
    looked up, the loading text shown, the url built and the request
    made. *)
Ltac open_try now w :=
  cbn [sv_container sv_request sv_texts text_loading exec first_element
       market_service market_texts weather_service weather_texts
       schemes_service schemes_texts crops_service crops_texts];
  match goal with
  | |- context [getElementById (doc w) ?id] =>
      destruct (getElementById (doc w) id) as [?c|]; [|done]
  end;
  cbn [exec loc set_doc Pure];
  match goal with
  | |- context [Pure ?request] =>
      destruct request as [?url|?e]; cbn [Pure exec FetchJson]; [|done]
  end;
  eexists; split; [reflexivity|];
  intros [| |?data] ?now' ?w'; [done..|];
  cbn [answered sv_pipeline sv_texts text_unavailable
       market_service market_texts weather_service weather_texts
       schemes_service schemes_texts crops_service crops_texts];
  unfold pipeline.

Ltac step c x :=
  destruct c as [x|]; [cbn [Pure exec]; rewrite ?bind_Normal_l|reflexivity].

Lemma loadMarketPrices_try_follows : try_follows loadMarketPrices_try market_service.
Proof.
  intros now w. unfold loadMarketPrices_try. open_try now w.
  unfold market_mapper.
  step (market_crops data) crops.
  step (market_mandis data) nearbyMandis.
  step (nonempty crops) some.
  destruct some; [|reflexivity]. cbn [exec market_render].
  destruct (market_html now' data crops nearbyMandis) as [html|] eqn:Hhtml;
    [|reflexivity].
  destruct (market_log_Normal _ _ _ _ _ Hhtml) as [s Hs].
  cbn [Pure exec]. by rewrite Hs.
Qed.

Lemma loadWeatherData_try_follows : try_follows loadWeatherData_try weather_service.
Proof.
  intros now w. unfold loadWeatherData_try. open_try now w.
  unfold weather_mapper.
  step (weather_current data) weather.
  step (weather_forecast data) forecast.
  step (weather_available data weather) some.
  destruct some; [|reflexivity]. cbn [exec weather_render].
  by destruct (weather_html data weather forecast) as [html|].
Qed.

Lemma loadGovernmentSchemes_try_follows :
  try_follows loadGovernmentSchemes_try schemes_service.
Proof.
  intros now w. unfold loadGovernmentSchemes_try. open_try now w.
  unfold schemes_mapper.
  step (schemes_list data) schemes.
  step (nonempty schemes) some.
  destruct some; [|reflexivity]. cbn [exec]. unfold schemes_render.
  destruct (schemes_html schemes) as [html|] eqn:Hhtml; [|reflexivity].
  destruct (schemes_log_Normal _ _ Hhtml) as [s Hs].
  cbn [Pure exec]. by rewrite Hs.
Qed.

Lemma loadCropRecommendations_try_follows :
  try_follows loadCropRecommendations_try crops_service.
Proof.
  intros now w. unfold loadCropRecommendations_try, GetCropsContainer.
  cbn [sv_container sv_request sv_texts text_loading exec
       crops_service crops_texts first_element].
  destruct (getElementById (doc w) "cropsData") as [c|];
    [|cbn [exec];
      destruct (getElementById (doc w) "cropRecommendationsData") as [c|];
      [|reflexivity]].
  all: cbn [exec loc set_doc Pure];
    destruct (crops_request (loc w)) as [url|e]; cbn [Pure exec FetchJson]; [|done];
    eexists; split; [reflexivity|];
    intros [| |data] now' w'; [done..|];
    cbn [answered sv_pipeline sv_texts text_unavailable crops_service crops_texts];
    unfold pipeline, crops_mapper;
    destruct (crops_list data) as [recommendations|] eqn:Hlist;
      [cbn [Pure exec]; rewrite ?bind_Normal_l|reflexivity];
    destruct (nonempty recommendations) as [some|] eqn:Hsome;
      [cbn [Pure exec]; rewrite ?bind_Normal_l|reflexivity];
    (destruct some; [|reflexivity]); cbn [exec crops_render];
    (destruct (crops_html data recommendations) as [html|] eqn:Hhtml; [|reflexivity]);
    destruct (crops_log_Normal _ _ _ _ Hlist Hsome eq_refl Hhtml) as [s Hs];
    cbn [Pure exec]; by rewrite Hs.
Qed.

(** The four [catch] blocks *)

Lemma loadMarketPrices_catch_follows : catch_follows loadMarketPrices_catch market_service.
Proof. intros e now w. cbn. by destruct (getElementById _ _). Qed.

Lemma loadWeatherData_catch_follows : catch_follows loadWeatherData_catch weather_service.
Proof. intros e now w. cbn. by destruct (getElementById _ _). Qed.

Lemma loadGovernmentSchemes_catch_follows :
  catch_follows loadGovernmentSchemes_catch schemes_service.
Proof. intros e now w. cbn. by destruct (getElementById _ _). Qed.

Lemma loadCropRecommendations_catch_follows :
  catch_follows loadCropRecommendations_catch crops_service.
Proof.
  intros e now w. unfold loadCropRecommendations_catch, GetCropsContainer.
  cbn [exec sv_container sv_texts text_error crops_service crops_texts first_element].
  destruct (getElementById (doc w) "cropsData"); cbn [exec]; [reflexivity|].
  destruct (getElementById (doc w) "cropRecommendationsData"); reflexivity.
Qed.

Lemma exec_GetFirstElementById ids (k : option nat -> prog) now w :
  exec (GetFirstElementById ids k) now w = exec (k (first_element ids (doc w))) now w.
Proof.
  induction ids as [|id ids IH]; [done|]. cbn [GetFirstElementById exec first_element].
  by destruct (getElementById (doc w) id).
Qed.

Lemma fetch_and_render_try_follows {S : Type} t ids endpoint
    (mapper : value (num:=num) -> completion (option S)) render :
  try_follows (fetch_and_render_try t ids endpoint mapper render)
    (Service (first_element ids) t endpoint (pipeline mapper render)).
Proof.
  intros now w. unfold fetch_and_render_try. rewrite exec_GetFirstElementById.
  cbn [sv_container sv_request sv_texts].
  destruct (first_element ids (doc w)) as [c|]; [|done].
  cbn [exec loc set_doc Pure].
  destruct (endpoint (loc w)) as [url|e]; cbn [Pure exec FetchJson]; [|done].
  eexists; split; [reflexivity|].
  intros [| |data] now' w'; [done..|].
  cbn [answered sv_pipeline sv_texts]. unfold pipeline.
  step (mapper data) shape. destruct shape as [shape|]; [|reflexivity].
  cbn [exec]. by destruct (render now' shape).
Qed.

Lemma fetch_and_render_catch_follows {S : Type} t ids endpoint
    (mapper : value (num:=num) -> completion (option S)) render :
  catch_follows (fetch_and_render_catch t ids)
    (Service (first_element ids) t endpoint (pipeline mapper render)).
Proof.
  intros e now w. unfold fetch_and_render_catch. rewrite exec_GetFirstElementById.
  cbn [sv_container sv_texts]. by destruct (first_element ids (doc w)).
Qed.

Lemma spec_helper_try_follows {S : Type} t endpoint
    (mapper : value (num:=num) -> completion (option S)) render container_id :
  try_follows (spec_helper_try t endpoint mapper render container_id)
    (Service (first_element [container_id]) t endpoint
       (pipeline mapper (fun _ => render))).
Proof.
  intros now w. unfold spec_helper_try.
  cbn [sv_container sv_request sv_texts first_element exec].
  destruct (getElementById (doc w) container_id) as [c|]; [|done].
  cbn [exec loc set_doc Pure].
  destruct (endpoint (loc w)) as [url|e]; cbn [Pure exec FetchJson]; [|done].
  eexists; split; [reflexivity|].
  intros [| |data] now' w'; [done..|].
  cbn [answered sv_pipeline sv_texts]. unfold pipeline.
  step (mapper data) shape. destruct shape as [shape|]; [|reflexivity].
  by destruct (render shape).
Qed.

Lemma spec_helper_catch_follows {S : Type} t endpoint
    (mapper : value (num:=num) -> completion (option S)) (render : S -> completion string)
    container_id :
  catch_follows (spec_helper_catch t container_id)
    (Service (first_element [container_id]) t endpoint
       (pipeline mapper (fun _ => render))).
Proof.
  intros e now w. unfold spec_helper_catch.
  cbn [sv_container sv_texts first_element exec].
  by destruct (getElementById (doc w) container_id).
Qed.

(** ** Consequences of following a service *)

Lemma first_element_lt ids d c : first_element ids d = Some c -> c < length d.
Proof.
  induction ids as [|id ids IH]; [done|]. cbn [first_element].
  destruct (getElementById d id) as [r|] eqn:E; [|done].
  intros [= <-]. apply getElementById_Some in E as (e & He & _).
  by eapply lookup_lt_Some.
Qed.

Lemma first_element_sound ids t request
    (pl : num -> value (num:=num) -> completion (option string)) :
  container_sound (Service (first_element ids) t request pl).
Proof.
  split; cbn [sv_container].
  - intros. by apply first_element_ids.
  - intros. by eapply first_element_lt.
Qed.

Lemma service_exec body (handler : error -> prog) sv now w :
  try_follows body sv -> catch_follows handler sv -> container_sound sv ->
  match sv_container sv (doc w) with
  | None => exec (try_catch body handler) now w = (w, Finished (Normal tt))
  | Some c =>
      match sv_request sv (loc w) with
      | Thrown _ =>
          exec (try_catch body handler) now w
          = (put (text_error (sv_texts sv)) c w, Finished (Normal tt))
      | Normal url =>
          exists k,
            exec (try_catch body handler) now w
            = (add_request url (put (text_loading (sv_texts sv)) c w), Suspended url k)
            /\ forall o now' w',
                sv_container sv (doc w') = Some c ->
                exec (k o) now' w'
                = (put (final_text sv now' o) c w', Finished (Normal tt))
      end
  end.
Proof.
  intros Htry Hcatch [Hstable _]. specialize (Htry now w).
  destruct (sv_container sv (doc w)) as [c|] eqn:Hc; cbv beta iota in Htry |- *;
    [|by rewrite exec_try_catch, Htry].
  destruct (sv_request sv (loc w)) as [url|e]; cbv beta iota in Htry |- *.
  - destruct Htry as (k & Hexec & Hk). eexists; split.
    { rewrite exec_try_catch, Hexec. reflexivity. }
    intros o now' w' Hc'. cbv beta. rewrite exec_try_catch, Hk.
    unfold answered, final_text.
    destruct o as [| |data]; [by rewrite Hcatch, Hc'..|].
    destruct (sv_pipeline sv now' data) as [[html|]|e]; cbn [shown]; try done.
    by rewrite Hcatch, Hc'.
  - rewrite exec_try_catch, Htry, Hcatch. cbn [put set_doc doc].
    rewrite (Hstable _ (doc w)), Hc by (by apply ids_alter).
    unfold put, set_doc; cbn. by rewrite alter_put_put.
Qed.

Lemma handler_follows (h : handler) :
  try_follows (handler_try h) (handler_service h) /\
  catch_follows (handler_catch h) (handler_service h) /\
  container_sound (handler_service h).
Proof.
  destruct h; (split; [|split]); try apply first_element_sound.
  - apply loadMarketPrices_try_follows.
  - apply loadMarketPrices_catch_follows.
  - apply loadWeatherData_try_follows.
  - apply loadWeatherData_catch_follows.
  - apply loadGovernmentSchemes_try_follows.
  - apply loadGovernmentSchemes_catch_follows.
  - apply loadCropRecommendations_try_follows.
  - apply loadCropRecommendations_catch_follows.
Qed.

Lemma handler_prog_unfold (h : handler) :
  handler_prog h = try_catch (handler_try h) (handler_catch h).
Proof. by destruct h. Qed.

(** The execution of a handler, up to the point where it is suspended
    and after the answer *)
Lemma handler_exec (h : handler) now w :
  match container_of h (doc w) with
  | None => exec (handler_prog h) now w = (w, Finished (Normal tt))
  | Some c =>
      match sv_request (handler_service h) (loc w) with
      | Thrown _ =>
          exec (handler_prog h) now w = (put (error_of h) c w, Finished (Normal tt))
      | Normal url =>
          exists k,
            exec (handler_prog h) now w
            = (add_request url (put (loading_of h) c w), Suspended url k)
            /\ forall o now' w',
                container_of h (doc w') = Some c ->
                exec (k o) now' w'
                = (put (final_text (handler_service h) now' o) c w', Finished (Normal tt))
      end
  end.
Proof.
  destruct (handler_follows h) as (Htry & Hcatch & Hsound).
  rewrite handler_prog_unfold. apply service_exec; assumption.
Qed.

Lemma container_of_lt (h : handler) d c : container_of h d = Some c -> c < length d.
Proof. destruct (handler_follows h) as (_ & _ & _ & Hlt). apply Hlt. Qed.

Lemma container_of_ids_only (h : handler) d d' :
  el_id <$> d = el_id <$> d' -> container_of h d = container_of h d'.
Proof. destruct (handler_follows h) as (_ & _ & Hids & _). apply Hids. Qed.

(** The world in which a suspended call is answered has the elements,
    by id, of the world in which the call was made. *)
Lemma later_ids (others : list (prog * num)) url html c w :
  el_id <$> doc (meanwhile others (add_request url (put html c w))) = el_id <$> doc w.
Proof. rewrite meanwhile_ids. cbn. by apply ids_alter. Qed.

(** A handler called and answered, whatever runs in between *)
Lemma handler_run (h : handler) others o now later w c :
  container_of h (doc w) = Some c ->
  exists w',
    run (handler_prog h) others o now later w = (w', Finished (Normal tt)) /\
    innerHTML_at (doc w') c
    = Some match sv_request (handler_service h) (loc w) with
           | Normal _ => final_text (handler_service h) later o
           | Thrown _ => error_of h
           end.
Proof.
  intros Hc. pose proof (handler_exec h now w) as Hexec. rewrite Hc in Hexec.
  pose proof (container_of_lt _ _ _ Hc) as Hlt. unfold run.
  destruct (sv_request (handler_service h) (loc w)) as [url|e].
  - destruct Hexec as (k & -> & Hk).
    pose proof (later_ids others url (loading_of h) c w) as Hids. rewrite Hk.
    + eexists; split; [reflexivity|]. apply innerHTML_at_put.
      by rewrite (ids_length _ _ Hids).
    + by rewrite (container_of_ids_only h _ _ Hids).
  - rewrite Hexec. eexists; split; [reflexivity|]. by apply innerHTML_at_put.
Qed.

Lemma first_element_None ids d :
  first_element ids d = None <-> forall id, id ∈ ids -> getElementById d id = None.
Proof.
  induction ids as [|id ids IH]; cbn [first_element].
  - split; [|done]. intros _ id Hid. by apply elem_of_nil in Hid.
  - destruct (getElementById d id) as [r|] eqn:E.
    + split; [done|]. intros Hall. rewrite Hall in E; [done|]. apply list_elem_of_here.
    + rewrite IH. split.
      * intros Hall id' [->|Hid]%elem_of_cons; auto.
      * intros Hall id' Hid. apply Hall. by apply list_elem_of_further.
Qed.

Lemma container_of_ids (h : handler) d :
  container_of h d = first_element (handler_ids h) d.
Proof. by destruct h. Qed.

(** ** The claims about the four handlers *)

(** C1.  Whatever happens and whatever else runs while it is
    suspended, a handler called and answered returns normally; and
    whenever its [try] block, run on its own, throws (the url cannot be
    built, [fetch] or [json()] rejects, the body cannot be mapped or
    rendered), the container exists and holds the error text of the
    service when the handler returns. *)
Theorem failure_is_caught (h : handler) others o now later w :
  exists w',
    run (handler_prog h) others o now later w = (w', Finished (Normal tt)) /\
    forall w1 e,
      run (handler_try h) others o now later w = (w1, Finished (Thrown e)) ->
      exists c, container_of h (doc w) = Some c /\
                innerHTML_at (doc w') c = Some (error_of h).
Proof.
  destruct (handler_follows h) as (Htry & _ & _). specialize (Htry now w).
  fold (container_of h (doc w)) in Htry.
  destruct (container_of h (doc w)) as [c|] eqn:Hc.
  - destruct (handler_run h others o now later w c Hc) as (w' & Hrun & Hshown).
    exists w'. split; [done|]. intros w1 e Hfail. exists c. split; [done|].
    rewrite Hshown. f_equal. unfold run in Hfail.
    destruct (sv_request (handler_service h) (loc w)) as [url|e0]; [|done].
    destruct Htry as (k & Hexec & Hk). rewrite Hexec, Hk in Hfail.
    unfold answered in Hfail. unfold final_text, error_of.
    destruct o as [| |data]; [done..|].
    by destruct (sv_pipeline (handler_service h) later data) as [[html|]|e0].
  - pose proof (handler_exec h now w) as Hexec. rewrite Hc in Hexec.
    exists w. unfold run. rewrite Hexec, Htry. by split.
Qed.

(** C5.  With its container in the document, the first thing a handler
    does is to put the loading text in the container.  When the url can
    be built the handler then makes its one request and is suspended:
    the world in which the request is made is the world of the call with
    the loading text in the container, and what is left of the handler
    requests nothing more, in whatever later world it is answered.  When
    the url cannot be built the [try] block ends there, with the loading
    text shown, and the handler returns without a request. *)
Theorem loading_shown_before_fetch (h : handler) now w c w1 st :
  container_of h (doc w) = Some c ->
  exec (handler_prog h) now w = (w1, st) ->
  match sv_request (handler_service h) (loc w) with
  | Normal url =>
      exists k,
        st = Suspended url k /\
        w1 = add_request url (put (loading_of h) c w) /\
        requests w1 = (requests w ++ [url])%list /\
        innerHTML_at (doc w1) c = Some (loading_of h) /\
        forall o later w2,
          el_id <$> doc w2 = el_id <$> doc w ->
          requests (exec (k o) later w2).1 = requests w2
  | Thrown e =>
      st = Finished (Normal tt) /\
      requests w1 = requests w /\
      exec (handler_try h) now w = (put (loading_of h) c w, Finished (Thrown e))
  end.
Proof.
  intros Hc Hst. pose proof (handler_exec h now w) as Hexec. rewrite Hc in Hexec.
  destruct (handler_follows h) as (Htry & _ & _). specialize (Htry now w).
  fold (container_of h (doc w)) in Htry. rewrite Hc in Htry.
  pose proof (container_of_lt _ _ _ Hc) as Hlt.
  destruct (sv_request (handler_service h) (loc w)) as [url|e].
  - destruct Hexec as (k & Hexec & Hk). rewrite Hexec in Hst.
    injection Hst as <- <-. exists k. split; [done|]. split; [done|]. split; [done|].
    split; [by apply innerHTML_at_put|].
    intros o later w2 Hids. rewrite Hk; [done|].
    by rewrite (container_of_ids_only h _ _ Hids).
  - rewrite Hexec in Hst. injection Hst as <- <-. split; [done|]. split; [done|].
    exact Htry.
Qed.

(** C9.  Without its container in the document a handler returns at
    once and leaves the world as it is: nothing is requested and the
    document is not touched. *)
Theorem absent_container_no_effect (h : handler) now w :
  (forall id, id ∈ handler_ids h -> getElementById (doc w) id = None) ->
  exec (handler_prog h) now w = (w, Finished (Normal tt)).
Proof.
  intros Habsent. pose proof (handler_exec h now w) as Hexec.
  by rewrite container_of_ids, (proj2 (first_element_None _ _) Habsent) in Hexec.
Qed.

Lemma pipeline_clock_free {S : Type} (mapper : value (num:=num) -> completion (option S))
    (render : num -> S -> completion string) now now' data :
  (forall shape, render now shape = render now' shape) ->
  pipeline mapper render now data = pipeline mapper render now' data.
Proof.
  intros Hrender. unfold pipeline.
  destruct (mapper data) as [[shape|]|]; [|reflexivity..].
  rewrite !bind_Normal_l. by rewrite Hrender.
Qed.

Lemma market_pipeline_timestamp now now' (data ts : value (num:=num)) :
  get data "timestamp" = Normal ts -> truthy ts = true ->
  pipeline market_mapper market_render now data
  = pipeline market_mapper market_render now' data.
Proof.
  intros Hts Htruthy. unfold pipeline, market_mapper.
  destruct (market_crops data) as [crops|]; [rewrite !bind_Normal_l|reflexivity].
  destruct (market_mandis data) as [nearbyMandis|];
    [rewrite !bind_Normal_l|reflexivity].
  destruct (nonempty crops) as [[|]|]; [|reflexivity..].
  rewrite !bind_Normal_l. cbn [market_render]. unfold market_html, field_or.
  destruct (get data "location" ≫= to_str) as [location|]; [|reflexivity].
  rewrite !bind_Normal_l.
  destruct (_ ≫= to_str) as [source|]; [|reflexivity].
  rewrite !bind_Normal_l, Hts, !bind_Normal_l. unfold js_or at 1 2.
  rewrite Htruthy. reflexivity.
Qed.

(** C7, as amended.  Once a handler has made its request, the markup it
    leaves in the container when it is answered by the body [data],
    whatever ran in between, is [handler_shown]: for the weather, the
    schemes and the crop recommendations a function of the body alone;
    for the market prices a function of the body and of the clock, and
    of the body alone when [data.timestamp] is truthy. *)
Theorem shown_depends_on_body (h : handler) others now w c w1 url k data later :
  container_of h (doc w) = Some c ->
  exec (handler_prog h) now w = (w1, Suspended url k) ->
  innerHTML_at (doc (exec (k (JsonBody data)) later (meanwhile others w1)).1) c
  = Some (handler_shown h later data) /\
  (h <> MarketPrices ->
   forall other, handler_shown h other data = handler_shown h later data) /\
  (forall ts, get data "timestamp" = Normal ts -> truthy ts = true ->
   forall other, handler_shown h other data = handler_shown h later data).
Proof.
  intros Hc Hst. pose proof (handler_exec h now w) as Hexec. rewrite Hc in Hexec.
  pose proof (container_of_lt _ _ _ Hc) as Hlt.
  split; [|split].
  - destruct (sv_request (handler_service h) (loc w)) as [url'|e];
      [|by rewrite Hexec in Hst].
    destruct Hexec as (k' & Hexec & Hk). rewrite Hexec in Hst.
    injection Hst as <- <- <-.
    pose proof (later_ids others url' (loading_of h) c w) as Hids. rewrite Hk.
    + apply innerHTML_at_put. by rewrite (ids_length _ _ Hids).
    + by rewrite (container_of_ids_only h _ _ Hids).
  - intros Hh other. unfold handler_shown, final_text. f_equal.
    destruct h; [done| | |]; by apply pipeline_clock_free.
  - intros ts Hts Htruthy other. unfold handler_shown, final_text. f_equal.
    destruct h; [|by apply pipeline_clock_free..].
    by eapply market_pipeline_timestamp.
Qed.

(** ** The market prices: where the crops are taken from *)

Lemma get_defined (v : value (num:=num)) k x k' :
  get v k = Normal x -> exists y, get v k' = Normal y.
Proof. destruct v; cbn; try done; eauto. Qed.

Lemma get_opt_defined (v : value (num:=num)) k : exists y, get_opt v k = Normal y.
Proof. destruct v; cbn; eauto. Qed.

Lemma market_mandis_defined (data : value (num:=num)) k x :
  get data k = Normal x -> exists m, market_mandis data = Normal m.
Proof.
  intros Hk. unfold market_mandis, field_or.
  destruct (get_defined _ _ _ "nearby_mandis" Hk) as [a ->].
  destruct (get_defined _ _ _ "market_prices" Hk) as [b ->].
  rewrite !bind_Normal_l.
  destruct (get_opt_defined b "nearby_mandis") as [t ->].
  unfold js_or. destruct (truthy a); rewrite ?bind_Normal_l.
  - destruct (truthy a); eauto.
  - destruct (truthy t); eauto.
Qed.

Lemma market_shown_grid now (data crops : value (num:=num)) :
  market_crops data = Normal crops -> nonempty crops = Normal true ->
  market_shown now data = market_grid now data crops.
Proof.
  intros Hcrops Hsome. unfold market_shown, market_grid, pipeline, market_mapper.
  rewrite Hcrops, bind_Normal_l.
  destruct (market_mandis data) as [nearbyMandis|]; [|reflexivity].
  rewrite !bind_Normal_l, Hsome, !bind_Normal_l. cbn [market_render].
  by destruct (market_html now data crops nearbyMandis).
Qed.

Lemma market_shown_unavailable now (data crops : value (num:=num)) k x :
  get data k = Normal x ->
  market_crops data = Normal crops -> nonempty crops = Normal false ->
  market_shown now data = market_unavailable.
Proof.
  intros Hk Hcrops Hnone. unfold market_shown, pipeline, market_mapper.
  destruct (market_mandis_defined _ _ _ Hk) as [m Hm].
  by rewrite Hcrops, bind_Normal_l, Hm, bind_Normal_l, Hnone, !bind_Normal_l.
Qed.

Lemma nonempty_array (items : list (value (num:=num))) :
  items <> [] -> nonempty (VArr items) = Normal true.
Proof. intros Hne. cbn. by rewrite bool_decide_eq_false_2. Qed.

(** C6, as amended.  [loadMarketPrices], once it has made its request
    and is answered by [data], whatever ran in between, shows: the grid
    of [data.crops] when that member is a non-empty list; the grid of
    [data.market_prices?.top_crops] when [data.crops] is falsy and that
    path yields a non-empty list; and the text for no data when
    [data.crops] is an empty list, or is falsy while the path yields a
    falsy value or an empty list. *)
Theorem market_crops_fallback others now later w c url data :
  getElementById (doc w) "pricesData" = Some c ->
  market_request (loc w) = Normal url ->
  exists final,
    innerHTML_at (doc (run loadMarketPrices others (JsonBody data) now later w).1) c
    = Some final /\
    (forall items,
        get data "crops" = Normal (VArr items) -> items <> [] ->
        final = market_grid later data (VArr items)) /\
    (forall crops items,
        get data "crops" = Normal crops -> truthy crops = false ->
        market_top_crops data = Normal (VArr items) -> items <> [] ->
        final = market_grid later data (VArr items)) /\
    (get data "crops" = Normal (VArr []) -> final = market_unavailable) /\
    (forall crops top,
        get data "crops" = Normal crops -> truthy crops = false ->
        market_top_crops data = Normal top ->
        truthy top = false \/ top = VArr [] ->
        final = market_unavailable).
Proof.
  intros Hc Hurl.
  assert (container_of MarketPrices (doc w) = Some c) as Hc'.
  { unfold container_of; cbn. by rewrite Hc. }
  destruct (handler_run MarketPrices others (JsonBody data) now later w c Hc')
    as (w' & Hrun & Hshown).
  cbn [handler_prog] in Hrun. rewrite Hrun. cbn [fst].
  cbn [handler_service sv_request market_service] in Hshown. rewrite Hurl in Hshown.
  exists (market_shown later data). split; [exact Hshown|].
  unfold market_crops, field_or. fold (market_top_crops data).
  repeat split.
  - intros items Hcrops Hne. apply market_shown_grid; [|by apply nonempty_array].
    unfold market_crops, field_or. by rewrite Hcrops.
  - intros crops items Hcrops Hfalsy Htop Hne.
    apply market_shown_grid; [|by apply nonempty_array].
    unfold market_crops, field_or. fold (market_top_crops data).
    rewrite Hcrops, bind_Normal_l. unfold js_or at 2. by rewrite Hfalsy, Htop.
  - intros Hcrops.
    eapply (market_shown_unavailable _ _ (VArr [])); [exact Hcrops| |reflexivity].
    unfold market_crops, field_or. by rewrite Hcrops.
  - intros crops top Hcrops Hfalsy Htop Hnothing.
    eapply (market_shown_unavailable _ _ (VArr [])); [exact Hcrops| |reflexivity].
    unfold market_crops, field_or. fold (market_top_crops data).
    rewrite Hcrops, bind_Normal_l. unfold js_or at 2. rewrite Hfalsy, Htop.
    rewrite bind_Normal_l. destruct Hnothing as [Hfalsy'| ->]; [|done].
    unfold js_or. by rewrite Hfalsy'.
Qed.

(** ** One helper, four instances *)

Lemma service_run body (handler : error -> prog) sv others o now later w :
  try_follows body sv -> catch_follows handler sv -> container_sound sv ->
  run (try_catch body handler) others o now later w
  = (service_result sv others o later w, Finished (Normal tt)).
Proof.
  intros Htry Hcatch Hsound.
  pose proof (service_exec body handler sv now w Htry Hcatch Hsound) as Hexec.
  unfold run, service_result. destruct Hsound as [Hids _].
  destruct (sv_container sv (doc w)) as [c|] eqn:Hc; [|by rewrite Hexec].
  destruct (sv_request sv (loc w)) as [url|e]; [|by rewrite Hexec].
  destruct Hexec as (k & -> & Hk). apply Hk.
  rewrite <- Hc. apply Hids, later_ids.
Qed.

Lemma follows_same_behaviour body1 (handler1 : error -> prog) body2
    (handler2 : error -> prog) sv :
  try_follows body1 sv -> catch_follows handler1 sv ->
  try_follows body2 sv -> catch_follows handler2 sv ->
  container_sound sv ->
  same_behaviour (try_catch body1 handler1) (try_catch body2 handler2).
Proof.
  intros Htry1 Hcatch1 Htry2 Hcatch2 Hsound others o now later w. split.
  - pose proof (service_exec body1 handler1 sv now w Htry1 Hcatch1 Hsound) as H1.
    pose proof (service_exec body2 handler2 sv now w Htry2 Hcatch2 Hsound) as H2.
    destruct (sv_container sv (doc w)) as [c|]; [|by rewrite H1, H2].
    destruct (sv_request sv (loc w)) as [url|e]; [|by rewrite H1, H2].
    destruct H1 as (k1 & -> & _), H2 as (k2 & -> & _). done.
  - by rewrite !(service_run _ _ sv).
Qed.

(** C8, as amended.  Each of the four handlers behaves, on every input
    and whatever runs while it is suspended, as an instance of the one
    helper [fetch_and_render], which is given the three texts of the
    service, the ids under which the container is looked for (in
    order), the url to request, the mapper of the body and a render
    function that may read the clock. *)
Theorem handlers_are_instances (h : handler) :
  same_behaviour (handler_prog h) (handler_instance h).
Proof.
  destruct (handler_follows h) as (Htry & Hcatch & Hsound).
  rewrite handler_prog_unfold.
  destruct h; cbn [handler_instance]; unfold fetch_and_render;
    (eapply follows_same_behaviour;
     [exact Htry|exact Hcatch| | |exact Hsound]).
  - exact (fetch_and_render_try_follows _ _ _ market_mapper market_render).
  - exact (fetch_and_render_catch_follows _ _ _ market_mapper market_render).
  - exact (fetch_and_render_try_follows _ _ _ weather_mapper weather_render).
  - exact (fetch_and_render_catch_follows _ _ _ weather_mapper weather_render).
  - exact (fetch_and_render_try_follows _ _ _ schemes_mapper schemes_render).
  - exact (fetch_and_render_catch_follows _ _ _ schemes_mapper schemes_render).
  - exact (fetch_and_render_try_follows _ _ _ crops_mapper crops_render).
  - exact (fetch_and_render_catch_follows _ _ _ crops_mapper crops_render).
Qed.


(** ** Service navigation *)

Lemma loadServiceData_cases (serviceName : string) :
  loadServiceData (num:=num) serviceName = Done \/
  exists h, loadServiceData serviceName = Async (handler_prog h) Done.
Proof.
  unfold loadServiceData.
  destruct (String.eqb serviceName "government-schemes");
    [right; by exists GovernmentSchemes|].
  destruct (String.eqb serviceName "crop-recommendations");
    [right; by exists CropRecommendations|].
  destruct (String.eqb serviceName "weather"); [right; by exists WeatherData|].
  destruct (String.eqb serviceName "market-prices"); [right; by exists MarketPrices|].
  left. by repeat destruct (String.eqb serviceName _).
Qed.

(** C4.  [loadServiceData] calls the handler named by its argument,
    for the four names it knows; for every other string, among them
    [pest-control] and [ai-assistant], it returns with the world as it
    was: nothing requested, the document untouched. *)
Theorem loadServiceData_dispatch :
  loadServiceData (num:=num) "government-schemes" = Async loadGovernmentSchemes Done /\
  loadServiceData (num:=num) "crop-recommendations" = Async loadCropRecommendations Done /\
  loadServiceData (num:=num) "weather" = Async loadWeatherData Done /\
  loadServiceData (num:=num) "market-prices" = Async loadMarketPrices Done /\
  forall (serviceName : string) now w,
    serviceName ∉ ["government-schemes"; "crop-recommendations"; "weather";
                   "market-prices"] ->
    exec (loadServiceData serviceName) now w = (w, Finished (Normal tt)).
Proof.
  repeat split; try reflexivity.
  intros serviceName now w Hother. unfold loadServiceData.
  destruct (String.eqb_spec serviceName "government-schemes") as [->|_];
    [exfalso; apply Hother; set_solver|].
  destruct (String.eqb_spec serviceName "crop-recommendations") as [->|_];
    [exfalso; apply Hother; set_solver|].
  destruct (String.eqb_spec serviceName "weather") as [->|_];
    [exfalso; apply Hother; set_solver|].
  destruct (String.eqb_spec serviceName "market-prices") as [->|_];
    [exfalso; apply Hother; set_solver|].
  by repeat destruct (String.eqb serviceName _).
Qed.


Lemma exec_call (callee rest : prog) now w :
  exec (call callee rest) now w =
    match exec callee now w with
    | (w1, Finished (Normal _)) => exec rest now w1
    | (w1, Finished (Thrown e)) => (w1, Finished (Thrown e))
    | (w1, Suspended url k) => (w1, Suspended url (fun o => call (k o) rest))
    end.
Proof.
  revert w; induction callee as
    [ | e | id k IH | r html k IH | cls k IH | r tok k IH | r tok k IH | r k IH
    | k IH | l k IH | k IH | url k IH | callee' _ k IH ]; intros w; cbn [call exec]; auto.
  destruct (exec callee' now w) as [w1 [c|url kc]]; apply IH.
Qed.

Lemma exec_for_each_remove tok rs (rest : prog) now w :
  exec (for_each rs (fun r => ClassListRemove r tok) rest) now w
  = exec rest now (set_doc (remove_all tok rs (doc w)) w).
Proof.
  revert w. induction rs as [|r rs IH]; intros w; cbn [for_each exec].
  - by destruct w.
  - rewrite IH. by destruct w.
Qed.

Lemma class_remove_idemp tok e : class_remove tok (class_remove tok e) = class_remove tok e.
Proof.
  unfold class_remove; cbn. f_equal.
  induction (el_classes e) as [|c cs IH]; [done|].
  rewrite !filter_cons. destruct (decide (c ≠ tok)); [|done].
  rewrite filter_cons. destruct (decide (c ≠ tok)); [|done]. by f_equal.
Qed.

Lemma remove_all_lookup tok rs d j :
  remove_all tok rs d !! j
  = (if bool_decide (j ∈ rs) then class_remove tok else id) <$> d !! j.
Proof.
  revert d. induction rs as [|r rs IH]; intros d; cbn [remove_all foldl].
  - rewrite bool_decide_eq_false_2 by apply not_elem_of_nil.
    by destruct (d !! j).
  - fold (remove_all tok rs (alter (class_remove tok) r d)). rewrite IH.
    destruct (decide (r = j)) as [->|Hne].
    + rewrite list_lookup_alter_eq, (bool_decide_eq_true_2 (j ∈ j :: rs))
        by apply list_elem_of_here.
      destruct (d !! j) as [e|]; [|done]. cbn.
      case_bool_decide; [by rewrite class_remove_idemp|done].
    + rewrite list_lookup_alter_ne by done.
      destruct (d !! j) as [e|]; [|done]. cbn. f_equal.
      repeat case_bool_decide; try done; exfalso; set_solver.
Qed.

Lemma querySelectorAll_elem d cls j :
  j ∈ querySelectorAll d cls <-> exists e, d !! j = Some e /\ cls ∈ el_classes e.
Proof.
  unfold querySelectorAll. rewrite list_elem_of_fmap. split.
  - intros ([i e] & -> & [Hcls Hin]%list_elem_of_filter).
    apply elem_of_lookup_imap in Hin as (i' & e' & [= -> ->] & Hlookup). eauto.
  - intros (e & Hlookup & Hcls). exists (j, e). split; [done|].
    apply list_elem_of_filter. split; [done|]. by apply elem_of_lookup_imap_2.
Qed.

Lemma getElementById_remove_all tok rs d id :
  getElementById (remove_all tok rs d) id = getElementById d id.
Proof.
  revert d. induction rs as [|r rs IH]; intros d; [done|]. cbn [remove_all foldl].
  fold (remove_all tok rs (alter (class_remove tok) r d)). rewrite IH.
  apply getElementById_ids. by apply ids_alter.
Qed.

(** A handler, up to its first [await], changes nothing but the markup
    of elements. *)
Lemma handler_exec_doc (h : handler) now w :
  let w1 := (exec (handler_prog h) now w).1 in
  doc w1 = doc w \/ exists html r, doc w1 = alter (with_innerHTML html) r (doc w).
Proof.
  pose proof (handler_exec h now w) as Hexec. cbv zeta.
  destruct (container_of h (doc w)) as [c|]; [|rewrite Hexec; by left].
  destruct (sv_request (handler_service h) (loc w)) as [url|e].
  - destruct Hexec as (k & -> & _). right. by eexists _, _.
  - rewrite Hexec. right. by eexists _, _.
Qed.

Lemma exec_loadServiceData (serviceName : string) now w :
  exists w',
    exec (call (loadServiceData serviceName) Done) now w = (w', Finished (Normal tt)) /\
    (doc w' = doc w \/ exists html r, doc w' = alter (with_innerHTML html) r (doc w)).
Proof.
  rewrite exec_call.
  destruct (loadServiceData_cases serviceName) as [->|[h ->]]; cbn [exec].
  - exists w. split; [done|by left].
  - pose proof (handler_exec_doc h now w) as Hdoc. cbv zeta in Hdoc.
    destruct (exec (handler_prog h) now w) as [w1 [c|url k]]; cbn [exec fst] in *;
      eexists; (split; [reflexivity|]); exact Hdoc.
Qed.

Lemma classes_put html r d j :
  el_classes <$> alter (with_innerHTML html) r d !! j = el_classes <$> d !! j.
Proof.
  destruct (decide (r = j)) as [->|Hne].
  - rewrite list_lookup_alter_eq. by destruct (d !! j).
  - by rewrite list_lookup_alter_ne.
Qed.

(** C10.  [showService] returns normally.  After it, at most one
    element of class [content-section] carries [active]: such an element
    can only be the element found under [serviceName + '-content'],
    which carries [active] when it exists; when it does not exist no
    such element carries [active], nothing is requested, no call is left
    suspended and no markup has changed. *)
Theorem showService_active (serviceName : string) now w :
  exists w',
    exec (showService serviceName) now w = (w', Finished (Normal tt)) /\
    (forall j j' e e',
        doc w' !! j = Some e -> doc w' !! j' = Some e' ->
        "content-section" ∈ el_classes e -> "active" ∈ el_classes e ->
        "content-section" ∈ el_classes e' -> "active" ∈ el_classes e' ->
        j = j') /\
    (forall j e,
        doc w' !! j = Some e ->
        "content-section" ∈ el_classes e -> "active" ∈ el_classes e ->
        getElementById (doc w) (serviceName +:+ "-content") = Some j) /\
    (forall c,
        getElementById (doc w) (serviceName +:+ "-content") = Some c ->
        exists e, doc w' !! c = Some e /\ "active" ∈ el_classes e) /\
    (getElementById (doc w) (serviceName +:+ "-content") = None ->
     requests w' = requests w /\ pending w' = pending w /\
     forall j, innerHTML_at (doc w') j = innerHTML_at (doc w) j).
Proof.
  unfold showService. rewrite exec_try_catch. cbn [exec].
  rewrite exec_for_each_remove. cbn [exec doc set_doc].
  rewrite getElementById_remove_all.
  set (rs := querySelectorAll (doc w) "content-section").
  set (d1 := remove_all "active" rs (doc w)).
  assert (forall j e1, d1 !! j = Some e1 ->
            "content-section" ∈ el_classes e1 -> "active" ∉ el_classes e1) as Hclean.
  { intros j e1 Hj Hsection. unfold d1 in Hj. rewrite remove_all_lookup in Hj.
    destruct (doc w !! j) as [e|] eqn:He; [|done]. cbn in Hj.
    case_bool_decide as Hin; injection Hj as <-.
    - cbn. by intros [Hne _]%list_elem_of_filter.
    - exfalso. apply Hin, querySelectorAll_elem. eauto. }
  destruct (getElementById (doc w) (serviceName +:+ "-content")) as [c|] eqn:Hc;
    cbn [exec doc set_doc].
  - destruct (exec_loadServiceData serviceName now
                (set_viewport c
                   (set_doc (alter (class_add "active") c d1) (set_doc d1 w))))
      as (w' & -> & Hdoc).
    cbn [doc set_viewport set_doc] in Hdoc.
    assert (forall j, el_classes <$> doc w' !! j
                      = el_classes <$> alter (class_add "active") c d1 !! j) as Hcls.
    { intros j. destruct Hdoc as [->|(html & r & ->)]; [done|apply classes_put]. }
    exists w'. split; [done|].
    assert (forall j e, doc w' !! j = Some e ->
              "content-section" ∈ el_classes e -> "active" ∈ el_classes e ->
              Some c = Some j) as Honly; [|split; [|split; [exact Honly|split; [|done]]]].
    + intros j e He Hsection Hactive. f_equal.
      destruct (decide (c = j)) as [|Hne]; [done|]. exfalso.
      specialize (Hcls j). rewrite He, list_lookup_alter_ne in Hcls by done.
      destruct (d1 !! j) as [e1|] eqn:He1; [|done]. injection Hcls as Hcls.
      apply (Hclean j e1 He1); by rewrite <- Hcls.
    + intros j j' e e' He He' Hs Ha Hs' Ha'.
      pose proof (Honly j e He Hs Ha) as Hj. pose proof (Honly j' e' He' Hs' Ha') as Hj'.
      congruence.
    + intros c' [= <-]. specialize (Hcls c).
      rewrite list_lookup_alter_eq in Hcls.
      apply getElementById_Some in Hc as (e0 & He0 & _).
      assert (is_Some (d1 !! c)) as [e1 He1].
      { unfold d1. rewrite remove_all_lookup, He0. by eexists. }
      rewrite He1 in Hcls. destruct (doc w' !! c) as [e|]; [|done].
      injection Hcls as Hcls. exists e. split; [done|]. rewrite Hcls.
      cbn. case_bool_decide; [done|]. apply elem_of_app. right.
      apply list_elem_of_here.
  - eexists. split; [reflexivity|]. cbn [doc set_doc requests pending].
    split; [|split; [|split; [done|]]].
    + intros j j' e e' He _ Hsection Hactive. by destruct (Hclean j e He Hsection).
    + intros j e He Hsection Hactive. by destruct (Hclean j e He Hsection).
    + intros _. split; [done|]. split; [done|].
      intros j. unfold innerHTML_at, d1. rewrite remove_all_lookup.
      destruct (doc w !! j) as [e|]; [|done]. cbn. by case_bool_decide.
Qed.

(** The helper of the specification, called and answered *)
Lemma spec_helper_run {S : Type} t endpoint
    (mapper : value (num:=num) -> completion (option S)) render container_id
    others o now later w :
  run (spec_helper t endpoint mapper render container_id) others o now later w
  = (service_result
       (Service (first_element [container_id]) t endpoint
          (pipeline mapper (fun _ => render))) others o later w,
     Finished (Normal tt)).
Proof.
  apply service_run.
  - apply spec_helper_try_follows.
  - apply spec_helper_catch_follows.
  - apply first_element_sound.
Qed.

End Properties.

(** * The template-patching scripts *)

Section Patching.

Local Open Scope nat_scope.
Implicit Types (s content marker : string) (i j n m : nat).

(** ** Substrings *)

Lemma length_substring s i n :
  String.length (String.substring i n s) = Nat.min n (String.length s - i).
Proof.
  revert i n. induction s as [|a s IH]; intros [|i] [|n]; cbn; try done.
  all: rewrite IH; lia.
Qed.

Lemma substring_all s : String.substring 0 (String.length s) s = s.
Proof. induction s as [|a s IH]; cbn; [done|by rewrite IH]. Qed.

Lemma append_String a s1 s2 :
  (String a s1 +:+ s2)%string = String a (s1 +:+ s2)%string.
Proof. reflexivity. Qed.

Lemma substring_plus s i n m :
  String.substring i (n + m) s
  = (String.substring i n s +:+ String.substring (i + n) m s)%string.
Proof.
  revert i n m. induction s as [|a s IH]; intros i n m.
  - destruct i, n, m; reflexivity.
  - destruct i as [|i].
    + destruct n as [|n]; cbn.
      * reflexivity.
      * rewrite append_String. f_equal. apply (IH 0).
    + cbn. apply IH.
Qed.

Lemma occurs_at_bound marker content i :
  marker <> ""%string -> occurs_at marker content i ->
  i + String.length marker <= String.length content.
Proof.
  intros Hne Hat. unfold occurs_at in Hat.
  pose proof (length_substring content i (String.length marker)) as Hlen.
  rewrite Hat in Hlen. destruct marker as [|a marker]; [done|].
  cbn [String.length] in Hlen |- *. lia.
Qed.

(** A part of the content is cut at two positions. *)
Lemma content_split content i j :
  i <= j -> j <= String.length content ->
  content
  = (before content i +:+ String.substring i (j - i) content +:+ from content j)%string.
Proof.
  intros Hij Hj. unfold before, from.
  rewrite <- (substring_all content) at 1.
  replace (String.length content) with (i + ((j - i) + (String.length content - j)))
    at 1 by lia.
  rewrite !substring_plus. cbn [Nat.add]. do 3 f_equal. lia.
Qed.

(** ** [indexOf] and [substring] *)

Lemma indexOf_first content marker i :
  marker <> ""%string -> first_occurrence marker content i ->
  indexOf content marker = Z.of_nat i.
Proof.
  intros Hne [Hat Hfirst]. unfold indexOf.
  destruct (String.index 0 marker content) as [k|] eqn:Hindex.
  - f_equal. pose proof (index_correct1 _ _ _ _ Hindex) as Hk.
    pose proof (index_correct2 _ _ _ _ Hindex) as Hbefore.
    destruct (Nat.lt_trichotomy k i) as [Hlt|[->|Hgt]]; [|done|].
    + by destruct (Hfirst k Hlt).
    + destruct (Hbefore i); [lia|done|exact Hat].
  - by destruct (index_correct3 0 i _ _ Hindex Hne (Nat.le_0_l i)).
Qed.

Lemma occurs_first marker content :
  marker <> ""%string -> occurs marker content ->
  exists i, first_occurrence marker content i.
Proof.
  intros Hne [k Hk].
  destruct (String.index 0 marker content) as [i|] eqn:Hindex.
  - exists i. split; [by eapply index_correct1|].
    intros p Hp. eapply index_correct2; [exact Hindex|lia|done].
  - by destruct (index_correct3 0 k _ _ Hindex Hne (Nat.le_0_l k)).
Qed.

Lemma indexOf_absent content marker :
  ~ occurs marker content -> indexOf content marker = (-1)%Z.
Proof.
  intros Habsent. unfold indexOf.
  destruct (String.index 0 marker content) as [k|] eqn:Hindex; [|done].
  destruct Habsent. exists k. by eapply index_correct1.
Qed.

Lemma substring_before content i :
  i <= String.length content ->
  substring content 0 (Z.of_nat i) = before content i.
Proof.
  intros Hi. unfold substring, before.
  rewrite Z.max_id, (Z.max_l (Z.of_nat i) 0), (Z.min_l 0), (Z.min_l (Z.of_nat i)),
    (Z.min_l 0), (Z.max_r 0) by lia.
  by rewrite Z.sub_0_r, Nat2Z.id.
Qed.

Lemma substring_from_from content j :
  j <= String.length content ->
  substring_from content (Z.of_nat j) = from content j.
Proof.
  intros Hj. unfold substring_from, substring, from.
  rewrite (Z.max_l (Z.of_nat j) 0), (Z.max_l (Z.of_nat (String.length content)) 0),
    (Z.min_l (Z.of_nat j)), Z.min_id, (Z.min_l (Z.of_nat j)), (Z.max_r (Z.of_nat j))
    by lia.
  by rewrite <- Nat2Z.inj_sub, !Nat2Z.id by lia.
Qed.

Lemma start_marker_nonempty (s : script) : start_marker s <> ""%string.
Proof. by destruct s. Qed.

(** What either script does, in terms of the two values of [indexOf] *)
Lemma script_run_unfold (s : script) (d : disk) content :
  files d !! template_path = Some content ->
  script_run s d
  = let a := indexOf content (start_marker s) in
    let b := indexOf content marker_searchMandiByLocation in
    if bool_decide (a ≠ (-1)%Z) && bool_decide (b ≠ (-1)%Z)
    then Normal (writeFileSync d template_path
                   (substring content 0 a +:+ replacement s +:+ substring_from content b))
    else Normal d.
Proof.
  intros Hfile.
  destruct s; cbn [script_run start_marker replacement];
    unfold fix_market_prices, fix_fetch_market_prices, readFileSync;
    fold template_path; rewrite Hfile; reflexivity.
Qed.

(** C2.  When both markers occur in the content of the template, the
    script writes, in one call, the content before the first occurrence
    of the start marker, then the replacement text, then the content
    from the first occurrence of the end marker on; when the end marker
    does not come first, the content is these two parts around the span
    that is replaced. *)
Theorem patch_splices (s : script) (d : disk) content :
  files d !! template_path = Some content ->
  occurs (start_marker s) content ->
  occurs marker_searchMandiByLocation content ->
  exists i j,
    first_occurrence (start_marker s) content i /\
    first_occurrence marker_searchMandiByLocation content j /\
    script_run s d
    = Normal (writeFileSync d template_path
                (before content i +:+ replacement s +:+ from content j)) /\
    (i <= j ->
     content
     = (before content i +:+ String.substring i (j - i) content +:+ from content j)%string).
Proof.
  intros Hfile Hstart Hend.
  destruct (occurs_first _ _ (start_marker_nonempty s) Hstart) as [i Hi].
  destruct (occurs_first marker_searchMandiByLocation content) as [j Hj];
    [done|done|].
  exists i, j. split; [done|]. split; [done|].
  pose proof (occurs_at_bound _ _ _ (start_marker_nonempty s) (proj1 Hi)) as Hbi.
  pose proof (occurs_at_bound marker_searchMandiByLocation _ _ ltac:(done) (proj1 Hj))
    as Hbj.
  split.
  - rewrite (script_run_unfold s d content Hfile). cbv zeta.
    rewrite (indexOf_first _ _ i (start_marker_nonempty s) Hi).
    rewrite (indexOf_first _ marker_searchMandiByLocation j) by done.
    rewrite !bool_decide_eq_true_2 by lia. cbn [andb].
    rewrite substring_before, substring_from_from by lia. done.
  - intros Hij. apply content_split; lia.
Qed.

(** C3.  When one of the markers does not occur in the content of the
    template, the script ends without a call of [writeFileSync]: the
    disk is as it was. *)
Theorem patch_needs_both_markers (s : script) (d : disk) content :
  files d !! template_path = Some content ->
  ~ occurs (start_marker s) content \/ ~ occurs marker_searchMandiByLocation content ->
  script_run s d = Normal d.
Proof.
  intros Hfile Habsent. rewrite (script_run_unfold s d content Hfile). cbv zeta.
  destruct Habsent as [Ha|Hb].
  - rewrite (indexOf_absent _ _ Ha). by case_bool_decide.
  - rewrite (indexOf_absent _ _ Hb).
    destruct (bool_decide (indexOf content (start_marker s) ≠ (-1)%Z)); [|done].
    by case_bool_decide.
Qed.

End Patching.

(** * Concrete runs *)

(** ** Failures that are caught *)

(** The three failures of C1 on the sample world: [fetch] rejects,
    [json()] rejects, the rendering throws.  In each the [try] block
    throws and the handler ends normally with the error text shown. *)
Example failures_are_reachable :
  let o := [FetchRejected; JsonRejected; JsonBody sample_unpriced] in
  (fun o => (run loadMarketPrices_try [] o one_day one_day sample_world).2) <$> o
  = [Finished (Thrown NetworkError); Finished (Thrown SyntaxError);
     Finished (Thrown TypeError)] /\
  (fun o => let r := run loadMarketPrices [] o one_day one_day sample_world in
            (r.2, innerHTML_at (doc r.1) 1)) <$> o
  = [(Finished (Normal tt), Some market_error);
     (Finished (Normal tt), Some market_error);
     (Finished (Normal tt), Some market_error)].
Proof. split; vm_compute; reflexivity. Qed.

(** C5 on the sample world: [loadWeatherData] is suspended at its
    request, made with the loading text in [weatherData]. *)
Lemma loading_shown_before_fetch_witness :
  let r := exec loadWeatherData one_day sample_world in
  exists k,
    r.2 = Suspended "/api/weather/?location=Delhi&latitude=28&longitude=77" k /\
    r.1 = add_request "/api/weather/?location=Delhi&latitude=28&longitude=77"
            (put weather_loading 3 sample_world) /\
    requests r.1
    = (requests sample_world
       ++ ["/api/weather/?location=Delhi&latitude=28&longitude=77"])%list /\
    innerHTML_at (doc r.1) 3 = Some weather_loading /\
    forall o later w2,
      el_id <$> doc w2 = el_id <$> doc sample_world ->
      requests (exec (k o) later w2).1 = requests w2.
Proof.
  cbv zeta.
  assert (container_of WeatherData (doc sample_world) = Some 3) as Hc
      by (vm_compute; reflexivity).
  assert (sv_request (handler_service WeatherData) (loc sample_world)
          = Normal "/api/weather/?location=Delhi&latitude=28&longitude=77") as Hurl
      by (vm_compute; reflexivity).
  pose proof (loading_shown_before_fetch WeatherData one_day sample_world 3
                (exec loadWeatherData one_day sample_world).1
                (exec loadWeatherData one_day sample_world).2
                Hc (surjective_pairing _)) as Hshown.
  rewrite Hurl in Hshown. exact Hshown.
Defined.

(** C9 on a document without containers *)
Lemma absent_container_no_effect_witness :
  exec loadCropRecommendations one_day bare_world
  = (bare_world, Finished (Normal tt)).
Proof.
  apply (absent_container_no_effect CropRecommendations one_day bare_world).
  intros id Hid.
  apply elem_of_cons in Hid as [->|Hid]; [vm_compute; reflexivity|].
  apply elem_of_cons in Hid as [->|Hid]; [vm_compute; reflexivity|].
  by apply elem_of_nil in Hid.
Defined.


(** C7, as stated, fails for the market prices: the same body, without
    a timestamp, answered on the day of the call and on the next day. *)
Lemma market_shown_depends_on_clock :
  let shown_at later :=
    innerHTML_at
      (doc (run loadMarketPrices [] (JsonBody sample_untimed) one_day later
              sample_world).1) 1 in
  shown_at one_day <> shown_at next_day.
Proof.
  cbv zeta. apply (proj1 (bool_decide_eq_false _)). vm_compute. reflexivity.
Qed.

(** C7, as amended, on the sample world: what [loadWeatherData] shows
    for a body, [loadMarketPrices] being called in between. *)
Lemma shown_depends_on_body_witness :
  match exec loadWeatherData one_day sample_world with
  | (w1, Suspended url k) =>
      innerHTML_at
        (doc (exec (k (JsonBody sample_weather)) next_day
                (meanwhile [(loadMarketPrices, one_day)] w1)).1) 3
      = Some (handler_shown WeatherData next_day sample_weather)
  | _ => False
  end.
Proof.
  destruct (exec loadWeatherData one_day sample_world) as [w1 [c|url k]] eqn:E.
  - vm_compute in E. discriminate E.
  - apply (shown_depends_on_body WeatherData [(loadMarketPrices, one_day)] one_day
             sample_world 3 w1 url k sample_weather next_day).
    + vm_compute. reflexivity.
    + exact E.
Defined.

(** C6, as stated, fails: with an empty [data.crops] the crops under
    [data.market_prices.top_crops] are not shown. *)
Lemma empty_crops_hide_top_crops :
  get sample_empty_crops "crops" = Normal (VArr []) /\
  market_top_crops sample_empty_crops = Normal (VArr [sample_crop]) /\
  innerHTML_at
    (doc (run loadMarketPrices [] (JsonBody sample_empty_crops) one_day one_day
            sample_world).1) 1
  = Some market_unavailable /\
  market_grid one_day sample_empty_crops (VArr [sample_crop]) <> market_unavailable.
Proof.
  repeat split; try (vm_compute; reflexivity).
  apply (proj1 (bool_decide_eq_false _)). vm_compute. reflexivity.
Qed.

(** C6, as amended, on the sample world, for a body with crops only
    under [market_prices.top_crops] *)
Lemma market_crops_fallback_witness :
  innerHTML_at
    (doc (run loadMarketPrices [] (JsonBody sample_top_prices) one_day one_day
            sample_world).1) 1
  = Some (market_grid one_day sample_top_prices (VArr [sample_crop])).
Proof.
  destruct (market_crops_fallback [] one_day one_day sample_world 1
              "/api/market-prices/?location=Delhi&latitude=28&longitude=77&v=v2.0"
              sample_top_prices)
    as (final & Hfinal & _ & Htop & _).
  - vm_compute. reflexivity.
  - vm_compute. reflexivity.
  - rewrite Hfinal. f_equal.
    apply (Htop VUndef [sample_crop]); [vm_compute; reflexivity..|discriminate].
Defined.

(** C8, as stated, fails.  No instance of the helper of the
    specification, whatever its texts, behaves as
    [loadCropRecommendations], whose container is found under one of two
    ids; and none behaves as [loadMarketPrices], whose markup depends on
    the clock. *)
Lemma spec_helper_is_not_enough :
  (~ exists (S : Type) t endpoint (mapper : value -> completion (option S))
       render container_id,
       same_behaviour (spec_helper t endpoint mapper render container_id)
         (loadCropRecommendations (num:=option Z))) /\
  (~ exists (S : Type) t endpoint (mapper : value -> completion (option S))
       render container_id,
       same_behaviour (spec_helper t endpoint mapper render container_id)
         (loadMarketPrices (num:=option Z))).
Proof.
  split; intros (S & t & endpoint & mapper & render & container_id & Hsame).
  - destruct (decide (container_id = "cropsData")) as [->|Hne].
    + destruct (Hsame [] FetchRejected one_day one_day alternative_only_world)
        as [_ Hrun].
      rewrite spec_helper_run in Hrun. unfold service_result in Hrun.
      cbn [sv_container] in Hrun.
      assert (first_element ["cropsData"] (doc alternative_only_world) = None)
        as Hnone by (vm_compute; reflexivity).
      rewrite Hnone in Hrun. vm_compute in Hrun. discriminate Hrun.
    + destruct (Hsame [] FetchRejected one_day one_day crops_only_world) as [_ Hrun].
      rewrite spec_helper_run in Hrun. unfold service_result in Hrun.
      cbn [sv_container] in Hrun.
      assert (first_element [container_id] (doc crops_only_world) = None) as Hnone.
      { unfold first_element, getElementById. cbn.
        case_decide; [congruence|done]. }
      rewrite Hnone in Hrun. vm_compute in Hrun. discriminate Hrun.
  - destruct (Hsame [] (JsonBody sample_untimed) one_day one_day sample_world)
      as [_ Hone].
    destruct (Hsame [] (JsonBody sample_untimed) one_day next_day sample_world)
      as [_ Htwo].
    rewrite spec_helper_run in Hone, Htwo.
    assert (observe (run loadMarketPrices [] (JsonBody sample_untimed) one_day one_day
                       sample_world)
            = observe (run loadMarketPrices [] (JsonBody sample_untimed) one_day next_day
                         sample_world))
      as Heq by (rewrite <- Hone, <- Htwo; reflexivity).
    vm_compute in Heq. discriminate Heq.
Qed.

(** The four handlers called at once by [updateLocation] and answered
    in another order (the schemes, then the weather, whose request
    fails, then the market prices, then the crop recommendations): each
    container ends with what its service shows for its answer. *)
Example updateLocation_sample :
  let started :=
    (exec (updateLocation (VStr "Pune") (VNum (Some 18%Z)) (VNum (Some 73%Z)))
       one_day sample_world).1 in
  let ended :=
    answer 0 (JsonBody sample_weather) next_day
      (answer 0 (JsonBody sample_prices) next_day
         (answer 1 FetchRejected next_day
            (answer 2 (JsonBody sample_schemes) next_day started))) in
  fst <$> pending started
  = ["/api/market-prices/?location=Pune&latitude=18&longitude=73&v=v2.0";
     "/api/weather/?location=Pune&latitude=18&longitude=73";
     "/api/government-schemes/?location=Pune";
     "/api/advisories/?location=Pune"] /\
  length (pending ended) = 0 /\
  el_innerHTML <$> ended.(doc)
  = [""; market_shown next_day sample_prices; ""; weather_error;
     schemes_shown sample_schemes; crops_shown sample_weather].
Proof. repeat split; vm_compute; reflexivity. Qed.

(** C4 on the sample world: [pest-control] and [ai-assistant] *)
Lemma loadServiceData_dispatch_witness :
  exec (loadServiceData "pest-control") one_day sample_world
  = (sample_world, Finished (Normal tt)) /\
  exec (loadServiceData "ai-assistant") one_day sample_world
  = (sample_world, Finished (Normal tt)).
Proof.
  destruct (loadServiceData_dispatch (num:=option Z)) as (_ & _ & _ & _ & Hother).
  split; apply Hother; intros Hin;
    repeat (apply elem_of_cons in Hin as [Hin|Hin]; [discriminate Hin|]);
    by apply elem_of_nil in Hin.
Defined.

(** C10 on the sample world: after [showService('market-prices')] only
    the first element carries [active], and the market prices are being
    loaded; after [showService('soil')], for which there is no section,
    no element carries [active] and nothing is requested. *)
Example showService_sample :
  let shown := exec (showService "market-prices") one_day sample_world in
  let other := exec (showService "soil") one_day sample_world in
  el_classes <$> doc shown.1
  = [["content-section"; "active"]; []; ["content-section"]; []; []; []] /\
  requests shown.1
  = ["/api/market-prices/?location=Delhi&latitude=28&longitude=77&v=v2.0"] /\
  innerHTML_at (doc shown.1) 1 = Some market_loading /\
  el_classes <$> doc other.1 = [["content-section"]; []; ["content-section"]; []; []; []] /\
  requests other.1 = [] /\ length (pending other.1) = 0.
Proof. repeat split; vm_compute; reflexivity. Qed.

(** C2 on a sample template, for the script that patches
    [loadMarketPrices] *)
Lemma patch_splices_witness :
  exists i j,
    first_occurrence marker_loadMarketPrices sample_template i /\
    first_occurrence marker_searchMandiByLocation sample_template j /\
    fix_market_prices (sample_disk sample_template)
    = Normal (writeFileSync (sample_disk sample_template) template_path
                (before sample_template i +:+ newFunction_loadMarketPrices
                 +:+ from sample_template j)) /\
    (i <= j ->
     sample_template
     = before sample_template i +:+ String.substring i (j - i) sample_template
       +:+ from sample_template j).
Proof.
  apply (patch_splices PatchLoadMarketPrices (sample_disk sample_template)
           sample_template).
  - vm_compute. reflexivity.
  - exists 8. vm_compute. reflexivity.
  - exists 93. vm_compute. reflexivity.
Defined.

(** C3 on a template without the end marker *)
Lemma patch_needs_both_markers_witness :
  fix_fetch_market_prices (sample_disk "async function fetchMarketPrices() { }")
  = Normal (sample_disk "async function fetchMarketPrices() { }").
Proof.
  apply (patch_needs_both_markers PatchFetchMarketPrices
           (sample_disk "async function fetchMarketPrices() { }")
           "async function fetchMarketPrices() { }").
  - vm_compute. reflexivity.
  - right. intros [i Hi].
    assert (marker_searchMandiByLocation <> "") as Hne by discriminate.
    pose proof (occurs_at_bound _ _ _ Hne Hi) as Hbound.
    cbn in Hbound. lia.
Defined.

(** * Further properties of the service script *)

(** ** Strings *)

Lemma string_app_assoc (s1 s2 s3 : string) : (s1 +:+ s2) +:+ s3 = s1 +:+ (s2 +:+ s3).
Proof. induction s1 as [|a s1 IH]; [done|]. by rewrite !append_String, IH. Qed.

Lemma string_app_nil_r (s : string) : s +:+ "" = s.
Proof. induction s as [|a s IH]; [done|]. by rewrite append_String, IH. Qed.

Lemma string_app_length (s1 s2 : string) :
  String.length (s1 +:+ s2) = String.length s1 + String.length s2.
Proof.
  induction s1 as [|a s1 IH]; [done|]. rewrite append_String. cbn [String.length].
  by rewrite IH.
Qed.

Section ServiceScript.
Context {num : Type} `{!Host num}.
Implicit Types (w : world (num:=num)) (d : list element) (p body rest : prog (num:=num))
  (o : outcome (num:=num)) (now later : num) (l : location (num:=num))
  (displayAllCrops : value (num:=num) -> prog (num:=num)).

(** ** Calls that are not awaited *)

Lemma exec_Async_handler (h : handler) rest now w :
  exists w1,
    exec (Async (handler_prog h) rest) now w = exec rest now w1 /\
    loc w1 = loc w /\ viewport w1 = viewport w /\
    requests w1 = (requests w ++ handler_requests h (loc w) (doc w))%list /\
    doc w1 = started_doc h (loc w) (doc w) /\
    exists ks,
      pending w1 = (pending w ++ ks)%list /\
      fst <$> ks = handler_requests h (loc w) (doc w) /\
      forall url k, (url, k) ∈ ks ->
        exists c, container_of h (doc w) = Some c /\ renders h c k.
Proof.
  cbn [exec]. pose proof (handler_exec h now w) as Hexec.
  unfold handler_requests, started_doc, first_text.
  destruct (container_of h (doc w)) as [c|] eqn:Hc.
  - destruct (sv_request (handler_service h) (loc w)) as [url|e].
    + destruct Hexec as (k & -> & Hk). eexists. split; [reflexivity|].
      cbn. repeat (split; [done|]). exists [(url, k)]. repeat (split; [done|]).
      intros url' k' [= -> ->]%list_elem_of_singleton. exists c. split; [done|].
      intros o later w' Hc'. by apply Hk.
    + rewrite Hexec. eexists. split; [reflexivity|]. cbn.
      rewrite app_nil_r. repeat (split; [done|]). exists []. rewrite app_nil_r.
      repeat (split; [done|]). intros url k Hin. by apply elem_of_nil in Hin.
  - rewrite Hexec. exists w. split; [reflexivity|]. rewrite app_nil_r.
    repeat (split; [done|]). exists []. rewrite app_nil_r.
    repeat (split; [done|]). intros url k Hin. by apply elem_of_nil in Hin.
Qed.


(** ** The containers of different handlers are different elements *)

Lemma first_element_elem ids d c :
  first_element ids d = Some c -> exists e, d !! c = Some e /\ el_id e ∈ ids.
Proof.
  induction ids as [|id ids IH]; [done|]. cbn [first_element].
  destruct (getElementById d id) as [r|] eqn:E.
  - intros [= <-]. apply getElementById_Some in E as (e & He & <-).
    exists e. split; [done|]. apply list_elem_of_here.
  - intros (e & He & Hin)%IH. exists e. split; [done|]. by apply list_elem_of_further.
Qed.

Lemma containers_distinct (h h' : handler) d c c' :
  h <> h' -> container_of h d = Some c -> container_of h' d = Some c' -> c <> c'.
Proof.
  intros Hne Hc Hc' <-. rewrite container_of_ids in Hc, Hc'.
  apply first_element_elem in Hc as (e & He & Hin).
  apply first_element_elem in Hc' as (e' & He' & Hin').
  rewrite He in He'. injection He' as <-.
  destruct h, h'; try done; cbn [handler_ids] in Hin, Hin';
    repeat (apply elem_of_cons in Hin as [Hin|Hin]; [|]);
    try (by apply elem_of_nil in Hin);
    rewrite Hin in Hin';
    repeat (apply elem_of_cons in Hin' as [Hin'|Hin']; [discriminate Hin'|]);
    by apply elem_of_nil in Hin'.
Qed.

Lemma started_doc_ids (h : handler) l d : el_id <$> started_doc h l d = el_id <$> d.
Proof.
  unfold started_doc. destruct (container_of h d); [|done]. by apply ids_alter.
Qed.

Lemma started_doc_container (h h' : handler) l d :
  container_of h (started_doc h' l d) = container_of h d.
Proof. apply container_of_ids_only, started_doc_ids. Qed.

Lemma started_doc_same (h : handler) l d c :
  container_of h d = Some c ->
  innerHTML_at (started_doc h l d) c = Some (first_text h l).
Proof.
  intros Hc. unfold started_doc. rewrite Hc. apply innerHTML_at_put.
  by eapply container_of_lt.
Qed.

Lemma started_doc_other (h : handler) l d j :
  container_of h d <> Some j ->
  started_doc h l d !! j = d !! j.
Proof.
  intros Hj. unfold started_doc. destruct (container_of h d) as [c|]; [|done].
  apply list_lookup_alter_ne. congruence.
Qed.

Lemma started_doc_classes (h : handler) l d j :
  el_classes <$> started_doc h l d !! j = el_classes <$> d !! j.
Proof.
  unfold started_doc. destruct (container_of h d) as [c|]; [|done]. apply classes_put.
Qed.

(** ** The four handlers called in a row *)

Lemma handler_requests_ids (h : handler) l d d' :
  el_id <$> d = el_id <$> d' -> handler_requests h l d = handler_requests h l d'.
Proof.
  intros Hids. unfold handler_requests. by rewrite (container_of_ids_only h d d' Hids).
Qed.

Lemma exec_autoload_callback now w :
  exists w',
    exec autoload_callback now w = (w', Finished (Normal tt)) /\
    loc w' = loc w /\ viewport w' = viewport w /\
    requests w' = (requests w ++ reload_requests (loc w) (doc w))%list /\
    doc w'
    = started_doc CropRecommendations (loc w)
        (started_doc GovernmentSchemes (loc w)
           (started_doc WeatherData (loc w)
              (started_doc MarketPrices (loc w) (doc w)))) /\
    exists ks,
      pending w' = (pending w ++ ks)%list /\
      fst <$> ks = reload_requests (loc w) (doc w) /\
      forall url k, (url, k) ∈ ks ->
        exists h c, container_of h (doc w) = Some c /\ renders h c k.
Proof.
  unfold autoload_callback.
  destruct (exec_Async_handler MarketPrices
              (Async loadWeatherData
                 (Async loadGovernmentSchemes (Async loadCropRecommendations Done)))
              now w)
    as (w1 & E1 & Hl1 & Hv1 & Hr1 & Hd1 & ks1 & Hp1 & Hu1 & Hk1).
  cbn [handler_prog] in E1; rewrite E1; clear E1.
  destruct (exec_Async_handler WeatherData
              (Async loadGovernmentSchemes (Async loadCropRecommendations Done)) now w1)
    as (w2 & E2 & Hl2 & Hv2 & Hr2 & Hd2 & ks2 & Hp2 & Hu2 & Hk2).
  cbn [handler_prog] in E2; rewrite E2; clear E2.
  destruct (exec_Async_handler GovernmentSchemes (Async loadCropRecommendations Done)
              now w2)
    as (w3 & E3 & Hl3 & Hv3 & Hr3 & Hd3 & ks3 & Hp3 & Hu3 & Hk3).
  cbn [handler_prog] in E3; rewrite E3; clear E3.
  destruct (exec_Async_handler CropRecommendations Done now w3)
    as (w4 & E4 & Hl4 & Hv4 & Hr4 & Hd4 & ks4 & Hp4 & Hu4 & Hk4).
  cbn [handler_prog] in E4; rewrite E4; clear E4.
  assert (el_id <$> doc w1 = el_id <$> doc w) as Hi1
      by (rewrite Hd1; apply started_doc_ids).
  assert (el_id <$> doc w2 = el_id <$> doc w) as Hi2
      by (rewrite Hd2, started_doc_ids; exact Hi1).
  assert (el_id <$> doc w3 = el_id <$> doc w) as Hi3
      by (rewrite Hd3, started_doc_ids; exact Hi2).
  rewrite Hl1 in Hl2, Hr2, Hd2, Hu2. rewrite Hl2 in Hl3, Hr3, Hd3, Hu3.
  rewrite Hl3 in Hl4, Hr4, Hd4, Hu4.
  rewrite (handler_requests_ids _ _ _ _ Hi1) in Hr2, Hu2.
  rewrite (handler_requests_ids _ _ _ _ Hi2) in Hr3, Hu3.
  rewrite (handler_requests_ids _ _ _ _ Hi3) in Hr4, Hu4.
  exists w4. cbn [exec]. split; [done|]. split; [congruence|]. split; [congruence|].
  split; [|split].
  - rewrite Hr4, Hr3, Hr2, Hr1. unfold reload_requests. by rewrite <- !app_assoc.
  - by rewrite Hd4, Hd3, Hd2, Hd1.
  - exists (ks1 ++ ks2 ++ ks3 ++ ks4)%list. split; [|split].
    + rewrite Hp4, Hp3, Hp2, Hp1. by rewrite <- !app_assoc.
    + rewrite !fmap_app, Hu1, Hu2, Hu3, Hu4. done.
    + intros url k Hin.
      rewrite !elem_of_app in Hin.
      destruct Hin as [Hin|[Hin|[Hin|Hin]]].
      * destruct (Hk1 url k Hin) as (c & Hc & Hk). by exists MarketPrices, c.
      * destruct (Hk2 url k Hin) as (c & Hc & Hk). exists WeatherData, c.
        by rewrite <- (container_of_ids_only _ _ _ Hi1).
      * destruct (Hk3 url k Hin) as (c & Hc & Hk). exists GovernmentSchemes, c.
        by rewrite <- (container_of_ids_only _ _ _ Hi2).
      * destruct (Hk4 url k Hin) as (c & Hc & Hk). exists CropRecommendations, c.
        by rewrite <- (container_of_ids_only _ _ _ Hi3).
Qed.

(** What each container shows once the four handlers have been called *)
Lemma reloaded_doc_shows (h : handler) l d c :
  container_of h d = Some c ->
  innerHTML_at
    (started_doc CropRecommendations l
       (started_doc GovernmentSchemes l
          (started_doc WeatherData l (started_doc MarketPrices l d)))) c
  = Some (first_text h l).
Proof.
  intros Hc.
  assert (forall h' d', h' <> h -> container_of h d' = Some c ->
            innerHTML_at (started_doc h' l d') c = innerHTML_at d' c) as Hother.
  { intros h' d' Hne Hc'. unfold innerHTML_at. rewrite started_doc_other; [done|].
    intros Hc''. by apply (containers_distinct h' h d' c c). }
  assert (forall d', container_of h d' = Some c ->
            innerHTML_at (started_doc h l d') c = Some (first_text h l)) as Hsame
      by (intros; by apply started_doc_same).
  destruct h.
  - rewrite !Hother, Hsame by (rewrite ?started_doc_container; done). done.
  - rewrite !Hother, Hsame by (rewrite ?started_doc_container; done). done.
  - rewrite !Hother, Hsame by (rewrite ?started_doc_container; done). done.
  - rewrite Hsame by (rewrite ?started_doc_container; done). done.
Qed.

Lemma reloaded_doc_elsewhere l d j :
  (forall h, container_of h d <> Some j) ->
  started_doc CropRecommendations l
    (started_doc GovernmentSchemes l
       (started_doc WeatherData l (started_doc MarketPrices l d))) !! j
  = d !! j.
Proof.
  intros Hj.
  rewrite !started_doc_other by (rewrite ?started_doc_container; apply Hj). done.
Qed.


(** ** Answers *)

(** X1.  What is left of a handler after its request changes nothing
    but the markup of the container: answered in any later world that
    has the elements, by id, of the world of the call, it assigns the
    text of its service for the answer and returns.  Every other
    element, the classes, the module variables, the viewport, the
    requests and the suspended calls are as they were. *)
Theorem answer_changes_only_container (h : handler) now w c w1 url k :
  container_of h (doc w) = Some c ->
  exec (handler_prog h) now w = (w1, Suspended url k) ->
  forall o later w2,
    el_id <$> doc w2 = el_id <$> doc w ->
    exec (k o) later w2
    = (put (final_text (handler_service h) later o) c w2, Finished (Normal tt)).
Proof.
  intros Hc Hexec o later w2 Hids.
  pose proof (handler_exec h now w) as Hspec. rewrite Hc in Hspec.
  destruct (sv_request (handler_service h) (loc w)) as [url'|e].
  - destruct Hspec as (k' & Hexec' & Hk). rewrite Hexec in Hexec'.
    injection Hexec' as _ _ ->. apply Hk.
    by rewrite (container_of_ids_only h _ _ Hids).
  - rewrite Hexec in Hspec. discriminate Hspec.
Qed.

(** What is left of a handler assigns the markup of a rendered answer
    to the container found at the call, in whatever world it is
    answered: the [try] block keeps the container in a variable and
    looks nothing up. *)
Lemma handler_exec_rendered (h : handler) now w c w1 url k :
  container_of h (doc w) = Some c ->
  exec (handler_prog h) now w = (w1, Suspended url k) ->
  forall o later w',
    rendered h later o = true ->
    exec (k o) later w'
    = (put (final_text (handler_service h) later o) c w', Finished (Normal tt)).
Proof.
  intros Hc Hexec o later w' Hrendered.
  destruct (handler_follows h) as (Htry & _ & _). specialize (Htry now w).
  fold (container_of h (doc w)) in Htry. rewrite Hc in Htry.
  pose proof (handler_exec h now w) as Hspec. rewrite Hc in Hspec.
  destruct (sv_request (handler_service h) (loc w)) as [url'|e].
  - rewrite handler_prog_unfold, exec_try_catch in Hexec.
    destruct Htry as (k' & Htry & Hk). rewrite Htry in Hexec.
    injection Hexec as _ _ <-. rewrite exec_try_catch, Hk.
    unfold rendered in Hrendered. unfold answered, final_text.
    destruct o as [| |data]; [done..|].
    by destruct (sv_pipeline (handler_service h) later data) as [[html|]|e].
  - rewrite Hspec in Hexec. discriminate Hexec.
Qed.

(** X2.  A handler called twice before either request is answered:
    when the answer that arrives last is rendered, the container ends
    with the markup for it, be it the answer to the first call and
    whatever the other answer was.  The second call is made in any
    world that has the elements, by id, of the world the first call
    left. *)
Theorem last_answer_wins (h : handler) now1 now2 w w1 w1' w2 url1 url2 k1 k2 c :
  container_of h (doc w) = Some c ->
  exec (handler_prog h) now1 w = (w1, Suspended url1 k1) ->
  el_id <$> doc w1' = el_id <$> doc w1 ->
  exec (handler_prog h) now2 w1' = (w2, Suspended url2 k2) ->
  forall o1 o2 t1 t2,
    (rendered h t1 o1 = true ->
     innerHTML_at (doc (exec (k1 o1) t1 (exec (k2 o2) t2 w2).1).1) c
     = Some (final_text (handler_service h) t1 o1)) /\
    (rendered h t2 o2 = true ->
     innerHTML_at (doc (exec (k2 o2) t2 (exec (k1 o1) t1 w2).1).1) c
     = Some (final_text (handler_service h) t2 o2)).
Proof.
  intros Hc Hexec1 Hids1' Hexec2 o1 o2 t1 t2.
  pose proof (exec_ids (handler_prog h) now1 w) as Hids1. rewrite Hexec1 in Hids1.
  pose proof (exec_ids (handler_prog h) now2 w1') as Hids2. rewrite Hexec2 in Hids2.
  cbn [fst] in Hids1, Hids2.
  assert (el_id <$> doc w1' = el_id <$> doc w) as Hw1' by congruence.
  assert (container_of h (doc w1') = Some c) as Hc'
      by (by rewrite (container_of_ids_only h _ _ Hw1')).
  pose proof (container_of_lt _ _ _ Hc) as Hlt.
  assert (forall (k : outcome -> prog) o t, length (doc (exec (k o) t w2).1) = length (doc w))
    as Hlength.
  { intros k o t. apply ids_length. rewrite exec_ids. congruence. }
  split; intros Hrendered.
  - rewrite (handler_exec_rendered h now1 w c w1 url1 k1 Hc Hexec1 o1 t1 _ Hrendered).
    cbn [fst put doc set_doc]. apply innerHTML_at_put. by rewrite Hlength.
  - rewrite (handler_exec_rendered h now2 w1' c w2 url2 k2 Hc' Hexec2 o2 t2 _ Hrendered).
    cbn [fst put doc set_doc]. apply innerHTML_at_put. by rewrite Hlength.
Qed.

(** ** Rendering *)


(** X4.  The forecast shows seven days at most: the days after the
    seventh never reach the markup. *)
Theorem forecast_shows_seven_days (data weather : value (num:=num)) days :
  weather_html data weather (VArr days) = weather_html data weather (VArr (take 7 days)).
Proof.
  unfold weather_html.
  repeat match goal with
         | |- (?c ≫= _) = (?c ≫= _) =>
             destruct c; [rewrite !bind_Normal_l|reflexivity]
         end.
  cbn [nonempty truthy length_gt0 slice7_as_array].
  rewrite take_take, Nat.min_id.
  replace (bool_decide (take 7 days = [])) with (bool_decide (days = [])); [done|].
  by destruct days.
Qed.




(** ** Bodies with missing members *)









(** ** The location and the loading of all services *)

Lemma handler_requests_printed (h : handler) (locationName latitude longitude : value (num:=num))
    name lat lng d :
  to_str locationName = Normal name -> to_str latitude = Normal lat ->
  to_str longitude = Normal lng ->
  sv_request (handler_service h) (Location locationName latitude longitude)
  = Normal match h with
           | MarketPrices => market_url name lat lng
           | WeatherData => weather_url name lat lng
           | GovernmentSchemes => schemes_url name
           | CropRecommendations => crops_url name
           end.
Proof.
  intros Hname Hlat Hlng.
  destruct h; cbn; unfold market_request, weather_request, schemes_request, crops_request;
    cbn [currentLocation currentLatitude currentLongitude];
    rewrite ?Hname, ?Hlat, ?Hlng; reflexivity.
Qed.

(** X7.  [updateLocation] with arguments that can be printed: the three
    module variables hold the arguments, and the four handlers have been
    started for the new location, in order.  The requests made are those
    of the handlers whose container is in the document, each built from
    the arguments; each such container shows the loading text; the calls
    left suspended are those of the handlers, one for each request, and
    each renders its answer into the container of its handler. *)
Theorem updateLocation_reloads (locationName latitude longitude : value (num:=num))
    name lat lng now w :
  to_str locationName = Normal name ->
  to_str latitude = Normal lat ->
  to_str longitude = Normal lng ->
  exists w' ks,
    exec (updateLocation locationName latitude longitude) now w
    = (w', Finished (Normal tt)) /\
    loc w' = Location locationName latitude longitude /\
    requests w' = (requests w ++ (fst <$> ks))%list /\
    fst <$> ks
    = (requested (container_of MarketPrices (doc w)) (market_url name lat lng)
       ++ requested (container_of WeatherData (doc w)) (weather_url name lat lng)
       ++ requested (container_of GovernmentSchemes (doc w)) (schemes_url name)
       ++ requested (container_of CropRecommendations (doc w)) (crops_url name))%list /\
    pending w' = (pending w ++ ks)%list /\
    (forall url k, (url, k) ∈ ks ->
                   exists h c, container_of h (doc w) = Some c /\ renders h c k) /\
    (forall h c, container_of h (doc w) = Some c ->
                 innerHTML_at (doc w') c = Some (loading_of h)) /\
    (forall j, (forall h, container_of h (doc w) <> Some j) ->
               doc w' !! j = doc w !! j).
Proof.
  intros Hname Hlat Hlng. unfold updateLocation. cbn [exec].
  rewrite Hname, Hlat, Hlng, !bind_Normal_l. cbn [Pure].
  pose (l := Location locationName latitude longitude).
  destruct (exec_autoload_callback now (set_loc l w))
    as (w' & Hexec & Hloc & Hview & Hreq & Hdoc & ks & Hpending & Hurls & Hks).
  unfold autoload_callback in Hexec. subst l.
  cbn [loc doc requests pending set_loc] in *.
  assert (forall h, handler_requests h (Location locationName latitude longitude) (doc w)
                    = requested (container_of h (doc w))
                        match h with
                        | MarketPrices => market_url name lat lng
                        | WeatherData => weather_url name lat lng
                        | GovernmentSchemes => schemes_url name
                        | CropRecommendations => crops_url name
                        end) as Hrequests.
  { intros h. unfold handler_requests.
    rewrite (handler_requests_printed h _ _ _ name lat lng (doc w) Hname Hlat Hlng).
    by destruct (container_of h (doc w)). }
  exists w', ks. split; [exact Hexec|]. split; [done|].
  split; [by rewrite Hreq, Hurls|].
  split; [rewrite Hurls; unfold reload_requests; by rewrite !Hrequests|].
  split; [done|]. split; [exact Hks|]. split.
  - intros h c Hc. rewrite Hdoc, (reloaded_doc_shows h _ (doc w) c Hc).
    unfold first_text.
    by rewrite (handler_requests_printed h _ _ _ name lat lng (doc w) Hname Hlat Hlng).
  - intros j Hj. rewrite Hdoc. by apply reloaded_doc_elsewhere.
Qed.

(** X8.  [updateLocation] with an argument that cannot be printed: the
    logged message cannot be built and the exception leaves the
    function.  The three module variables have been set by then; no
    handler has been called: nothing is requested and the document is as
    it was. *)
Theorem updateLocation_unprintable (locationName latitude longitude : value (num:=num))
    now w :
  printable locationName && printable latitude && printable longitude = false ->
  exists e,
    exec (updateLocation locationName latitude longitude) now w
    = (set_loc (Location locationName latitude longitude) w, Finished (Thrown e)).
Proof.
  unfold printable, updateLocation. cbn [exec]. intros Hno.
  destruct (to_str locationName) as [name|e]; [|by exists e].
  destruct (to_str latitude) as [lat|e]; [|by exists e].
  destruct (to_str longitude) as [lng|e]; [|by exists e].
  discriminate Hno.
Qed.


(** X9.  The callback of the timer set when the page has loaded
    returns normally in every world.  Of the four handlers, those whose
    container is in the document have been started, in the order market
    prices, weather, schemes, crop recommendations: each has made its
    request and is suspended, its container showing the loading text, or
    could not build its url, its container showing the error text.  The
    calls left suspended are those of the handlers, one for each
    request, and each renders its answer into the container of its
    handler.  Nothing else in the document has changed. *)
Theorem autoload_starts_every_service now w :
  exists w' ks,
    exec autoload_callback now w = (w', Finished (Normal tt)) /\
    requests w' = (requests w ++ reload_requests (loc w) (doc w))%list /\
    pending w' = (pending w ++ ks)%list /\
    fst <$> ks = reload_requests (loc w) (doc w) /\
    (forall url k, (url, k) ∈ ks ->
                   exists h c, container_of h (doc w) = Some c /\ renders h c k) /\
    loc w' = loc w /\ viewport w' = viewport w /\
    (forall h c, container_of h (doc w) = Some c ->
                 innerHTML_at (doc w') c = Some (first_text h (loc w))) /\
    (forall j, (forall h, container_of h (doc w) <> Some j) ->
               doc w' !! j = doc w !! j) /\
    (forall j, el_classes <$> doc w' !! j = el_classes <$> doc w !! j) /\
    el_id <$> doc w' = el_id <$> doc w.
Proof.
  destruct (exec_autoload_callback now w)
    as (w' & Hexec & Hloc & Hview & Hreq & Hdoc & ks & Hpending & Hurls & Hks).
  exists w', ks. repeat (split; [done|]). split; [|split; [|split]].
  - intros h c Hc. rewrite Hdoc. by apply reloaded_doc_shows.
  - intros j Hj. rewrite Hdoc. by apply reloaded_doc_elsewhere.
  - intros j. rewrite Hdoc. by rewrite !started_doc_classes.
  - rewrite Hdoc. by rewrite !started_doc_ids.
Qed.

(** ** Service navigation: the handler that is started *)

Lemma remove_all_ids tok rs d : el_id <$> remove_all tok rs d = el_id <$> d.
Proof.
  revert d. induction rs as [|r rs IH]; intros d; [done|]. cbn [remove_all foldl].
  fold (remove_all tok rs (alter (class_remove tok) r d)). rewrite IH.
  by apply ids_alter.
Qed.

Lemma exec_loadServiceData_finished (serviceName : string) now w :
  exec (loadServiceData serviceName) now w
  = ((exec (loadServiceData serviceName) now w).1, Finished (Normal tt)).
Proof.
  destruct (loadServiceData_cases (num:=num) serviceName) as [->|[h ->]]; [done|].
  cbn [exec]. by destruct (exec (handler_prog h) now w) as [w1 [c|url k]].
Qed.

Lemma exec_showService (serviceName : string) now w :
  exec (showService serviceName) now w
  = let d1 := remove_all "active" (querySelectorAll (doc w) "content-section")
                (doc w) in
    match getElementById (doc w) (serviceName +:+ "-content") with
    | None => (set_doc d1 w, Finished (Normal tt))
    | Some c =>
        ((exec (loadServiceData serviceName) now
            (set_viewport c (set_doc (alter (class_add "active") c d1) w))).1,
         Finished (Normal tt))
    end.
Proof.
  unfold showService. rewrite exec_try_catch. cbn [exec].
  rewrite exec_for_each_remove. cbn [exec doc set_doc].
  rewrite getElementById_remove_all. cbv zeta.
  destruct (getElementById (doc w) (serviceName +:+ "-content")) as [c|];
    cbn [exec doc set_doc]; [|done].
  rewrite exec_call, exec_loadServiceData_finished. reflexivity.
Qed.

Lemma loadServiceData_service_name (h : handler) :
  loadServiceData (num:=num) (service_name h) = Async (handler_prog h) Done.
Proof. by destruct h. Qed.

(** X10.  [showService] with the name of one of the four services, in a
    document that has the section of the service and the container of
    its handler: the section is scrolled into view and the handler is
    started.  Its request is made, its container shows the loading text,
    and the one call left suspended renders the answer into the
    container. *)
Theorem showService_loads_service (h : handler) now w s c url :
  getElementById (doc w) (service_name h +:+ "-content") = Some s ->
  container_of h (doc w) = Some c ->
  sv_request (handler_service h) (loc w) = Normal url ->
  exists w' k,
    exec (showService (service_name h)) now w = (w', Finished (Normal tt)) /\
    viewport w' = Some s /\
    requests w' = (requests w ++ [url])%list /\
    pending w' = (pending w ++ [(url, k)])%list /\
    innerHTML_at (doc w') c = Some (loading_of h) /\
    renders h c k.
Proof.
  intros Hs Hc Hurl. rewrite exec_showService, Hs. cbv zeta.
  rewrite loadServiceData_service_name.
  set (d1 := remove_all "active" (querySelectorAll (doc w) "content-section") (doc w)).
  set (w0 := set_viewport s (set_doc (alter (class_add "active") s d1) w)).
  assert (el_id <$> doc w0 = el_id <$> doc w) as Hids.
  { unfold w0, d1. cbn [doc set_viewport set_doc].
    rewrite ids_alter by done. apply remove_all_ids. }
  assert (container_of h (doc w0) = Some c) as Hc0
      by (by rewrite (container_of_ids_only h _ _ Hids)).
  destruct (exec_Async_handler h Done now w0)
    as (w1 & Hexec & Hloc & Hview & Hreq & Hdoc & ks & Hpending & Hurls & Hks).
  rewrite Hexec. cbn [exec fst].
  assert (handler_requests h (loc w0) (doc w0) = [url]) as Hrequests.
  { unfold handler_requests. rewrite Hc0. unfold w0. cbn [loc set_viewport set_doc].
    by rewrite Hurl. }
  rewrite Hrequests in Hreq, Hurls.
  destruct ks as [|[url' k] [|]]; try discriminate Hurls. injection Hurls as ->.
  exists w1, k. split; [done|]. split; [by rewrite Hview|]. split; [exact Hreq|].
  split; [exact Hpending|]. split.
  - rewrite Hdoc, (started_doc_same h _ _ c Hc0). unfold first_text, w0.
    cbn [loc set_viewport set_doc]. by rewrite Hurl.
  - destruct (Hks url k) as (c' & Hc' & Hk); [apply list_elem_of_here|].
    rewrite Hc0 in Hc'. by injection Hc' as <-.
Qed.

Lemma loadServiceData_classes (serviceName : string) now w j :
  el_classes <$> doc (exec (loadServiceData serviceName) now w).1 !! j
  = el_classes <$> doc w !! j.
Proof.
  destruct (loadServiceData_cases (num:=num) serviceName) as [->|[h ->]]; [done|].
  cbn [exec]. pose proof (handler_exec_doc h now w) as Hdoc. cbv zeta in Hdoc.
  destruct (exec (handler_prog h) now w) as [w1 [c|url k]]; cbn [exec fst doc add_pending] in *;
    destruct Hdoc as [->|(html & r & ->)]; try done; apply classes_put.
Qed.

Lemma showService_classes (serviceName : string) now w j :
  el_classes <$> doc (exec (showService serviceName) now w).1 !! j
  = classes_after
      (bool_decide (getElementById (doc w) (serviceName +:+ "-content") = Some j))
    <$> (el_classes <$> doc w !! j).
Proof.
  rewrite exec_showService. cbv zeta.
  set (rs := querySelectorAll (doc w) "content-section").
  assert (forall e, doc w !! j = Some e ->
            el_classes <$> remove_all "active" rs (doc w) !! j
            = Some (if bool_decide ("content-section" ∈ el_classes e)
                    then filter (fun c => c ≠ "active") (el_classes e)
                    else el_classes e)) as Hcleared.
  { intros e He. rewrite remove_all_lookup, He. cbn.
    unfold rs. case_bool_decide as Hin.
    - apply querySelectorAll_elem in Hin as (e' & He' & Hsection).
      rewrite He in He'. injection He' as <-. by rewrite bool_decide_eq_true_2.
    - rewrite bool_decide_eq_false_2; [done|]. intros Hsection. apply Hin.
      apply querySelectorAll_elem. eauto. }
  destruct (getElementById (doc w) (serviceName +:+ "-content")) as [c|] eqn:Hc;
    cbn [fst].
  - rewrite loadServiceData_classes. cbn [doc set_viewport set_doc].
    destruct (doc w !! j) as [e|] eqn:He.
    + specialize (Hcleared e eq_refl). cbn [fmap option_fmap option_map].
      unfold classes_after. destruct (decide (c = j)) as [->|Hne].
      * rewrite list_lookup_alter_eq, (bool_decide_eq_true_2 (Some j = Some j)) by done.
        destruct (remove_all "active" rs (doc w) !! j) as [e1|]; [|done].
        cbn in Hcleared |- *. injection Hcleared as ->. done.
      * rewrite list_lookup_alter_ne, Hcleared by done.
        rewrite (bool_decide_eq_false_2 (Some c = Some j)) by (by intros [= ?]). done.
    + cbn. destruct (decide (c = j)) as [->|Hne].
      * rewrite list_lookup_alter_eq, remove_all_lookup, He. done.
      * rewrite list_lookup_alter_ne, remove_all_lookup, He by done. done.
  - cbn [doc set_doc]. destruct (doc w !! j) as [e|] eqn:He.
    + rewrite (Hcleared e eq_refl). cbn. unfold classes_after.
      by rewrite (bool_decide_eq_false_2 (None = Some j)).
    + by rewrite remove_all_lookup, He.
Qed.

Lemma filter_active_idemp (cls : list string) :
  filter (fun c => c ≠ "active") (filter (fun c => c ≠ "active") cls)
  = filter (fun c => c ≠ "active") cls.
Proof.
  induction cls as [|c cls IH]; [done|]. rewrite !filter_cons.
  destruct (decide (c ≠ "active")); [|done].
  rewrite filter_cons. destruct (decide (c ≠ "active")); [|done]. by f_equal.
Qed.

Lemma section_filter_active (cls : list string) :
  "content-section" ∈ filter (fun c => c ≠ "active") cls <-> "content-section" ∈ cls.
Proof. rewrite list_elem_of_filter. split; [by intros [_ ?]|]. by split. Qed.

Lemma classes_after_idemp (shown : bool) (cls : list string) :
  classes_after shown (classes_after shown cls) = classes_after shown cls.
Proof.
  set (f := filter (fun c : string => c ≠ "active") : list string -> list string).
  assert ("active" ∉ f cls) as Hclean by (by intros [Hne _]%list_elem_of_filter).
  assert (f (f cls ++ ["active"])%list = f cls) as Hagain.
  { unfold f. rewrite filter_app, filter_active_idemp, filter_cons.
    destruct (decide ("active" ≠ "active")); [done|]. by rewrite filter_nil, app_nil_r. }
  assert (forall r, "active" ∈ (r ++ ["active"])%list) as Hlast.
  { intros r. apply elem_of_app. right. apply list_elem_of_here. }
  destruct (decide ("content-section" ∈ cls)) as [Hsection|Hsection].
  - assert (classes_after shown cls = if shown then (f cls ++ ["active"])%list else f cls)
      as ->.
    { unfold classes_after. rewrite (bool_decide_eq_true_2 _ Hsection). fold f.
      destruct shown; [|done]. by rewrite (bool_decide_eq_false_2 _ Hclean). }
    destruct shown; unfold classes_after.
    + rewrite (bool_decide_eq_true_2 ("content-section" ∈ (f cls ++ ["active"])%list))
        by (apply elem_of_app; left; by apply section_filter_active).
      fold f. rewrite Hagain. by rewrite (bool_decide_eq_false_2 _ Hclean).
    + rewrite (bool_decide_eq_true_2 ("content-section" ∈ f cls))
        by (by apply section_filter_active).
      fold f. unfold f at 1. by rewrite filter_active_idemp.
  - destruct shown.
    + destruct (decide ("active" ∈ cls)) as [Hactive|Hactive].
      * assert (classes_after true cls = cls) as ->; [|
          unfold classes_after;
          by rewrite (bool_decide_eq_false_2 _ Hsection), (bool_decide_eq_true_2 _ Hactive)].
        unfold classes_after.
        by rewrite (bool_decide_eq_false_2 _ Hsection), (bool_decide_eq_true_2 _ Hactive).
      * assert (classes_after true cls = (cls ++ ["active"])%list) as ->.
        { unfold classes_after.
          by rewrite (bool_decide_eq_false_2 _ Hsection),
            (bool_decide_eq_false_2 _ Hactive). }
        unfold classes_after.
        rewrite (bool_decide_eq_false_2 ("content-section" ∈ (cls ++ ["active"])%list)).
        -- by rewrite (bool_decide_eq_true_2 _ (Hlast cls)).
        -- intros [Hin|Hin]%elem_of_app; [done|].
           by apply list_elem_of_singleton in Hin.
    + assert (classes_after false cls = cls) as ->; [|
        unfold classes_after; by rewrite (bool_decide_eq_false_2 _ Hsection)].
      unfold classes_after. by rewrite (bool_decide_eq_false_2 _ Hsection).
Qed.

(** X11.  [showService] called twice with the same name leaves every
    element with the classes it has after the first call. *)
Theorem showService_twice (serviceName : string) now now' w :
  let w1 := (exec (showService serviceName) now w).1 in
  let w2 := (exec (showService serviceName) now' w1).1 in
  el_classes <$> doc w2 = el_classes <$> doc w1.
Proof.
  cbv zeta. apply list_eq. intros j. rewrite !list_lookup_fmap.
  rewrite (showService_classes serviceName now' _ j).
  rewrite (getElementById_ids _ (doc w)) by apply exec_ids.
  rewrite (showService_classes serviceName now w j).
  destruct (doc w !! j) as [e|]; [|done]. cbn. by rewrite classes_after_idemp.
Qed.

(** ** The service cards *)

Lemma strip_prefix_app (p s : string) : strip_prefix p (p +:+ s) = Some s.
Proof.
  induction p as [|a p IH]; [done|]. cbn [strip_prefix String.append].
  change (String a p +:+ s) with (String a (p +:+ s)). cbn [strip_prefix].
  by rewrite Ascii.eqb_refl.
Qed.

Lemma strip_prefix_Some (p s r : string) : strip_prefix p s = Some r -> s = p +:+ r.
Proof.
  revert s. induction p as [|a p IH]; intros s; cbn [strip_prefix].
  - by intros [= ->].
  - destruct s as [|b s]; [done|]. destruct (Ascii.eqb_spec a b) as [->|]; [|done].
    intros Hs. apply IH in Hs as ->. reflexivity.
Qed.

Lemma span_unquoted_app (name rest : string) :
  unquoted name = true ->
  span_unquoted (name +:+ String quote rest) = (name, String quote rest).
Proof.
  induction name as [|a name IH]; intros Hname.
  - reflexivity.
  - cbn [unquoted] in Hname. apply andb_true_iff in Hname as [Ha Hname].
    change (String a name +:+ String quote rest)
      with (String a (name +:+ String quote rest)).
    cbn [span_unquoted]. apply negb_true_iff in Ha. rewrite Ha, (IH Hname). done.
Qed.

Lemma span_unquoted_spec (s name tail : string) :
  span_unquoted s = (name, tail) -> s = name +:+ tail /\ unquoted name = true.
Proof.
  revert name tail. induction s as [|a s IH]; intros name tail; cbn [span_unquoted].
  - by intros [= <- <-].
  - destruct (Ascii.eqb a quote) eqn:Ea.
    + by intros [= <- <-].
    + destruct (span_unquoted s) as [name' tail'] eqn:Es. intros [= <- <-].
      destruct (IH name' tail' eq_refl) as [-> Hname]. split; [done|].
      cbn [unquoted]. by rewrite Ea, Hname.
Qed.

Lemma match_showService_unfold (attr : string) :
  match_showService attr
  = match match_showService_here attr with
    | Some name => Some name
    | None =>
        match attr with
        | EmptyString => None
        | String _ r => match_showService r
        end
    end.
Proof. by destruct attr. Qed.

Lemma match_showService_here_of_call (serviceName post : string) :
  serviceName <> "" -> unquoted serviceName = true ->
  match_showService_here (showService_call serviceName +:+ post) = Some serviceName.
Proof.
  intros Hne Hname. unfold match_showService_here, showService_call.
  replace (("showService('" +:+ serviceName +:+ "')") +:+ post)
    with ("showService('" +:+ (serviceName +:+ String quote (String ")" post))).
  2:{ rewrite !string_app_assoc. reflexivity. }
  rewrite strip_prefix_app. cbn [mbind option_bind].
  rewrite (span_unquoted_app _ _ Hname).
  destruct (String.eqb_spec serviceName "") as [->|_]; [done|].
  reflexivity.
Qed.

(** X12.  The name of the service is read back from the attribute that
    calls [showService] with it: for a name that is not empty and has no
    quote, the attribute [showService('name')], whatever follows it,
    gives the name; and whatever precedes it, some name is found. *)
Theorem service_name_read_back (serviceName : string) :
  serviceName <> "" -> unquoted serviceName = true ->
  (forall post,
      match_showService (showService_call serviceName +:+ post) = Some serviceName) /\
  (forall pre post,
      is_Some (match_showService (pre +:+ showService_call serviceName +:+ post))).
Proof.
  intros Hne Hname.
  assert (forall post,
            match_showService (showService_call serviceName +:+ post) = Some serviceName)
    as Hhere.
  { intros post. rewrite match_showService_unfold.
    by rewrite match_showService_here_of_call. }
  split; [exact Hhere|]. intros pre post.
  induction pre as [|a pre IH].
  - change ("" +:+ showService_call serviceName +:+ post)
      with (showService_call serviceName +:+ post).
    rewrite Hhere. by eexists.
  - rewrite match_showService_unfold.
    destruct (match_showService_here _) as [name|]; [by eexists|]. exact IH.
Qed.

(** X13.  A name found in an attribute is not empty, has no quote, and
    stands in the attribute between [showService('] and [')]. *)
Theorem service_name_found (attr serviceName : string) :
  match_showService attr = Some serviceName ->
  serviceName <> "" /\ unquoted serviceName = true /\
  exists pre post, attr = pre +:+ showService_call serviceName +:+ post.
Proof.
  assert (forall s, match_showService_here s = Some serviceName ->
            serviceName <> "" /\ unquoted serviceName = true /\
            exists post, s = showService_call serviceName +:+ post) as Hhere.
  { intros s. unfold match_showService_here.
    destruct (strip_prefix "showService('" s) as [rest|] eqn:Hrest; [|done].
    cbn [mbind option_bind].
    destruct (span_unquoted rest) as [name tail] eqn:Hspan.
    destruct (String.eqb_spec name "") as [|Hne]; [done|].
    destruct (strip_prefix "')" tail) as [post|] eqn:Hpost; [|done].
    cbn [mbind option_bind]. intros [= <-].
    apply strip_prefix_Some in Hrest as ->. apply strip_prefix_Some in Hpost as ->.
    apply span_unquoted_spec in Hspan as [-> Hname].
    split; [done|]. split; [done|]. exists post. unfold showService_call.
    rewrite !string_app_assoc. reflexivity. }
  induction attr as [|a attr IH]; rewrite match_showService_unfold.
  - destruct (match_showService_here "") as [name|] eqn:E; [|done].
    intros [= ->]. destruct (Hhere _ E) as (Hne & Hname & post & Hpost).
    split; [done|]. split; [done|]. by exists "", post.
  - destruct (match_showService_here (String a attr)) as [name|] eqn:E.
    + intros [= ->]. destruct (Hhere _ E) as (Hne & Hname & post & Hpost).
      split; [done|]. split; [done|]. by exists "", post.
    + intros (Hne & Hname & pre & post & ->)%IH.
      split; [done|]. split; [done|]. by exists (String a pre), post.
Qed.

(** X14.  The listener added to a card whose attribute calls
    [showService] with a name stops the default action and the
    propagation of the click, does to the world what [showService] does
    for that name, and returns; it leaves the card with the transform
    [scale(0.95)] and with one more timer, of 150 milliseconds, whose
    callback clears the transform. *)
Theorem card_click_shows_service (serviceName : string) now w (card : card_state) :
  serviceName <> "" -> unquoted serviceName = true ->
  service_card_click (Some (showService_call serviceName)) now w card
  = ((exec (showService serviceName) now w).1, Finished (Normal tt),
     CardState true true "scale(0.95)" (timers card ++ [(150%Z, "")])%list).
Proof.
  intros Hne Hname. unfold service_card_click. cbn [mbind option_bind].
  rewrite match_showService_unfold.
  rewrite <- (string_app_nil_r (showService_call serviceName)).
  rewrite (match_showService_here_of_call _ "" Hne Hname).
  destruct (String.eqb_spec serviceName "") as [|_]; [done|]. cbn [negb].
  rewrite exec_showService. cbv zeta. cbn [timers].
  by destruct (getElementById (doc w) (serviceName +:+ "-content")).
Qed.

(** ** The function written into the template *)

(** X15.  Without the element [pricesData] the function written into
    the template does not return: the assignment to [innerHTML] throws,
    the [catch] block throws in turn, and the exception leaves the
    function.  Nothing is requested. *)
Theorem fetchMarketPrices_needs_container displayAllCrops now w :
  getElementById (doc w) "pricesData" = None ->
  exec (fetchMarketPrices displayAllCrops) now w = (w, Finished (Thrown TypeError)).
Proof.
  intros Hnone. unfold fetchMarketPrices. rewrite exec_try_catch.
  unfold fetchMarketPrices_try, fetchMarketPrices_catch. cbn [exec].
  rewrite Hnone. cbn [exec]. by rewrite Hnone.
Qed.

(** The function up to its request, and what is left of it *)
Lemma exec_fetchMarketPrices displayAllCrops now w c :
  getElementById (doc w) "pricesData" = Some c ->
  match realtime_market_request (loc w) with
  | Thrown _ =>
      exec (fetchMarketPrices displayAllCrops) now w
      = (put fetchMarketPrices_error c w, Finished (Normal tt))
  | Normal url =>
      exists k,
        exec (fetchMarketPrices displayAllCrops) now w
        = (add_request url (put fetchMarketPrices_loading c w), Suspended url k) /\
        forall o later w2,
          getElementById (doc w2) "pricesData" = Some c ->
          exec (k o) later w2
          = match o with
            | FetchRejected | JsonRejected =>
                (put fetchMarketPrices_error c w2, Finished (Normal tt))
            | JsonBody data =>
                match marketData_of data with
                | Thrown _ => (put fetchMarketPrices_error c w2, Finished (Normal tt))
                | Normal marketData =>
                    if bool_decide (md_keys marketData ≠ []) then
                      exec (try_catch (call (displayAllCrops data) Done)
                              fetchMarketPrices_catch) later w2
                    else (put fetchMarketPrices_unavailable c w2, Finished (Normal tt))
                end
            end
  end.
Proof.
  intros Hc.
  assert (forall e later w2,
            getElementById (doc w2) "pricesData" = Some c ->
            exec (fetchMarketPrices_catch e) later w2
            = (put fetchMarketPrices_error c w2, Finished (Normal tt))) as Hcatch.
  { intros e later w2 Hc2. unfold fetchMarketPrices_catch. cbn [exec]. by rewrite Hc2. }
  unfold fetchMarketPrices. rewrite exec_try_catch.
  unfold fetchMarketPrices_try. cbn [exec]. rewrite Hc. cbn [exec loc set_doc].
  destruct (realtime_market_request (loc w)) as [url|e]; cbn [Pure exec FetchJson].
  - eexists. split; [reflexivity|]. intros o later w2 Hc2. cbv beta.
    rewrite exec_try_catch.
    destruct o as [| |data]; cbn [exec]; [by apply Hcatch..|].
    destruct (marketData_of data) as [marketData|e]; cbn [Pure exec];
      [|by apply Hcatch].
    case_bool_decide; cbn [exec]; [|done].
    by rewrite <- exec_try_catch.
  - rewrite Hcatch.
    + unfold put, set_doc; cbn. by rewrite alter_put_put.
    + cbn. rewrite <- Hc. apply getElementById_ids. by apply ids_alter.
Qed.


Lemma fetchMarketPrices_answer displayAllCrops now w c w1 url k :
  getElementById (doc w) "pricesData" = Some c ->
  exec (fetchMarketPrices displayAllCrops) now w = (w1, Suspended url k) ->
  forall o later w2,
    getElementById (doc w2) "pricesData" = Some c ->
    exec (k o) later w2
    = match o with
      | FetchRejected | JsonRejected =>
          (put fetchMarketPrices_error c w2, Finished (Normal tt))
      | JsonBody data =>
          match marketData_of data with
          | Thrown _ => (put fetchMarketPrices_error c w2, Finished (Normal tt))
          | Normal marketData =>
              if bool_decide (md_keys marketData ≠ []) then
                exec (try_catch (call (displayAllCrops data) Done)
                        fetchMarketPrices_catch) later w2
              else (put fetchMarketPrices_unavailable c w2, Finished (Normal tt))
          end
      end.
Proof.
  intros Hc Hexec. pose proof (exec_fetchMarketPrices displayAllCrops now w c Hc) as Hspec.
  destruct (realtime_market_request (loc w)) as [url'|e].
  - destruct Hspec as (k' & Hexec' & Hk). rewrite Hexec in Hexec'.
    by injection Hexec' as _ _ ->.
  - rewrite Hexec in Hspec. discriminate Hspec.
Qed.

(** X16.  With the element [pricesData] in the document, every failure
    of the function written into the template ends in the error text:
    when the url cannot be built the function returns with the text
    shown; once the request is made, a rejected [fetch], a rejected
    [json()] and a body whose crops cannot be read each leave the text
    in the element and the function returns. *)
Theorem fetchMarketPrices_shows_failure displayAllCrops now w c :
  getElementById (doc w) "pricesData" = Some c ->
  match realtime_market_request (loc w) with
  | Thrown _ =>
      exec (fetchMarketPrices displayAllCrops) now w
      = (put fetchMarketPrices_error c w, Finished (Normal tt))
  | Normal url =>
      exists k,
        exec (fetchMarketPrices displayAllCrops) now w
        = (add_request url (put fetchMarketPrices_loading c w), Suspended url k) /\
        forall o later w2,
          getElementById (doc w2) "pricesData" = Some c ->
          match o with
          | FetchRejected | JsonRejected => True
          | JsonBody data => exists e, marketData_of data = Thrown e
          end ->
          exec (k o) later w2 = (put fetchMarketPrices_error c w2, Finished (Normal tt))
  end.
Proof.
  intros Hc. pose proof (exec_fetchMarketPrices displayAllCrops now w c Hc) as Hspec.
  destruct (realtime_market_request (loc w)) as [url|e]; [|done].
  destruct Hspec as (k & Hexec & Hk). exists k. split; [done|].
  intros o later w2 Hc2 Hfails. rewrite (Hk o later w2 Hc2).
  destruct o as [| |data]; [done..|]. by destruct Hfails as [e ->].
Qed.

(** X17.  A body without crops: when [data.crops] is missing, falsy or
    empty, the element ends with the text for missing data, and
    [displayAllCrops] plays no part. *)
Theorem fetchMarketPrices_without_crops displayAllCrops now w c w1 url k data crops :
  getElementById (doc w) "pricesData" = Some c ->
  exec (fetchMarketPrices displayAllCrops) now w = (w1, Suspended url k) ->
  get data "crops" = Normal crops ->
  nonempty crops = Normal false ->
  forall later w2,
    getElementById (doc w2) "pricesData" = Some c ->
    exec (k (JsonBody data)) later w2
    = (put fetchMarketPrices_unavailable c w2, Finished (Normal tt)).
Proof.
  intros Hc Hexec Hcrops Hnone later w2 Hc2.
  rewrite (fetchMarketPrices_answer displayAllCrops now w c w1 url k Hc Hexec _ _ _ Hc2).
  unfold marketData_of. by rewrite Hcrops, bind_Normal_l, Hnone, bind_Normal_l.
Qed.

Lemma assign_keys (m : market_data (num:=num)) key crop :
  md_keys m ⊆ md_keys (assign m key crop) /\
  (key <> "__proto__" -> key ∈ md_keys (assign m key crop)).
Proof.
  unfold assign. case_bool_decide as Hin; [done|].
  destruct (String.eqb_spec key "__proto__") as [->|Hne]; cbn [andb].
  - split; [|done].
    destruct (match md_prototype m with
              | NullPrototype => false
              | ValuePrototype (VObj fields) =>
                  match own fields "__proto__" with
                  | Some _ => false
                  | None => true
                  end
              | _ => true
              end).
    + by destruct crop.
    + cbn. set_solver.
  - cbn. set_solver.
Qed.

Lemma assign_each_keys items (m m' : market_data (num:=num)) :
  assign_each items m = Normal m' ->
  md_keys m ⊆ md_keys m' /\
  forall crop key,
    crop ∈ items -> get crop "name" ≫= to_str = Normal key -> key <> "__proto__" ->
    key ∈ md_keys m'.
Proof.
  revert m. induction items as [|crop items IH]; intros m; cbn [assign_each].
  - intros [= <-]. split; [done|]. intros crop key Hin. by apply elem_of_nil in Hin.
  - destruct (get crop "name" ≫= to_str) as [key|e] eqn:Hkey; [|done].
    rewrite bind_Normal_l. intros Hrest. destruct (IH _ Hrest) as (Hsub & Hall).
    destruct (assign_keys m key crop) as [Hmono Hadds].
    split; [intros x Hx; apply Hsub, Hmono, Hx|].
    intros crop' key' [->|Hin]%elem_of_cons Hkey' Hne.
    + rewrite Hkey in Hkey'. injection Hkey' as <-. apply Hsub. by apply Hadds.
    + by eapply Hall.
Qed.

(** X18.  A body with crops: when [data.crops] is an array whose crops
    all have a name that can be read and printed, one of them a name
    other than [__proto__], [displayAllCrops] is called with the body;
    what is left of the function is that call, inside the [try]
    block. *)
Theorem fetchMarketPrices_displays_crops displayAllCrops now w c w1 url k data items
    crop key :
  getElementById (doc w) "pricesData" = Some c ->
  exec (fetchMarketPrices displayAllCrops) now w = (w1, Suspended url k) ->
  get data "crops" = Normal (VArr items) ->
  (forall x, x ∈ items -> exists name, get x "name" ≫= to_str = Normal name) ->
  crop ∈ items ->
  get crop "name" ≫= to_str = Normal key ->
  key <> "__proto__" ->
  forall later w2,
    getElementById (doc w2) "pricesData" = Some c ->
    exec (k (JsonBody data)) later w2
    = exec (try_catch (call (displayAllCrops data) Done) fetchMarketPrices_catch)
        later w2.
Proof.
  intros Hc Hexec Hcrops Hnames Hin Hkey Hne later w2 Hc2.
  rewrite (fetchMarketPrices_answer displayAllCrops now w c w1 url k Hc Hexec _ _ _ Hc2).
  unfold marketData_of. rewrite Hcrops, bind_Normal_l.
  assert (nonempty (VArr items) = Normal true) as ->.
  { cbn. destruct items; [by apply elem_of_nil in Hin|done]. }
  rewrite bind_Normal_l. cbn [as_array]. rewrite bind_Normal_l.
  assert (exists m, assign_each items (MarketData [] ObjectPrototype) = Normal m)
    as [m Hm].
  { generalize (MarketData (num:=num) [] ObjectPrototype). clear Hin Hcrops.
    induction items as [|x items IH]; intros m0; cbn [assign_each]; [by eexists|].
    destruct (Hnames x) as [name ->]; [apply list_elem_of_here|].
    rewrite bind_Normal_l. apply IH. intros y Hy. apply Hnames.
    by apply list_elem_of_further. }
  rewrite Hm. destruct (assign_each_keys _ _ _ Hm) as [_ Hall].
  rewrite bool_decide_eq_true_2; [done|].
  intros Hnil. specialize (Hall crop key Hin Hkey Hne). rewrite Hnil in Hall.
  by apply elem_of_nil in Hall.
Qed.

End ServiceScript.

(** * Further properties of the template-patching scripts *)

Section PatchingFurther.

Local Open Scope nat_scope.
Implicit Types (s content marker text : string) (i j k n m t : nat).

(** ** Substrings of a concatenation *)

Lemma substring_app_l text1 text2 k n :
  k + n <= String.length text1 ->
  String.substring k n (text1 +:+ text2) = String.substring k n text1.
Proof.
  revert k n. induction text1 as [|a text1 IH]; intros k n Hk.
  - cbn in Hk. assert (k = 0) as -> by lia. assert (n = 0) as -> by lia.
    by destruct text2.
  - rewrite append_String. destruct k as [|k].
    + destruct n as [|n]; [done|]. cbn [String.substring]. f_equal.
      apply (IH 0). cbn in Hk. lia.
    + cbn [String.substring]. apply IH. cbn in Hk. lia.
Qed.

Lemma substring_app_r text1 text2 k n :
  String.substring (String.length text1 + k) n (text1 +:+ text2)
  = String.substring k n text2.
Proof. induction text1 as [|a text1 IH]; [done|]. rewrite append_String. apply IH. Qed.

Lemma substring_app_mid text1 text2 k m :
  k <= String.length text1 ->
  String.substring k ((String.length text1 - k) + m) (text1 +:+ text2)
  = (String.substring k (String.length text1 - k) text1
     +:+ String.substring 0 m text2)%string.
Proof.
  intros Hk. rewrite substring_plus. f_equal.
  - apply substring_app_l. lia.
  - replace (k + (String.length text1 - k)) with (String.length text1 + 0) by lia.
    apply substring_app_r.
Qed.

Lemma substring_empty s k : String.substring k 0 s = ""%string.
Proof. revert k. induction s as [|a s IH]; intros [|k]; cbn; auto. Qed.

Lemma substring_beyond s n :
  String.length s <= n -> String.substring 0 n s = s.
Proof.
  revert n. induction s as [|a s IH]; intros n Hn; [by destruct n|].
  destruct n as [|n]; cbn in Hn; [lia|]. cbn [String.substring]. f_equal.
  apply IH. lia.
Qed.

Lemma length_before content i :
  i <= String.length content -> String.length (before content i) = i.
Proof. intros Hi. unfold before. rewrite length_substring. lia. Qed.

Lemma substring_in_before content i k n :
  k + n <= i -> i <= String.length content ->
  String.substring k n (before content i) = String.substring k n content.
Proof.
  intros Hk Hi. rewrite (content_split content i i) at 2 by lia.
  rewrite substring_app_l; [done|]. rewrite length_before; lia.
Qed.

Lemma before_app text1 text2 : before (text1 +:+ text2) (String.length text1) = text1.
Proof.
  unfold before. rewrite substring_app_l by lia. apply substring_all.
Qed.

Lemma from_app text1 text2 : from (text1 +:+ text2) (String.length text1) = text2.
Proof.
  unfold from. rewrite string_app_length.
  replace (String.length text1) with (String.length text1 + 0) at 1 by lia.
  rewrite substring_app_r.
  replace (String.length text1 + String.length text2 - String.length text1)
    with (String.length text2) by lia.
  apply substring_all.
Qed.

(** The content around an occurrence of a marker *)
Lemma occurs_at_split marker content i :
  marker <> ""%string -> occurs_at marker content i ->
  content = (before content i +:+ marker
             +:+ from content (i + String.length marker))%string.
Proof.
  intros Hne Hat. pose proof (occurs_at_bound _ _ _ Hne Hat) as Hbound.
  rewrite (content_split content i (i + String.length marker)) at 1 by lia.
  replace (i + String.length marker - i) with (String.length marker) by lia.
  by rewrite Hat.
Qed.

Lemma from_split marker content j :
  marker <> ""%string -> occurs_at marker content j ->
  from content j = (marker +:+ from content (j + String.length marker))%string.
Proof.
  intros Hne Hat. pose proof (occurs_at_bound _ _ _ Hne Hat) as Hbound.
  unfold from at 1.
  replace (String.length content - j)
    with (String.length marker + (String.length content - (j + String.length marker)))
    by lia.
  rewrite substring_plus. unfold occurs_at in Hat. by rewrite Hat.
Qed.

Lemma from_0 content : from content 0 = content.
Proof. unfold from. rewrite Nat.sub_0_r. apply substring_all. Qed.

Lemma starts_split marker content :
  marker <> ""%string -> occurs_at marker content 0 ->
  content = (marker +:+ from content (String.length marker))%string.
Proof.
  intros Hne Hat. rewrite <- (from_0 content) at 1.
  by rewrite (from_split marker content 0 Hne Hat).
Qed.

(** An occurrence that ends inside a common prefix of two texts *)
Lemma occurs_at_prefix marker text rest1 rest2 k :
  k + String.length marker <= String.length text ->
  occurs_at marker (text +:+ rest1) k -> occurs_at marker (text +:+ rest2) k.
Proof.
  unfold occurs_at. intros Hk. by rewrite !substring_app_l by done.
Qed.

(** An occurrence that begins before a text and ends inside it *)
Lemma occurs_at_straddle marker text1 text2 k :
  k < String.length text1 -> String.length text1 < k + String.length marker ->
  occurs_at marker (text1 +:+ text2) k ->
  overlaps marker text2 (String.length text1 - k) = true.
Proof.
  intros Hk Hend Hat. unfold occurs_at in Hat.
  set (t := String.length text1 - k).
  set (n := String.length marker - t).
  replace (String.length marker) with ((String.length text1 - k) + n) in Hat
    by (unfold n, t; lia).
  rewrite substring_app_mid in Hat by lia. fold t in Hat.
  set (U := String.substring k t text1) in Hat.
  set (V := String.substring 0 n text2) in Hat.
  assert (String.length U = t) as HU.
  { unfold U. rewrite length_substring. unfold t. lia. }
  assert (String.length V <= n) as HV.
  { unfold V. rewrite length_substring. lia. }
  unfold overlaps. fold t. fold n. fold V. apply String.eqb_eq.
  rewrite <- Hat at 1. replace t with (String.length U + 0) at 1 by lia.
  rewrite substring_app_r. by apply substring_beyond.
Qed.

Lemma no_overlap_spec marker text t :
  no_overlap marker text = true -> 1 <= t -> t < String.length marker ->
  overlaps marker text t = false.
Proof.
  unfold no_overlap. rewrite forallb_forall. intros Hall Ht1 Ht2.
  apply negb_true_iff, Hall, in_seq. lia.
Qed.

Lemma overlaps_app marker text1 text2 t :
  String.length marker - t <= String.length text1 ->
  overlaps marker (text1 +:+ text2) t = overlaps marker text1 t.
Proof. intros Hlen. unfold overlaps. by rewrite substring_app_l by lia. Qed.


(** ** The scripts, in terms of the first occurrences of the markers *)

Lemma script_run_markers (s : script) (d : disk) content i j :
  files d !! template_path = Some content ->
  first_occurrence (start_marker s) content i ->
  first_occurrence marker_searchMandiByLocation content j ->
  script_run s d
  = Normal (writeFileSync d template_path
              (before content i +:+ replacement s +:+ from content j)).
Proof.
  intros Hfile Hi Hj.
  pose proof (occurs_at_bound _ _ _ (start_marker_nonempty s) (proj1 Hi)) as Hbi.
  pose proof (occurs_at_bound marker_searchMandiByLocation _ _ ltac:(done) (proj1 Hj))
    as Hbj.
  rewrite (script_run_unfold s d content Hfile). cbv zeta.
  rewrite (indexOf_first _ _ i (start_marker_nonempty s) Hi).
  rewrite (indexOf_first _ marker_searchMandiByLocation j) by done.
  rewrite !bool_decide_eq_true_2 by lia. cbn [andb].
  rewrite substring_before, substring_from_from by lia. done.
Qed.

(** What the proofs use of the two replacement texts: each begins with
    the start marker of its script; the end marker neither occurs in it
    nor can begin before it or end after it. *)
Lemma replacement_facts (s : script) :
  String.prefix (start_marker s) (replacement s) = true /\
  no_overlap marker_searchMandiByLocation (replacement s) = true /\
  String.index 0 marker_searchMandiByLocation
    (replacement s +:+ marker_searchMandiByLocation)
  = Some (String.length (replacement s)) /\
  String.length marker_searchMandiByLocation <= String.length (replacement s).
Proof.
  destruct s; (split; [|split; [|split]]); try (vm_compute; reflexivity).
  all: apply Nat.leb_le; vm_compute; reflexivity.
Qed.

Lemma replacement_starts (s : script) text :
  occurs_at (start_marker s) (replacement s +:+ text) 0.
Proof.
  destruct (replacement_facts s) as (Hprefix & _ & _ & _).
  apply String.prefix_correct in Hprefix. unfold occurs_at.
  rewrite substring_app_l; [done|].
  pose proof (length_substring (replacement s) 0 (String.length (start_marker s))) as Hlen.
  rewrite Hprefix in Hlen. lia.
Qed.

(** The patched content has the start marker first where the content
    had it. *)
Lemma patched_start (s : script) content i text :
  first_occurrence (start_marker s) content i ->
  first_occurrence (start_marker s)
    (before content i +:+ replacement s +:+ text) i.
Proof.
  intros [Hat Hfirst].
  pose proof (occurs_at_bound _ _ _ (start_marker_nonempty s) Hat) as Hbound.
  pose proof (length_before content i ltac:(lia)) as Hlen.
  pose proof (replacement_starts s text) as Hstarts.
  split.
  - unfold occurs_at. replace i with (String.length (before content i) + 0) at 1 by lia.
    rewrite substring_app_r. exact Hstarts.
  - intros k Hk Hat'. apply (Hfirst k Hk).
    rewrite (occurs_at_split _ _ _ (start_marker_nonempty s) Hat).
    rewrite (starts_split _ _ (start_marker_nonempty s) Hstarts) in Hat'.
    rewrite <- string_app_assoc in Hat' |- *. revert Hat'. apply occurs_at_prefix.
    rewrite string_app_length. lia.
Qed.


(** The patched content has the end marker first right after the
    replacement text, when the start marker came first in the content. *)
Lemma patched_end (s : script) content i j :
  first_occurrence (start_marker s) content i ->
  first_occurrence marker_searchMandiByLocation content j ->
  i <= j ->
  first_occurrence marker_searchMandiByLocation
    (before content i +:+ replacement s +:+ from content j)
    (i + String.length (replacement s)).
Proof.
  intros [Hati _] [Hatj Hfirst] Hij.
  assert (marker_searchMandiByLocation <> ""%string) as Hne by done.
  pose proof (occurs_at_bound _ _ _ (start_marker_nonempty s) Hati) as Hbi.
  pose proof (occurs_at_bound _ _ _ Hne Hatj) as Hbj.
  pose proof (length_before content i ltac:(lia)) as Hlen.
  destruct (replacement_facts s) as (_ & Hover & Hindex & Hlong).
  assert (String.length marker_searchMandiByLocation = 40) as HlenE by reflexivity.
  rewrite (from_split _ _ _ Hne Hatj).
  set (tail := from content (j + String.length marker_searchMandiByLocation)).
  set (R := replacement s) in *. set (E := marker_searchMandiByLocation) in *.
  set (B := before content i) in *.
  split.
  - unfold occurs_at. rewrite <- Hlen at 1. rewrite substring_app_r.
    replace (String.length R) with (String.length R + 0) by lia.
    rewrite substring_app_r. rewrite substring_app_l by lia. apply substring_all.
  - intros k Hk Hat.
    destruct (decide (k + String.length E <= i)) as [Hin|Hout].
    + apply (Hfirst k ltac:(lia)). unfold occurs_at in Hat |- *.
      rewrite substring_app_l in Hat by lia. unfold B in Hat.
      by rewrite substring_in_before in Hat by lia.
    + destruct (decide (k < i)) as [Hbefore|Hafter].
      * apply occurs_at_straddle in Hat; [|lia..]. rewrite Hlen in Hat.
        rewrite overlaps_app in Hat by lia.
        rewrite (no_overlap_spec E R (i - k) Hover) in Hat by lia. done.
      * unfold occurs_at in Hat.
        replace k with (String.length B + (k - i)) in Hat by lia.
        rewrite substring_app_r in Hat.
        rewrite <- string_app_assoc in Hat. rewrite substring_app_l in Hat
          by (rewrite string_app_length; lia).
        apply (index_correct2 _ _ _ _ Hindex (k - i)); [lia|lia|exact Hat].
Qed.

(** X19.  When either script returns, the template could be read and
    no file but the template has changed: when both markers occur in the
    template it has been written, once, and otherwise the disk is as it
    was. *)
Theorem patch_touches_only_template (s : script) (d d' : disk) :
  script_run s d = Normal d' ->
  exists content,
    files d !! template_path = Some content /\
    (forall path, path <> template_path -> files d' !! path = files d !! path) /\
    ((occurs (start_marker s) content /\
      occurs marker_searchMandiByLocation content /\
      exists content', d' = writeFileSync d template_path content') \/
     ((~ occurs (start_marker s) content \/
       ~ occurs marker_searchMandiByLocation content) /\
      d' = d)).
Proof.
  assert (forall marker content,
            indexOf content marker <> (-1)%Z -> occurs marker content) as Hfound.
  { intros marker content. unfold indexOf.
    destruct (String.index 0 marker content) as [k|] eqn:Hindex; [|done].
    intros _. exists k. by eapply index_correct1. }
  destruct (files d !! template_path) as [content|] eqn:Hfile.
  - rewrite (script_run_unfold s d content Hfile). cbv zeta.
    intros Hrun. exists content. split; [done|].
    destruct (decide (indexOf content (start_marker s) = (-1)%Z)) as [Ha|Ha].
    { rewrite (bool_decide_eq_false_2 (indexOf content (start_marker s) ≠ (-1)%Z)) in Hrun
        by (intros Hne; by apply Hne).
      cbn [andb] in Hrun. injection Hrun as <-. split; [done|]. right. split; [|done]. left.
      intros Hocc. destruct (occurs_first _ _ (start_marker_nonempty s) Hocc) as [k Hk].
      rewrite (indexOf_first _ _ _ (start_marker_nonempty s) Hk) in Ha. lia. }
    rewrite (bool_decide_eq_true_2 (indexOf content (start_marker s) ≠ (-1)%Z)) in Hrun
      by done.
    cbn [andb] in Hrun.
    assert (marker_searchMandiByLocation <> ""%string) as Hne by discriminate.
    destruct (decide (indexOf content marker_searchMandiByLocation = (-1)%Z)) as [Hb|Hb].
    { rewrite (bool_decide_eq_false_2
                 (indexOf content marker_searchMandiByLocation ≠ (-1)%Z)) in Hrun
        by (intros Hne'; by apply Hne').
      injection Hrun as <-. split; [done|]. right. split; [|done]. right.
      intros Hocc. destruct (occurs_first _ _ Hne Hocc) as [k Hk].
      rewrite (indexOf_first _ _ _ Hne Hk) in Hb. lia. }
    rewrite (bool_decide_eq_true_2
               (indexOf content marker_searchMandiByLocation ≠ (-1)%Z)) in Hrun by done.
    injection Hrun as <-. split.
    + intros path Hpath. cbn. by rewrite lookup_insert_ne.
    + left. split; [by apply Hfound|]. split; [by apply Hfound|]. by eexists.
  - destruct s; cbn [script_run]; unfold fix_market_prices, fix_fetch_market_prices,
      readFileSync; fold template_path; rewrite Hfile; done.
Qed.

(** X20.  After a patch the first definition of the function is the new
    one: the start marker occurs first where it did in the content, and
    the replacement text stands there. *)
Theorem patch_installs_replacement (s : script) (d : disk) content i :
  files d !! template_path = Some content ->
  first_occurrence (start_marker s) content i ->
  occurs marker_searchMandiByLocation content ->
  exists content',
    script_run s d = Normal (writeFileSync d template_path content') /\
    first_occurrence (start_marker s) content' i /\
    occurs_at (replacement s) content' i.
Proof.
  intros Hfile Hi Hend.
  destruct (occurs_first marker_searchMandiByLocation content) as [j Hj]; [done..|].
  eexists. split; [by apply (script_run_markers s d content i j)|].
  split; [by apply patched_start|].
  pose proof (occurs_at_bound _ _ _ (start_marker_nonempty s) (proj1 Hi)) as Hbound.
  unfold occurs_at.
  replace i with (String.length (before content i) + 0) at 1
    by (rewrite length_before; lia).
  rewrite substring_app_r, substring_app_l by lia. apply substring_all.
Qed.

(** X21.  A patch is idempotent when the start marker comes first in
    the content: on any disk whose template is the patched content the
    script writes that same content again, so that no file changes. *)
Theorem patch_idempotent (s : script) (d : disk) content i j :
  files d !! template_path = Some content ->
  first_occurrence (start_marker s) content i ->
  first_occurrence marker_searchMandiByLocation content j ->
  i <= j ->
  exists content',
    script_run s d = Normal (writeFileSync d template_path content') /\
    forall d',
      files d' !! template_path = Some content' ->
      script_run s d' = Normal (writeFileSync d' template_path content') /\
      files (writeFileSync d' template_path content') = files d'.
Proof.
  intros Hfile Hi Hj Hij.
  set (content' := (before content i +:+ replacement s +:+ from content j)%string).
  exists content'. split; [by apply script_run_markers|].
  intros d' Hfile'. split; [|cbn; by apply insert_id].
  pose proof (occurs_at_bound _ _ _ (start_marker_nonempty s) (proj1 Hi)) as Hbound.
  pose proof (length_before content i ltac:(lia)) as Hlen.
  rewrite (script_run_markers s d' content' i (i + String.length (replacement s)) Hfile').
  - do 2 f_equal.
    assert (before content' i = before content i) as ->.
    { unfold content'. rewrite <- Hlen at 2. apply before_app. }
    do 2 f_equal. unfold content'. rewrite <- string_app_assoc.
    replace (i + String.length (replacement s))
      with (String.length (before content i +:+ replacement s))
      by (rewrite string_app_length; lia).
    apply from_app.
  - by apply patched_start.
  - by apply patched_end.
Qed.

(** X22.  With the end marker before the start marker nothing of the
    content is removed: the patched content is the content with, put in
    at the start marker, the replacement text followed by a second copy
    of the text from the end marker up to the start marker. *)
Theorem patch_in_wrong_order_duplicates (s : script) (d : disk) content i j :
  files d !! template_path = Some content ->
  first_occurrence (start_marker s) content i ->
  first_occurrence marker_searchMandiByLocation content j ->
  j < i ->
  script_run s d
  = Normal (writeFileSync d template_path
              (before content i
               +:+ (replacement s +:+ String.substring j (i - j) content)
               +:+ from content i)) /\
  content = (before content i +:+ from content i)%string.
Proof.
  intros Hfile Hi Hj Hji.
  pose proof (occurs_at_bound _ _ _ (start_marker_nonempty s) (proj1 Hi)) as Hbound.
  split.
  - rewrite (script_run_markers s d content i j Hfile Hi Hj). do 3 f_equal.
    rewrite string_app_assoc. f_equal. unfold from.
    replace (String.length content - j) with ((i - j) + (String.length content - i))
      by lia.
    rewrite substring_plus. do 2 f_equal. lia.
  - rewrite (content_split content i i) at 1 by lia.
    by rewrite Nat.sub_diag, substring_empty.
Qed.

End PatchingFurther.

(** * The two scripts, one after the other *)

Section PatchingBoth.

Local Open Scope nat_scope.
Implicit Types (s content marker text : string) (i j k n m t : nat).

(** What the proofs use of the replacement text of [fix_market_prices.js]
    with respect to the start marker of the other script: the marker
    does not occur in the text followed by the end marker, nor can it
    begin before the text and end inside it. *)
Lemma replacement_without_fetch :
  no_overlap marker_fetchMarketPrices newFunction_loadMarketPrices = true /\
  String.index 0 marker_fetchMarketPrices
    (newFunction_loadMarketPrices +:+ marker_searchMandiByLocation) = None.
Proof. split; vm_compute; reflexivity. Qed.

Lemma occurs_at_app_r marker text1 text2 k :
  String.length text1 <= k ->
  occurs_at marker (text1 +:+ text2) k ->
  occurs_at marker text2 (k - String.length text1).
Proof.
  intros Hk Hat. unfold occurs_at in *.
  replace k with (String.length text1 + (k - String.length text1)) in Hat by lia.
  by rewrite substring_app_r in Hat.
Qed.

Lemma occurs_at_app_l marker text1 text2 k :
  k + String.length marker <= String.length text1 ->
  occurs_at marker (text1 +:+ text2) k -> occurs_at marker text1 k.
Proof. intros Hk Hat. unfold occurs_at in *. by rewrite substring_app_l in Hat. Qed.

(** The start marker of the second script does not occur in a template
    patched by the first, when it occurred only between the two markers
    of the first. *)
Lemma patched_without_fetch content i j :
  first_occurrence marker_searchMandiByLocation content j ->
  i <= String.length content ->
  ~ occurs marker_fetchMarketPrices (before content i) ->
  ~ occurs marker_fetchMarketPrices (from content j) ->
  ~ occurs marker_fetchMarketPrices
      (before content i +:+ newFunction_loadMarketPrices +:+ from content j).
Proof.
  intros [Hatj _] Hi Hbefore Hfrom [k Hat].
  assert (marker_searchMandiByLocation <> ""%string) as Hne by done.
  assert (marker_fetchMarketPrices <> ""%string) as Hne' by done.
  destruct replacement_without_fetch as [Hover Hindex].
  destruct (replacement_facts PatchLoadMarketPrices) as (_ & _ & _ & Hlong).
  cbn [replacement] in Hlong.
  pose proof (length_before content i Hi) as Hlen.
  assert (String.length marker_searchMandiByLocation = 40) as HlenE by reflexivity.
  assert (String.length marker_fetchMarketPrices = 36) as HlenS by reflexivity.
  set (R := newFunction_loadMarketPrices) in *.
  set (E := marker_searchMandiByLocation) in *.
  set (S := marker_fetchMarketPrices) in *.
  set (B := before content i) in *.
  destruct (decide (k + String.length S <= String.length B)) as [Hin|Hout].
  - apply Hbefore. exists k. by eapply occurs_at_app_l.
  - destruct (decide (k < String.length B)) as [Hk|Hk].
    + apply occurs_at_straddle in Hat; [|lia..].
      rewrite overlaps_app in Hat by lia.
      rewrite (no_overlap_spec S R _ Hover) in Hat by lia. done.
    + apply occurs_at_app_r in Hat; [|lia].
      set (k' := k - String.length B) in *.
      destruct (decide (k' + String.length S <= String.length R + String.length E))
        as [Hnear|Hfar].
      * rewrite (from_split E content j Hne Hatj) in Hat.
        rewrite <- string_app_assoc in Hat.
        apply occurs_at_app_l in Hat; [|rewrite string_app_length; lia].
        by apply (index_correct3 0 k' _ _ Hindex Hne' (Nat.le_0_l k')).
      * apply Hfrom. exists (k' - String.length R). apply occurs_at_app_r; [lia|done].
Qed.

(** X23.  The first script disables the second: when the function
    [fetchMarketPrices] is defined only between the two markers of
    [fix_market_prices.js], the patch of [loadMarketPrices] removes it,
    and the script that patches [fetchMarketPrices], run on the patched
    disk, finds no start marker and writes nothing. *)
Theorem load_patch_disables_fetch_patch (d : disk) content i j :
  files d !! template_path = Some content ->
  first_occurrence marker_loadMarketPrices content i ->
  first_occurrence marker_searchMandiByLocation content j ->
  ~ occurs marker_fetchMarketPrices (before content i) ->
  ~ occurs marker_fetchMarketPrices (from content j) ->
  exists d1,
    fix_market_prices d = Normal d1 /\
    writes d1 = (writes d ++ [(template_path, (before content i
                                               +:+ newFunction_loadMarketPrices
                                               +:+ from content j)%string)])%list /\
    fix_fetch_market_prices d1 = Normal d1.
Proof.
  intros Hfile Hi Hj Hbefore Hfrom.
  pose proof (occurs_at_bound _ _ _ (start_marker_nonempty PatchLoadMarketPrices)
                (proj1 Hi)) as Hbound.
  eexists. split; [exact (script_run_markers PatchLoadMarketPrices d content i j
                            Hfile Hi Hj)|].
  split; [done|].
  change fix_fetch_market_prices with (script_run PatchFetchMarketPrices).
  rewrite (script_run_unfold PatchFetchMarketPrices _
             (before content i +:+ newFunction_loadMarketPrices +:+ from content j)%string)
    by (cbn; by rewrite lookup_insert_eq).
  cbv zeta. cbn [start_marker].
  rewrite (indexOf_absent _ marker_fetchMarketPrices)
    by (apply patched_without_fetch; [done|lia|done..]).
  by rewrite bool_decide_eq_false_2 by (by intros Hne).
Qed.

(** X24.  The first script absorbs the second: when [fetchMarketPrices]
    is defined between [loadMarketPrices] and the end marker, the patch
    of [loadMarketPrices] writes the same template whether or not the
    patch of [fetchMarketPrices] has been made before it. *)
Theorem load_patch_absorbs_fetch_patch (d : disk) content i i' j :
  files d !! template_path = Some content ->
  first_occurrence marker_loadMarketPrices content i ->
  first_occurrence marker_fetchMarketPrices content i' ->
  first_occurrence marker_searchMandiByLocation content j ->
  i + String.length marker_loadMarketPrices <= i' ->
  i' <= j ->
  exists d1 content',
    fix_fetch_market_prices d = Normal d1 /\
    fix_market_prices d = Normal (writeFileSync d template_path content') /\
    fix_market_prices d1 = Normal (writeFileSync d1 template_path content').
Proof.
  intros Hfile [Hati Hfirsti] Hi' Hj Hgap Hij.
  pose proof (occurs_at_bound _ _ _ (start_marker_nonempty PatchFetchMarketPrices)
                (proj1 Hi')) as Hbound.
  cbn [start_marker] in Hbound.
  pose proof (length_before content i' ltac:(lia)) as Hlen.
  set (content1 := (before content i' +:+ newFunction_fetchMarketPrices
                    +:+ from content j)%string).
  exists (writeFileSync d template_path content1),
    (before content i +:+ newFunction_loadMarketPrices +:+ from content j)%string.
  split; [exact (script_run_markers PatchFetchMarketPrices d content i' j Hfile Hi' Hj)|].
  split; [exact (script_run_markers PatchLoadMarketPrices d content i j Hfile
                   (conj Hati Hfirsti) Hj)|].
  change fix_market_prices with (script_run PatchLoadMarketPrices).
  rewrite (script_run_markers PatchLoadMarketPrices _ content1 i
             (i' + String.length newFunction_fetchMarketPrices)).
  - do 2 f_equal.
    assert (before content1 i = before content i) as ->.
    { unfold content1, before at 1 3.
      rewrite substring_app_l by lia. apply (substring_in_before content i' 0 i); lia. }
    do 2 f_equal. unfold content1. rewrite <- string_app_assoc.
    replace (i' + String.length newFunction_fetchMarketPrices)
      with (String.length (before content i' +:+ newFunction_fetchMarketPrices))
      by (rewrite string_app_length; lia).
    apply from_app.
  - cbn. by rewrite lookup_insert_eq.
  - cbn [start_marker]. split.
    + unfold occurs_at, content1. rewrite substring_app_l by lia.
      by rewrite substring_in_before by lia.
    + intros k Hk Hat. apply (Hfirsti k Hk). unfold occurs_at, content1 in Hat.
      rewrite substring_app_l in Hat by lia.
      by rewrite substring_in_before in Hat by lia.
  - exact (patched_end PatchFetchMarketPrices content i' j Hi' Hj Hij).
Qed.

End PatchingBoth.

(** * Further concrete runs *)

(** The first occurrence of a marker, computed *)
Lemma index_first_occurrence (marker content : string) (i : nat) :
  String.index 0 marker content = Some i -> first_occurrence marker content i.
Proof.
  intros Hindex. split; [by eapply index_correct1|].
  intros k Hk. eapply index_correct2; [exact Hindex|lia|done].
Qed.

(** A handler that has its container and can build its url is
    suspended at its request. *)
Lemma handler_suspends {num : Type} `{!Host num} (h : handler) (now : num)
    (w : world (num:=num)) c url :
  container_of h (doc w) = Some c ->
  sv_request (handler_service h) (loc w) = Normal url ->
  exists w1 k, exec (handler_prog h) now w = (w1, Suspended url k).
Proof.
  intros Hc Hurl. pose proof (handler_exec h now w) as Hexec.
  rewrite Hc, Hurl in Hexec. destruct Hexec as (k & Hexec & _). eauto.
Qed.

Lemma fetchMarketPrices_suspends {num : Type} `{!Host num}
    (displayAllCrops : value (num:=num) -> prog (num:=num)) (now : num)
    (w : world (num:=num)) c url :
  getElementById (doc w) "pricesData" = Some c ->
  realtime_market_request (loc w) = Normal url ->
  exists w1 k, exec (fetchMarketPrices displayAllCrops) now w = (w1, Suspended url k).
Proof.
  intros Hc Hurl. pose proof (exec_fetchMarketPrices displayAllCrops now w c Hc) as Hexec.
  rewrite Hurl in Hexec. destruct Hexec as (k & Hexec & _). eauto.
Qed.

(** X1 on the sample world: what is left of [loadWeatherData] *)
Lemma answer_changes_only_container_witness :
  match exec loadWeatherData one_day sample_world with
  | (w1, Suspended url k) =>
      forall o later w2,
        el_id <$> doc w2 = el_id <$> doc sample_world ->
        exec (k o) later w2
        = (put (final_text weather_service later o) 3 w2, Finished (Normal tt))
  | _ => False
  end.
Proof.
  destruct (handler_suspends WeatherData one_day sample_world 3
              "/api/weather/?location=Delhi&latitude=28&longitude=77")
    as (w1 & k & E); [vm_compute; reflexivity..|].
  change (handler_prog WeatherData) with (loadWeatherData (num:=option Z)) in E.
  rewrite E.
  apply (answer_changes_only_container WeatherData one_day sample_world 3 w1
           "/api/weather/?location=Delhi&latitude=28&longitude=77" k).
  - vm_compute. reflexivity.
  - exact E.
Defined.

(** X2 on the sample world: [loadWeatherData] called for Delhi, then
    for Pune, and answered twice, in either order, by bodies that are
    rendered: the container ends with the markup of the later answer. *)
Lemma last_answer_wins_witness :
  match exec loadWeatherData one_day sample_world with
  | (w1, Suspended url1 k1) =>
      match exec loadWeatherData next_day (set_loc sample_pune w1) with
      | (w2, Suspended url2 k2) =>
          innerHTML_at
            (doc (exec (k1 (JsonBody sample_weather)) next_day
                    (exec (k2 (JsonBody sample_located)) next_day w2).1).1) 3
          = Some (final_text weather_service next_day (JsonBody sample_weather)) /\
          innerHTML_at
            (doc (exec (k2 (JsonBody sample_located)) next_day
                    (exec (k1 (JsonBody sample_weather)) next_day w2).1).1) 3
          = Some (final_text weather_service next_day (JsonBody sample_located))
      | _ => False
      end
  | _ => False
  end.
Proof.
  destruct (handler_suspends WeatherData one_day sample_world 3
              "/api/weather/?location=Delhi&latitude=28&longitude=77")
    as (w1 & k1 & E1); [vm_compute; reflexivity..|].
  assert (el_id <$> doc w1 = el_id <$> doc sample_world) as Hids.
  { pose proof (exec_ids (handler_prog WeatherData) one_day sample_world) as Hids.
    by rewrite E1 in Hids. }
  destruct (handler_suspends WeatherData next_day (set_loc sample_pune w1) 3
              "/api/weather/?location=Pune&latitude=18&longitude=73")
    as (w2 & k2 & E2).
  { cbn [doc set_loc]. rewrite (container_of_ids_only WeatherData _ _ Hids).
    vm_compute. reflexivity. }
  { vm_compute. reflexivity. }
  assert (container_of WeatherData (doc sample_world) = Some 3) as Hc
      by (vm_compute; reflexivity).
  destruct (last_answer_wins WeatherData one_day next_day sample_world w1
              (set_loc sample_pune w1) w2
              "/api/weather/?location=Delhi&latitude=28&longitude=77"
              "/api/weather/?location=Pune&latitude=18&longitude=73" k1 k2 3
              Hc E1 eq_refl E2
              (JsonBody sample_weather) (JsonBody sample_located) next_day next_day)
    as [Hfirst Hsecond].
  change (handler_prog WeatherData) with (loadWeatherData (num:=option Z)) in E1, E2.
  rewrite E1, E2.
  split; [apply Hfirst|apply Hsecond]; vm_compute; reflexivity.
Defined.




(** X7 on the sample world: the location is changed to Pune *)
Lemma updateLocation_reloads_witness :
  exists w' ks,
    exec (updateLocation (VStr "Pune") (VNum (Some 18%Z)) (VNum (Some 73%Z)))
      one_day sample_world
    = (w', Finished (Normal tt)) /\
    loc w' = sample_pune /\
    requests w' = (requests sample_world ++ (fst <$> ks))%list /\
    fst <$> ks
    = (requested (container_of MarketPrices (doc sample_world))
         (market_url "Pune" "18" "73")
       ++ requested (container_of WeatherData (doc sample_world))
            (weather_url "Pune" "18" "73")
       ++ requested (container_of GovernmentSchemes (doc sample_world))
            (schemes_url "Pune")
       ++ requested (container_of CropRecommendations (doc sample_world))
            (crops_url "Pune"))%list /\
    pending w' = (pending sample_world ++ ks)%list /\
    (forall url k, (url, k) ∈ ks ->
                   exists h c, container_of h (doc sample_world) = Some c /\
                               renders h c k) /\
    (forall h c, container_of h (doc sample_world) = Some c ->
                 innerHTML_at (doc w') c = Some (loading_of h)) /\
    (forall j, (forall h, container_of h (doc sample_world) <> Some j) ->
               doc w' !! j = doc sample_world !! j).
Proof.
  apply (updateLocation_reloads (VStr "Pune") (VNum (Some 18%Z)) (VNum (Some 73%Z))
           "Pune" "18" "73" one_day sample_world).
  - reflexivity.
  - vm_compute. reflexivity.
  - vm_compute. reflexivity.
Defined.

(** X8 on the sample world: a latitude that cannot be printed *)
Lemma updateLocation_unprintable_witness :
  exists e,
    exec (updateLocation (VStr "Pune") sample_unprintable (VNum (Some 73%Z)))
      one_day sample_world
    = (set_loc (Location (VStr "Pune") sample_unprintable (VNum (Some 73%Z)))
         sample_world,
       Finished (Thrown e)).
Proof.
  apply (updateLocation_unprintable (VStr "Pune") sample_unprintable (VNum (Some 73%Z))
           one_day sample_world).
  vm_compute. reflexivity.
Defined.

(** X10 on the sample world: [showService('weather')] *)
Lemma showService_loads_service_witness :
  exists w' k,
    exec (showService "weather") one_day sample_world = (w', Finished (Normal tt)) /\
    viewport w' = Some 2 /\
    requests w'
    = (requests sample_world
       ++ ["/api/weather/?location=Delhi&latitude=28&longitude=77"])%list /\
    pending w'
    = (pending sample_world
       ++ [("/api/weather/?location=Delhi&latitude=28&longitude=77", k)])%list /\
    innerHTML_at (doc w') 3 = Some (loading_of WeatherData) /\
    renders WeatherData 3 k.
Proof.
  apply (showService_loads_service WeatherData one_day sample_world 2 3
           "/api/weather/?location=Delhi&latitude=28&longitude=77").
  - vm_compute. reflexivity.
  - vm_compute. reflexivity.
  - vm_compute. reflexivity.
Defined.

(** X12 for the attribute of the weather card *)
Lemma service_name_read_back_witness :
  (forall post, match_showService (showService_call "weather" +:+ post) = Some "weather") /\
  (forall pre post,
      is_Some (match_showService (pre +:+ showService_call "weather" +:+ post))).
Proof.
  apply (service_name_read_back "weather").
  - discriminate.
  - vm_compute. reflexivity.
Defined.

(** X13 for an attribute that does more than call [showService] *)
Lemma service_name_found_witness :
  "weather" <> "" /\ unquoted "weather" = true /\
  exists pre post,
    "track('card'); showService('weather'); return false"
    = pre +:+ showService_call "weather" +:+ post.
Proof.
  apply (service_name_found "track('card'); showService('weather'); return false"
           "weather").
  vm_compute. reflexivity.
Defined.

(** X14 on the sample world: the listener of the weather card, the card
    having no transform and no timer *)
Lemma card_click_shows_service_witness :
  service_card_click (Some (showService_call "weather")) one_day sample_world
    (CardState false false "" [])
  = ((exec (showService "weather") one_day sample_world).1, Finished (Normal tt),
     CardState true true "scale(0.95)" [(150%Z, "")]).
Proof.
  apply (card_click_shows_service "weather" one_day sample_world
           (CardState false false "" [])).
  - discriminate.
  - vm_compute. reflexivity.
Defined.

(** X15 on a document without [pricesData] *)
Lemma fetchMarketPrices_needs_container_witness :
  exec (fetchMarketPrices sample_displayAllCrops) one_day bare_world
  = (bare_world, Finished (Thrown TypeError)).
Proof.
  apply (fetchMarketPrices_needs_container sample_displayAllCrops one_day bare_world).
  vm_compute. reflexivity.
Defined.

(** X16 on the sample world *)
Lemma fetchMarketPrices_shows_failure_witness :
  match realtime_market_request (loc sample_world) with
  | Thrown _ =>
      exec (fetchMarketPrices sample_displayAllCrops) one_day sample_world
      = (put fetchMarketPrices_error 1 sample_world, Finished (Normal tt))
  | Normal url =>
      exists k,
        exec (fetchMarketPrices sample_displayAllCrops) one_day sample_world
        = (add_request url (put fetchMarketPrices_loading 1 sample_world),
           Suspended url k) /\
        forall o later w2,
          getElementById (doc w2) "pricesData" = Some 1 ->
          match o with
          | FetchRejected | JsonRejected => True
          | JsonBody data => exists e, marketData_of data = Thrown e
          end ->
          exec (k o) later w2 = (put fetchMarketPrices_error 1 w2, Finished (Normal tt))
  end.
Proof.
  apply (fetchMarketPrices_shows_failure sample_displayAllCrops one_day sample_world 1).
  vm_compute. reflexivity.
Defined.

(** X17 on the sample world, for a body without crops *)
Lemma fetchMarketPrices_without_crops_witness :
  match exec (fetchMarketPrices sample_displayAllCrops) one_day sample_world with
  | (w1, Suspended url k) =>
      forall later w2,
        getElementById (doc w2) "pricesData" = Some 1 ->
        exec (k (JsonBody sample_located)) later w2
        = (put fetchMarketPrices_unavailable 1 w2, Finished (Normal tt))
  | _ => False
  end.
Proof.
  destruct (fetchMarketPrices_suspends sample_displayAllCrops one_day sample_world 1
              "/api/realtime-gov/market_prices/?location=Delhi&latitude=28&longitude=77")
    as (w1 & k & E); [vm_compute; reflexivity..|].
  rewrite E.
  apply (fetchMarketPrices_without_crops sample_displayAllCrops one_day sample_world 1
           w1 "/api/realtime-gov/market_prices/?location=Delhi&latitude=28&longitude=77" k
           sample_located VUndef).
  - vm_compute. reflexivity.
  - exact E.
  - vm_compute. reflexivity.
  - vm_compute. reflexivity.
Defined.

(** X18 on the sample world, for a body with a crop named Wheat *)
Lemma fetchMarketPrices_displays_crops_witness :
  match exec (fetchMarketPrices sample_displayAllCrops) one_day sample_world with
  | (w1, Suspended url k) =>
      forall later w2,
        getElementById (doc w2) "pricesData" = Some 1 ->
        exec (k (JsonBody sample_named_crops)) later w2
        = exec (try_catch (call (sample_displayAllCrops sample_named_crops) Done)
                  fetchMarketPrices_catch) later w2
  | _ => False
  end.
Proof.
  destruct (fetchMarketPrices_suspends sample_displayAllCrops one_day sample_world 1
              "/api/realtime-gov/market_prices/?location=Delhi&latitude=28&longitude=77")
    as (w1 & k & E); [vm_compute; reflexivity..|].
  rewrite E.
  apply (fetchMarketPrices_displays_crops sample_displayAllCrops one_day sample_world 1
           w1 "/api/realtime-gov/market_prices/?location=Delhi&latitude=28&longitude=77" k
           sample_named_crops [VObj [("name", VStr "Wheat")]]
           (VObj [("name", VStr "Wheat")]) "Wheat").
  - vm_compute. reflexivity.
  - exact E.
  - vm_compute. reflexivity.
  - intros x Hx. apply list_elem_of_singleton in Hx as ->. exists "Wheat".
    vm_compute. reflexivity.
  - apply list_elem_of_here.
  - vm_compute. reflexivity.
  - discriminate.
Defined.

(** X19 on the sample template, for the script that patches
    [loadMarketPrices] *)
Lemma patch_touches_only_template_witness :
  let d := sample_disk sample_template in
  let d' := writeFileSync d template_path
              (before sample_template 8 +:+ newFunction_loadMarketPrices
               +:+ from sample_template 93) in
  exists content,
    files d !! template_path = Some content /\
    (forall path, path <> template_path -> files d' !! path = files d !! path) /\
    ((occurs marker_loadMarketPrices content /\
      occurs marker_searchMandiByLocation content /\
      exists content', d' = writeFileSync d template_path content') \/
     ((~ occurs marker_loadMarketPrices content \/
       ~ occurs marker_searchMandiByLocation content) /\
      d' = d)).
Proof.
  cbv zeta.
  apply (patch_touches_only_template PatchLoadMarketPrices (sample_disk sample_template)).
  vm_compute. reflexivity.
Defined.

(** X20 on the sample template, for the script that patches
    [loadMarketPrices] *)
Lemma patch_installs_replacement_witness :
  exists content',
    fix_market_prices (sample_disk sample_template)
    = Normal (writeFileSync (sample_disk sample_template) template_path content') /\
    first_occurrence marker_loadMarketPrices content' 8 /\
    occurs_at newFunction_loadMarketPrices content' 8.
Proof.
  apply (patch_installs_replacement PatchLoadMarketPrices (sample_disk sample_template)
           sample_template 8).
  - vm_compute. reflexivity.
  - apply index_first_occurrence. vm_compute. reflexivity.
  - exists 93. vm_compute. reflexivity.
Defined.

(** X21 on the sample template, for the script that patches
    [fetchMarketPrices] *)
Lemma patch_idempotent_witness :
  exists content',
    fix_fetch_market_prices (sample_disk sample_template)
    = Normal (writeFileSync (sample_disk sample_template) template_path content') /\
    forall d',
      files d' !! template_path = Some content' ->
      fix_fetch_market_prices d' = Normal (writeFileSync d' template_path content') /\
      files (writeFileSync d' template_path content') = files d'.
Proof.
  apply (patch_idempotent PatchFetchMarketPrices (sample_disk sample_template)
           sample_template 50 93).
  - vm_compute. reflexivity.
  - apply index_first_occurrence. vm_compute. reflexivity.
  - apply index_first_occurrence. vm_compute. reflexivity.
  - lia.
Defined.

(** X22 on a template in which the end marker comes first *)
Lemma patch_in_wrong_order_duplicates_witness :
  fix_market_prices (sample_disk sample_swapped_template)
  = Normal (writeFileSync (sample_disk sample_swapped_template) template_path
              (before sample_swapped_template 51
               +:+ (newFunction_loadMarketPrices
                    +:+ String.substring 8 (51 - 8) sample_swapped_template)
               +:+ from sample_swapped_template 51)) /\
  sample_swapped_template
  = before sample_swapped_template 51 +:+ from sample_swapped_template 51.
Proof.
  apply (patch_in_wrong_order_duplicates PatchLoadMarketPrices
           (sample_disk sample_swapped_template) sample_swapped_template 51 8).
  - vm_compute. reflexivity.
  - apply index_first_occurrence. vm_compute. reflexivity.
  - apply index_first_occurrence. vm_compute. reflexivity.
  - lia.
Defined.

(** A marker that [indexOf] does not find does not occur *)
Lemma index_None_absent (marker content : string) :
  marker <> "" -> String.index 0 marker content = None -> ~ occurs marker content.
Proof.
  intros Hne Hindex [k Hk].
  by apply (index_correct3 0 k _ _ Hindex Hne (Nat.le_0_l k)).
Qed.

(** X23 on the sample template, in which [fetchMarketPrices] is defined
    between the two markers *)
Lemma load_patch_disables_fetch_patch_witness :
  exists d1,
    fix_market_prices (sample_disk sample_template) = Normal d1 /\
    writes d1
    = (writes (sample_disk sample_template)
       ++ [(template_path, before sample_template 8 +:+ newFunction_loadMarketPrices
                           +:+ from sample_template 93)])%list /\
    fix_fetch_market_prices d1 = Normal d1.
Proof.
  apply (load_patch_disables_fetch_patch (sample_disk sample_template) sample_template
           8 93).
  - vm_compute. reflexivity.
  - apply index_first_occurrence. vm_compute. reflexivity.
  - apply index_first_occurrence. vm_compute. reflexivity.
  - apply index_None_absent; [discriminate|vm_compute; reflexivity].
  - apply index_None_absent; [discriminate|vm_compute; reflexivity].
Defined.

(** X24 on the sample template *)
Lemma load_patch_absorbs_fetch_patch_witness :
  exists d1 content',
    fix_fetch_market_prices (sample_disk sample_template) = Normal d1 /\
    fix_market_prices (sample_disk sample_template)
    = Normal (writeFileSync (sample_disk sample_template) template_path content') /\
    fix_market_prices d1 = Normal (writeFileSync d1 template_path content').
Proof.
  apply (load_patch_absorbs_fetch_patch (sample_disk sample_template) sample_template
           8 50 93).
  - vm_compute. reflexivity.
  - apply index_first_occurrence. vm_compute. reflexivity.
  - apply index_first_occurrence. vm_compute. reflexivity.
  - apply index_first_occurrence. vm_compute. reflexivity.
  - vm_compute. lia.
  - lia.
Defined.
